(** * Movie-catalog scraper: a shallow embedding of the acquisition engine

    The development follows the Python sources of the repository:

    - [step1_scraping_unified.py]      (baseline API / BS4 / Selenium runner,
                                        metrics, normalisers, join by id),
    - [step3b_multithreading_scrapers.py] (thread pools sharing one metrics
                                        accumulator),
    - [step3c_proxy_tor_runner.py]     (Tor probe, route tags, [safe_get],
                                        fallback to the HTTP session).

    Python values are modelled by inductive types, Python [float] by IEEE-754
    binary64 as specified in [SpecFloat], [int] by [Z], dictionaries by
    [gmap].  Library calls whose code is not part of the repository (the
    HTML parser, the pandas date parser, the string-to-float parser of the
    interpreter, the remote web site) are section variables or fields of an
    explicit world.  *)

From Stdlib Require Import ZArith Bool Lia.
From Stdlib Require Import Floats.SpecFloat.
From Stdlib Require Import Ascii String Numbers.DecimalString Numbers.DecimalPos.
From stdpp Require Import base option list strings gmap relations.

Local Open Scope Z_scope.

(** ** Python floats: IEEE-754 binary64 *)

Module PyFloat.

Definition prec : Z := 53.
Definition emax : Z := 1024.

Definition float : Type := spec_float.

(** [float(z)] for an [int] that fits: round to nearest, ties to even. *)
Definition of_Z (z : Z) : float := binary_normalize prec emax z 0 false.

Definition fzero : float := S754_zero false.
Definition fnegzero : float := S754_zero true.
Definition fone : float := Eval vm_compute in of_Z 1.
Definition ften : float := Eval vm_compute in of_Z 10.
Definition fthousand : float := Eval vm_compute in of_Z 1000.

Definition fadd : float -> float -> float := SFadd prec emax.
Definition fmul : float -> float -> float := SFmul prec emax.
Definition fdiv : float -> float -> float := SFdiv prec emax.

(** Python's [<], [>], [<=] and [==] on floats. *)
Definition flt (x y : float) : bool := SFltb x y.
Definition fgt (x y : float) : bool := SFltb y x.
Definition fle (x y : float) : bool := SFleb x y.
Definition feq (x y : float) : bool := SFeqb x y.

(** The two-argument builtins [min(a, b)] and [max(a, b)]: the first
    argument is kept unless the second compares strictly below (above). *)
Definition pymin (a b : float) : float := if flt b a then b else a.
Definition pymax (a b : float) : float := if fgt b a then b else a.

(** [int -> float] as [float(z)] performs it: [OverflowError] when the
    rounded value is not finite. *)
Definition float_of_int (z : Z) : option float :=
  match of_Z z with
  | S754_infinity _ => None
  | f => Some f
  end.

(** Nearest integer to [num / den] ([den > 0]), ties to even. *)
Definition round_half_even (num den : Z) : Z :=
  let q := num / den in
  let r := num mod den in
  match 2 * r ?= den with
  | Lt => q
  | Gt => q + 1
  | Eq => if Z.even q then q else q + 1
  end.

(** [round(x, n)] for a float [x] and [n >= 0]: the decimal with [n]
    fractional digits nearest to the exact value of [x] (ties to even),
    converted back to the nearest float.  Zeros, infinities and NaN are
    returned unchanged, and so is every float that is an integer. *)
Definition round_nd (n : nat) (x : float) : float :=
  match x with
  | S754_finite s m e =>
      if 0 <=? e then x
      else
        let p := 10 ^ Z.of_nat n in
        match round_half_even (Zpos m * p) (2 ^ (- e)) with
        | Zpos k =>
            SFdiv prec emax (S754_finite s k 0) (S754_finite false (Z.to_pos p) 0)
        | _ => S754_zero s
        end
  | _ => x
  end.

(** [sum(xs)] over a list of floats: the accumulator starts as the
    [int] 0 and the items are added left to right (the plain float
    addition of CPython up to 3.11; later versions add a compensation
    term to the same left-to-right pass). *)
Definition fsum (xs : list float) : float := fold_left fadd xs fzero.

(** The exact integer value of a float, when it has one. *)
Definition exact_int (x : float) : option Z :=
  match x with
  | S754_zero _ => Some 0
  | S754_finite s m e =>
      let v := if s then Zneg m else Zpos m in
      if 0 <=? e then Some (v * 2 ^ e)
      else if (Zpos m mod 2 ^ (- e)) =? 0 then Some (v / 2 ^ (- e))
      else None
  | _ => None
  end.

End PyFloat.

Export PyFloat.

(** ** Python numbers and JSON-like values *)

Inductive pynum : Type :=
  | PInt (z : Z)
  | PFloat (f : float).

(** [a == b] on numbers: exact comparison, also across [int] and [float]. *)
Definition pynum_eqb (a b : pynum) : bool :=
  match a, b with
  | PInt x, PInt y => x =? y
  | PFloat x, PFloat y => feq x y
  | PInt x, PFloat y | PFloat y, PInt x =>
      match exact_int y with
      | Some v => v =? x
      | None => false
      end
  end.

(** [sum(xs)]: the [int] 0 for the empty list, a float otherwise. *)
Definition pysum (xs : list float) : pynum :=
  match xs with
  | [] => PInt 0
  | _ => PFloat (fsum xs)
  end.

(** [round(v, n)]: an [int] is returned as it is for [n >= 0]. *)
Definition pyround (n : nat) (v : pynum) : pynum :=
  match v with
  | PInt z => PInt z
  | PFloat f => PFloat (round_nd n f)
  end.

(** The values a scraped field can hold before normalisation. *)
Inductive pyval : Type :=
  | VNone
  | VBool (b : bool)
  | VInt (z : Z)
  | VFloat (f : float)
  | VStr (s : string)
  | VObj.   (* any other object: a list, a dict, ... *)

(** Exceptions, as far as the handlers of the sources tell them apart:
    [TimeoutException] is a [WebDriverException]; all of them are
    [Exception]s. *)
Inductive exn : Type :=
  | TimeoutException
  | WebDriverException
  | RequestException
  | ZeroDivisionError
  | OtherException.

Definition is_TimeoutException (e : exn) : bool :=
  match e with TimeoutException => true | _ => false end.

Definition is_WebDriverException (e : exn) : bool :=
  match e with TimeoutException | WebDriverException => true | _ => false end.

(** What a call returns or raises. *)
Inductive outcome (A : Type) : Type :=
  | Returned (a : A)
  | Raised (e : exn).
Arguments Returned {A} a.
Arguments Raised {A} e.

(** [x / y] on floats raises on a zero divisor. *)
Definition pydiv (x y : float) : outcome float :=
  match y with
  | S754_zero _ => Raised ZeroDivisionError
  | _ => Returned (fdiv x y)
  end.

(** ** Record normalisers ([normalize_rating], [normalize_date]) *)

Module Normalizer.

(** A normalised rating: a float, or the sentinel ["N/A"]. *)
Inductive rating : Type :=
  | RNum (f : float)
  | RNA.

Definition rating_eqb (a b : rating) : bool :=
  match a, b with
  | RNum x, RNum y => feq x y
  | RNA, RNA => true
  | _, _ => false
  end.

Section Rating.
(** [float(s)] on a string is the interpreter's parser; [None] stands
    for [ValueError]. *)
Variable float_of_str : string -> option float.

(** [float(x)]; [None] stands for the exception it raises
    ([TypeError], [ValueError] or [OverflowError]). *)
Definition py_float (x : pyval) : option float :=
  match x with
  | VNone => None
  | VBool b => Some (if b then fone else fzero)
  | VInt z => float_of_int z
  | VFloat f => Some f
  | VStr s => float_of_str s
  | VObj => None
  end.

(** step1_scraping_unified.py, [normalize_rating]:
<<
    try:
        v = float(x)
        if v > 10:  v = v / 10.0
        return round(max(0.0, min(10.0, v)), 1)
    except Exception:
        return "N/A"
>>
    ([norm_rating] of step3c and [normalize_rating] of step3b are the
    same function written on one line). *)
Definition normalize_rating (x : pyval) : rating :=
  match py_float x with
  | None => RNA
  | Some v =>
      let v := if fgt v ften then fdiv v ften else v in
      RNum (round_nd 1 (pymax fzero (pymin ften v)))
  end.
End Rating.

(** The clamp of the specification: [lo] below [lo], [hi] above [hi]. *)
Definition clamp (x lo hi : float) : float :=
  if flt x lo then lo else if flt hi x then hi else x.

(** Calendar dates and pandas timestamps. *)
Record date : Type := mkDate { year : Z; month : Z; day : Z }.

Record timestamp : Type := mkTimestamp { ts_date : date; ts_nanos : Z }.

Definition midnight (d : date) : timestamp := mkTimestamp d 0.

Definition is_leap (y : Z) : bool :=
  ((y mod 4 =? 0) && negb (y mod 100 =? 0)) || (y mod 400 =? 0).

Definition days_in_month (y m : Z) : Z :=
  if m =? 2 then (if is_leap y then 29 else 28)
  else if (m =? 4) || (m =? 6) || (m =? 9) || (m =? 11) then 30
  else 31.

(** A calendar day with a four-digit year, as [%Y-%m-%d] prints it on
    ten characters. *)
Definition valid_date (d : date) : bool :=
  (1000 <=? year d) && (year d <=? 9999) &&
  (1 <=? month d) && (month d <=? 12) &&
  (1 <=? day d) && (day d <=? days_in_month (year d) (month d)).

Definition digit_char (n : Z) : ascii :=
  ascii_of_nat (48 + Z.to_nat (n mod 10)).

Definition pad2 (n : Z) : string :=
  String (digit_char (n / 10)) (String (digit_char n) EmptyString).

Definition pad4 (n : Z) : string :=
  String (digit_char (n / 1000)) (String (digit_char (n / 100)) (pad2 n)).

(** A day of the calendar, as a timestamp holds it: the years 1 to 9999. *)
Definition calendar_day (d : date) : bool :=
  (1 <=? year d) && (year d <=? 9999) &&
  (1 <=? month d) && (month d <=? 12) &&
  (1 <=? day d) && (day d <=? days_in_month (year d) (month d)).

(** A number in decimal, without leading zeros. *)
Definition decimal (n : Z) : string := NilZero.string_of_int (Z.to_int n).

(** [dt.strftime("%Y-%m-%d")].  [%m] and [%d] print two digits; [%Y]
    prints the year in decimal without leading zeros, as the C library
    of Linux does: the year 50 gives ["50-01-01"], and only the years from
    1000 on give the ten characters of an ISO date. *)
Definition strftime_ymd (t : timestamp) : string :=
  let d := ts_date t in
  decimal (year d) +:+ "-" +:+ pad2 (month d) +:+ "-" +:+ pad2 (day d).

Section Date.
(** [pd.to_datetime(s, errors="coerce")] on a scalar; [None] is [NaT]. *)
Variable to_datetime : pyval -> option timestamp.

(** step1_scraping_unified.py, [normalize_date]:
<<
    dt = pd.to_datetime(s, errors="coerce")
    return dt.strftime("%Y-%m-%d") if not pd.isna(dt) else "N/A"
>> *)
Definition normalize_date (s : pyval) : string :=
  match to_datetime s with
  | Some dt => strftime_ymd dt
  | None => "N/A"
  end.
End Date.

(** A reference reader for ISO dates: ten characters [YYYY-MM-DD]
    naming a day of a year from 1000 on. *)
Definition digit_val (c : ascii) : option Z :=
  let n := Z.of_nat (nat_of_ascii c) in
  if (48 <=? n) && (n <=? 57) then Some (n - 48) else None.

Definition parse_iso_date (s : string) : option date :=
  match s with
  | String y3 (String y2 (String y1 (String y0 (String "-"
      (String m1 (String m0 (String "-"
        (String d1 (String d0 EmptyString))))))))) =>
      y3 ← digit_val y3; y2 ← digit_val y2; y1 ← digit_val y1;
      y0 ← digit_val y0;
      m1 ← digit_val m1; m0 ← digit_val m0;
      d1 ← digit_val d1; d0 ← digit_val d0;
      let d := mkDate (1000 * y3 + 100 * y2 + 10 * y1 + y0)
                      (10 * m1 + m0) (10 * d1 + d0) in
      if valid_date d then Some d else None
  | _ => None
  end.

(** An instance of the date parser that reads ISO dates only. *)
Definition iso_to_datetime (x : pyval) : option timestamp :=
  match x with
  | VStr s => midnight <$> parse_iso_date s
  | _ => None
  end.


(** An instance of the string-to-float parser that reads plain runs of
    decimal digits only. *)
Fixpoint digits_value (acc : Z) (s : string) : option Z :=
  match s with
  | EmptyString => Some acc
  | String c rest =>
      match digit_val c with
      | Some d => digits_value (10 * acc + d) rest
      | None => None
      end
  end.

Definition digits_to_float (s : string) : option float :=
  match s with
  | EmptyString => None
  | _ => z ← digits_value 0 s; float_of_int z
  end.

End Normalizer.

(** ** The metrics accumulator ([class Metrics]) *)

Module Metrics.

(** [request_count], [total_bytes], [latencies] of step1 ([count],
    [bytes], [latencies] in step3b; [n], [b], [ts] in step3c). *)
Record metrics : Type := mkMetrics {
  request_count : Z;
  total_bytes : Z;
  latencies : list float
}.

(** [Metrics()] *)
Definition init : metrics := mkMetrics 0 0 [].

(** [record(latency_s, bytes_count)]:
<<
      self.request_count += 1
      self.total_bytes += max(0, int(bytes_count))
      self.latencies.append(max(0.0, float(latency_s)))
>> *)
Definition record (m : metrics) (latency_s : float) (bytes_count : Z) : metrics :=
  {| request_count := request_count m + 1;
     total_bytes := total_bytes m + Z.max 0 bytes_count;
     latencies := latencies m ++ [pymax fzero latency_s] |}.

(** The dictionary [summary()] returns. *)
Record summary_dict : Type := mkSummary {
  requests : Z;
  bytes : Z;
  avg_latency_ms : float;
  total_latency_s : pynum
}.

(** [len(xs)] as the float the division converts it to. *)
Definition flen (xs : list float) : float := of_Z (Z.of_nat (length xs)).

(** step1: [avg_ms = 1000.0 * (sum(lat) / len(lat))] when [lat] is not
    empty, [0.0] otherwise. *)
Definition avg_ms (lat : list float) : outcome float :=
  match lat with
  | [] => Returned fzero
  | _ =>
      match pydiv (fsum lat) (flen lat) with
      | Returned q => Returned (fmul fthousand q)
      | Raised e => Raised e
      end
  end.

(** step3b and step3c: [sum(ts) / len(ts) * 1000.0 if ts else 0.0]. *)
Definition avg_ms_mt (lat : list float) : outcome float :=
  match lat with
  | [] => Returned fzero
  | _ =>
      match pydiv (fsum lat) (flen lat) with
      | Returned q => Returned (fmul q fthousand)
      | Raised e => Raised e
      end
  end.

(** [summary()] of step1. *)
Definition summary (m : metrics) : outcome summary_dict :=
  match avg_ms (latencies m) with
  | Returned avg =>
      Returned {| requests := request_count m;
                  bytes := total_bytes m;
                  avg_latency_ms := round_nd 2 avg;
                  total_latency_s := pyround 3 (pysum (latencies m)) |}
  | Raised e => Raised e
  end.

(** [summary()] of step3b, [sum()] of step3c. *)
Definition summary_mt (m : metrics) : outcome summary_dict :=
  match avg_ms_mt (latencies m) with
  | Returned avg =>
      Returned {| requests := request_count m;
                  bytes := total_bytes m;
                  avg_latency_ms := round_nd 2 avg;
                  total_latency_s := pyround 3 (pysum (latencies m)) |}
  | Raised e => Raised e
  end.

(** A run of [record] calls, in order. *)
Definition record_all (m : metrics) (calls : list (float * Z)) : metrics :=
  fold_left (fun m c => record m (fst c) (snd c)) calls m.

(** The samples a run of calls stores: each latency after [max(0.0, _)]. *)
Definition samples (calls : list (float * Z)) : list float :=
  map (fun c => pymax fzero (fst c)) calls.

(** The mean of the specification: the sum over the number of items. *)
Definition mean (xs : list float) : float := fdiv (fsum xs) (flen xs).

End Metrics.

(** ** Worker threads recording into one accumulator (step3b)

    [scrape_api_mt] and [scrape_bs4_mt] hand one [Metrics] object to every
    task of a [ThreadPoolExecutor].  [Metrics.record] takes no lock, so a
    call is the sequence of loads and stores its three statements compile
    to.  In this module the threads may switch between any two of them,
    which covers every interpreter; [MetricsGil] below lets them switch
    only where CPython does.  [list.append] is one atomic step. *)

Module MetricsMT.
Import Metrics.

(** Where a worker stands inside its current [record(latency, size)]. *)
Inductive pc : Type :=
  | Idle
  | LoadedCount (tmp : Z) (latency : float) (size : Z)   (* read self.count *)
  | StoredCount (latency : float) (size : Z)             (* wrote self.count *)
  | LoadedBytes (tmp : Z) (latency : float) (size : Z)   (* read self.bytes *)
  | StoredBytes (latency : float) (size : Z).            (* wrote self.bytes *)

(** A worker: its position and the [record] calls it has still to make. *)
Record worker : Type := mkWorker { w_pc : pc; w_todo : list (float * Z) }.

Record pool : Type := mkPool { shared : metrics; workers : list worker }.

(** One step of one worker on the shared accumulator. *)
Definition worker_step (m : metrics) (w : worker) : option (metrics * worker) :=
  match w_pc w, w_todo w with
  | Idle, [] => None
  | Idle, (l, s) :: rest =>
      Some (m, mkWorker (LoadedCount (request_count m) l s) rest)
  | LoadedCount t l s, todo =>
      Some (mkMetrics (t + 1) (total_bytes m) (latencies m),
            mkWorker (StoredCount l s) todo)
  | StoredCount l s, todo =>
      Some (m, mkWorker (LoadedBytes (total_bytes m) l s) todo)
  | LoadedBytes t l s, todo =>
      Some (mkMetrics (request_count m) (t + Z.max 0 s) (latencies m),
            mkWorker (StoredBytes l s) todo)
  | StoredBytes l s, todo =>
      Some (mkMetrics (request_count m) (total_bytes m)
                      (latencies m ++ [pymax fzero l]),
            mkWorker Idle todo)
  end.

(** The scheduler runs any worker that can move. *)
Inductive step : pool -> pool -> Prop :=
  | step_worker (p : pool) (i : nat) (w w' : worker) (m' : metrics) :
      workers p !! i = Some w ->
      worker_step (shared p) w = Some (m', w') ->
      step p (mkPool m' (<[i := w']> (workers p))).

(** A schedule in which every [record] call runs from its first load to
    its append without another worker in between. *)
Inductive step_serial : pool -> pool -> Prop :=
  | step_serial_call (p : pool) (i : nat) (l : float) (s : Z)
                     (rest : list (float * Z)) :
      workers p !! i = Some (mkWorker Idle ((l, s) :: rest)) ->
      step_serial p (mkPool (record (shared p) l s)
                            (<[i := mkWorker Idle rest]> (workers p))).

Definition worker_done (w : worker) : Prop := w = mkWorker Idle [].

(** Every worker has returned. *)
Definition finished (p : pool) : Prop := Forall worker_done (workers p).

(** The pool when the executor starts: a fresh accumulator and, for each
    worker, the calls its tasks will make. *)
Definition start (todos : list (list (float * Z))) : pool :=
  mkPool init (map (mkWorker Idle) todos).

(** The number of [record] calls submitted over all workers. *)
Definition total_calls (todos : list (list (float * Z))) : nat :=
  sum_list_with length todos.

(** An executable schedule: run the workers named in turn. *)
Fixpoint run_schedule (sched : list nat) (p : pool) : option pool :=
  match sched with
  | [] => Some p
  | i :: rest =>
      w ← workers p !! i;
      r ← worker_step (shared p) w;
      run_schedule rest (mkPool (fst r) (<[i := snd r]> (workers p)))
  end.


(** Calls a worker has been handed and has not appended yet. *)
Definition pending (w : worker) : nat :=
  (length (w_todo w) + match w_pc w with Idle => 0 | _ => 1 end)%nat.

(** 1 while the worker is past its store to [count] and before its append. *)
Definition stored (w : worker) : nat :=
  match w_pc w with
  | StoredCount _ _ | LoadedBytes _ _ _ | StoredBytes _ _ => 1%nat
  | _ => 0%nat
  end.

(** The stores to [count] performed so far. *)
Definition stores_done (p : pool) : Z :=
  Z.of_nat (length (latencies (shared p)) + sum_list_with stored (workers p)).

(** A value read from [count] and not written back yet is not above the
    number of stores performed. *)
Definition tmp_bounded (b : Z) (w : worker) : Prop :=
  match w_pc w with
  | LoadedCount t _ _ => 0 <= t <= b
  | _ => True
  end.

(** What every schedule keeps: each of the [total] calls is still to be
    appended or is in the list; the counter is between 0 and the number of
    stores made to it, and at least 1 after the first store; no worker
    holds a value above the number of stores. *)
Record invariant (total : nat) (p : pool) : Prop := mkInvariant {
  inv_pending :
    (length (latencies (shared p)) + sum_list_with pending (workers p))%nat = total;
  inv_count : 0 <= request_count (shared p) <= stores_done p;
  inv_first : 0 < stores_done p -> 1 <= request_count (shared p);
  inv_tmp : Forall (tmp_bounded (stores_done p)) (workers p)
}.

(** The serial schedule keeps the counter equal to the number of samples. *)
Record serial_invariant (total : nat) (p : pool) : Prop := mkSerial {
  ser_total :
    (length (latencies (shared p)) + sum_list_with pending (workers p))%nat = total;
  ser_count : request_count (shared p) = Z.of_nat (length (latencies (shared p)))
}.

(** Two workers with one call each, and a schedule in which both read
    [count] before either writes it back. *)
Definition two_workers : list (list (float * Z)) :=
  [[(fone, 100)]; [(fone, 200)]].

Definition racy_schedule : list nat :=
  [0; 1; 0; 1; 0; 0; 0; 1; 1; 1]%nat.

Definition racy_result : option pool :=
  Eval vm_compute in run_schedule racy_schedule (start two_workers).

End MetricsMT.

(** ** The record schema and the outside world *)

Module Schema.
Export Normalizer.

(** One scraped movie: the nine columns of [HEADERS]. *)
Record row : Type := mkRow {
  tmdb_id : option Z;
  title : string;
  release_date : string;
  rating : Normalizer.rating;
  overview : string;
  genres : string;
  poster_url : option string;
  movie_url : string;
  method : string
}.

(** An entry of ["results"] in the listing endpoint's JSON, with the
    types the API documents; [None] is a missing or null field. *)
Record api_item : Type := mkItem {
  it_id : option Z;
  it_title : option string;
  it_original_title : option string;
  it_release_date : pyval;
  it_vote_average : pyval;
  it_overview : option string;
  it_genre_ids : list Z;
  it_poster_path : option string
}.

Definition BASE_URL : string := "https://www.themoviedb.org".

(** [str(z)] for an [int]. *)
Definition str_Z (z : Z) : string := NilZero.string_of_int (Z.to_int z).

(** [x or d] for an optional string: the empty string is falsy. *)
Definition str_or (x : option string) (d : string) : string :=
  match x with
  | Some s => if String.eqb s "" then d else s
  | None => d
  end.

(** [sep.join(xs)]. *)
Definition join (sep : string) (xs : list string) : string :=
  String.concat sep xs.

(** [s.strip()] on ASCII white space. *)
Definition is_space (c : ascii) : bool :=
  let n := nat_of_ascii c in
  ((9 <=? n)%nat && (n <=? 13)%nat) || ((28 <=? n)%nat && (n <=? 32)%nat).

Fixpoint lstrip (s : string) : string :=
  match s with
  | String c rest => if is_space c then lstrip rest else s
  | EmptyString => EmptyString
  end.

Fixpoint rstrip (s : string) : string :=
  match s with
  | String c rest =>
      match rstrip rest with
      | EmptyString => if is_space c then EmptyString else String c EmptyString
      | r => String c r
      end
  | EmptyString => EmptyString
  end.

Definition strip (s : string) : string := rstrip (lstrip s).

Inductive route : Type := Direct | Tor.

(** A [requests] response: [r.ok], the seconds the call took,
    [len(r.content)] and the decoded payload. *)
Record response (A : Type) : Type := mkResponse {
  r_ok : bool;
  r_latency : float;
  r_size : Z;
  r_payload : A
}.
Arguments mkResponse {A}.
Arguments r_ok {A}.
Arguments r_latency {A}.
Arguments r_size {A}.
Arguments r_payload {A}.

(** What the browser does on [driver.get(url)]: whether the call raises,
    the document it then holds, and the seconds reading [page_source]
    takes. *)
Record navigation : Type := mkNavigation {
  nav_raises : option exn;
  nav_dom : string;
  nav_read_latency : float
}.

(** I/O performed so far. *)
Inductive event : Type :=
  | EvApiGenres (via : route)
  | EvApiPopular (via : route) (page : Z)
  | EvHttpGet (via : route) (url : string)
  | EvProbe
  | EvSetPageLoadTimeout (seconds : Z)
  | EvNavigate (via : route) (url : string)
  | EvWindowStop
  | EvSleep.

(** The remote side.  Every answer may depend on the number of requests
    made before it ([nat]). *)
Record world : Type := mkWorld {
  api_genres : nat -> route -> outcome (response (list (Z * string)));
  api_popular : nat -> route -> Z -> outcome (response (list api_item));
  http_get : nat -> route -> string -> outcome (response string);
  tor_probe : nat -> outcome bool;      (* [r.ok] of the check endpoint *)
  browse : nat -> route -> string -> navigation;
  page_source_raises : nat -> option exn   (* [drv.page_source], a command of its own *)
}.

(** The state threaded through a run: requests made, and their log. *)
Record io : Type := mkIo { tick : nat; log : list event }.

Definition io0 : io := mkIo 0 [].

Definition emit (e : event) (s : io) : io := mkIo (S (tick s)) (log s ++ [e]).

Definition note (e : event) (s : io) : io := mkIo (tick s) (log s ++ [e]).

End Schema.

(** ** step1_scraping_unified.py: the API scraper and the join by id *)

Module Step1.
Export Schema.
Import Metrics.

Section Scrapers.
Variable float_of_str : string -> option float.
Variable to_datetime : pyval -> option timestamp.
Variable w : world.

(** [{g.get("id"): g.get("name") for g in ...}]: a later entry
    replaces an earlier one with the same id. *)
Definition genre_dict (gs : list (Z * string)) : gmap Z string :=
  fold_left (fun m g => <[fst g := snd g]> m) gs ∅.

(** The dictionary [scrape_api] appends for one listing entry. *)
Definition api_row (genre_map : gmap Z string) (item : api_item) : row :=
  let genre_names :=
    map (fun gid => default (str_Z gid) (genre_map !! gid)) (it_genre_ids item) in
  {| tmdb_id := it_id item;
     title := match it_title item with
              | Some t => if String.eqb t "" then default "N/A" (it_original_title item) else t
              | None => default "N/A" (it_original_title item)
              end;
     release_date := normalize_date to_datetime (it_release_date item);
     rating := normalize_rating float_of_str (it_vote_average item);
     overview := str_or (it_overview item) "N/A";
     genres := match genre_names with
               | [] => "N/A"
               | _ => join " | " genre_names
               end;
     poster_url := match it_poster_path item with
                   | Some p => if String.eqb p "" then Some "N/A"
                               else Some ("https://image.tmdb.org/t/p/w500" +:+ p)
                   | None => Some "N/A"
                   end;
     movie_url := match it_id item with
                  | Some i => if i =? 0 then "N/A"
                              else BASE_URL +:+ "/movie/" +:+ str_Z i
                  | None => "N/A"
                  end;
     method := "API" |}.

(** The variables of the [while] loop of [scrape_api]. *)
Record api_state : Type := mkApiState {
  a_io : io;
  a_metrics : metrics;
  a_movies : list row;
  a_page : Z;
  a_fetched : Z
}.

(** [for item in results: if fetched >= max_movies: break; ...] *)
Fixpoint take_results (max_movies : Z) (genre_map : gmap Z string)
    (results : list api_item) (movies : list row) (fetched : Z)
    : list row * Z :=
  match results with
  | [] => (movies, fetched)
  | item :: rest =>
      if max_movies <=? fetched then (movies, fetched)
      else take_results max_movies genre_map rest
             (movies ++ [api_row genre_map item]) (fetched + 1)
  end.

(** [while fetched < max_movies: ...] of [scrape_api]; [None] when
    [fuel] iterations were not enough. *)
Fixpoint scrape_api_loop (fuel : nat) (max_movies : Z)
    (genre_map : gmap Z string) (s : api_state) : option (outcome api_state) :=
  match fuel with
  | O => None
  | S fuel' =>
      if a_fetched s <? max_movies then
        let io1 := emit (EvApiPopular Direct (a_page s)) (a_io s) in
        match api_popular w (tick (a_io s)) Direct (a_page s) with
        | Raised e => Some (Raised e)
        | Returned resp =>
            let m1 := record (a_metrics s) (r_latency resp) (r_size resp) in
            let results := if r_ok resp then r_payload resp else [] in
            match results with
            | [] => Some (Returned (mkApiState io1 m1 (a_movies s) (a_page s) (a_fetched s)))
            | _ =>
                let '(movies, fetched) :=
                  take_results max_movies genre_map results (a_movies s) (a_fetched s) in
                scrape_api_loop fuel' max_movies genre_map
                  (mkApiState (note EvSleep io1) m1 movies (a_page s + 1) fetched)
            end
        end
      else Some (Returned s)
  end.

(** [fetch_genre_map]. *)
Definition fetch_genre_map (s : io) (m : metrics)
    : outcome (gmap Z string * io * metrics) :=
  match api_genres w (tick s) Direct with
  | Raised e => Raised e
  | Returned resp =>
      Returned (genre_dict (if r_ok resp then r_payload resp else []),
                emit (EvApiGenres Direct) s,
                record m (r_latency resp) (r_size resp))
  end.

(** [scrape_api(max_movies)]: the movies, the metrics summary and the
    I/O performed (the wall-clock [elapsed_s] entry is left out). *)
Definition scrape_api (fuel : nat) (max_movies : Z) (s : io)
    : option (outcome (list row * summary_dict * io)) :=
  match fetch_genre_map s init with
  | Raised e => Some (Raised e)
  | Returned (genre_map, s1, m1) =>
      match scrape_api_loop fuel max_movies genre_map (mkApiState s1 m1 [] 1 0) with
      | None => None
      | Some (Raised e) => Some (Raised e)
      | Some (Returned st) =>
          match summary (a_metrics st) with
          | Returned msum => Some (Returned (a_movies st, msum, a_io st))
          | Raised e => Some (Raised e)
          end
      end
  end.
End Scrapers.

(** The pages a run asked the listing endpoint for, in order. *)
Definition pages_requested (l : list event) : list Z :=
  omap (fun e => match e with EvApiPopular _ p => Some p | _ => None end) l.

(** The eight columns [build_common_by_id] keeps of a row. *)
Record tidy_row : Type := mkTidy {
  t_tmdb_id : option Z;
  t_title : string;
  t_release_date : string;
  t_rating : Normalizer.rating;
  t_overview : string;
  t_genres : string;
  t_poster_url : option string;
  t_movie_url : string
}.

Definition tidy_of (r : row) : tidy_row :=
  mkTidy (tmdb_id r) (title r) (release_date r) (rating r) (overview r)
         (genres r) (poster_url r) (movie_url r).

(** The key columns that pandas holds as [int64]: every row has an id,
    and the id fits 64 bits.  (From a column with a [None] in it pandas
    makes a column of floats, or of objects when it holds nothing else;
    [merge] then compares the ids as floats, or raises [ValueError] against
    a column of numbers.  Such columns are outside this model: the
    properties of the join are stated for [int64] columns.) *)
Definition int64_id (r : row) : bool :=
  match tmdb_id r with
  | Some i => (- 2 ^ 63 <=? i) && (i <? 2 ^ 63)
  | None => false
  end.

Definition int64_ids (rows : list row) : Prop := forallb int64_id rows = true.

(** [left.merge(right, on="tmdb_id")] on [int64] key columns, an inner
    join: every pair of a left and a right row with the same key, in the
    order of the left rows. *)
Definition merge_on_id {A B : Type} (kl : A -> option Z) (kr : B -> option Z)
    (left : list A) (right : list B) : list (A * B) :=
  x ← left; (fun y => (x, y)) <$> filter (fun y => kl x = kr y) right.

(** [build_common_by_id] on inputs with [int64] id columns: the rows
    written to [movies_common.csv]; the function returns their number. *)
Definition build_common_by_id (api_movies bs4_movies selenium_movies : list row)
    : list tidy_row :=
  match api_movies, bs4_movies, selenium_movies with
  | [], _, _ | _, [], _ | _, _, [] => []
  | _, _, _ =>
      let common :=
        merge_on_id (fun ab => tmdb_id (fst ab)) tmdb_id
          (merge_on_id tmdb_id tmdb_id api_movies bs4_movies) selenium_movies in
      map (fun abs => tidy_of (fst (fst abs))) common
  end.

Definition common_count (api_movies bs4_movies selenium_movies : list row) : nat :=
  length (build_common_by_id api_movies bs4_movies selenium_movies).

End Step1.

(** ** The HTML parser, as the scrapers use it *)

(** [BeautifulSoup(text, "html.parser")], [select], [.text] and [.get]. *)
Class Html : Type := {
  elem : Type;
  parse_html : string -> elem;
  select : elem -> string -> list elem;
  elem_text : elem -> string;
  elem_get : elem -> string -> option string
}.

(** [select_one] is the first result of [select]. *)
Definition select_one `{Html} (e : elem) (selector : string) : option elem :=
  head (select e selector).

(** ** step3c_proxy_tor_runner.py *)

Module Step3c.
Export Schema.
Import Metrics.

Definition TOR_PROXY : string := "socks5h://127.0.0.1:9050".

(** [mid(path)]: [re.search(r"/movie/(\d+)", path or "")], the integer
    after the first ["/movie/"] that a digit follows. *)
Fixpoint strip_prefix (p s : string) : option string :=
  match p, s with
  | EmptyString, _ => Some s
  | String a p', String b s' => if Ascii.eqb a b then strip_prefix p' s' else None
  | String _ _, EmptyString => None
  end.

Fixpoint leading_digits (s : string) : string :=
  match s with
  | String c rest =>
      match digit_val c with
      | Some _ => String c (leading_digits rest)
      | None => EmptyString
      end
  | EmptyString => EmptyString
  end.

Definition match_movie_here (s : string) : option Z :=
  rest ← strip_prefix "/movie/" s;
  match leading_digits rest with
  | EmptyString => None
  | ds => digits_value 0 ds
  end.

Fixpoint mid (path : string) : option Z :=
  match match_movie_here path with
  | Some i => Some i
  | None =>
      match path with
      | String _ rest => mid rest
      | EmptyString => None
      end
  end.

(** [xs[:n]]. *)
Definition py_prefix {A : Type} (n : Z) (xs : list A) : list A :=
  if 0 <=? n then take (Z.to_nat n) xs
  else take (length xs - Z.to_nat (- n)) xs.

(** The run configuration read from the environment. *)
Record config : Type := mkConfig {
  SEL_PAGELOAD_TIMEOUT : Z;
  SEL_RETRIES : Z
}.

(** The route a [requests] session takes for [proxies]. *)
Definition route_of (proxies : bool) : route := if proxies then Tor else Direct.

Section Runner.
Context `{Html}.
Variable float_of_str : string -> option float.
Variable to_datetime : pyval -> option timestamp.
Variable w : world.
Variable cfg : config.

(** [check_tor()]: any exception of the probe counts as unreachable. *)
Definition check_tor (s : io) : bool * io :=
  (match tor_probe w (tick s) with
   | Returned ok => ok
   | Raised _ => false
   end, emit EvProbe s).

(** [fetch_genre_map(session, metrics)]. *)
Definition fetch_genre_map (via : route) (s : io) (m : metrics)
    : outcome (gmap Z string * io * metrics) :=
  match api_genres w (tick s) via with
  | Raised e => Raised e
  | Returned resp =>
      Returned (if r_ok resp then Step1.genre_dict (r_payload resp) else ∅,
                emit (EvApiGenres via) s,
                record m (r_latency resp) (r_size resp))
  end.

(** The dictionary [scrape_api] appends for one listing entry. *)
Definition api_row (proxies : bool) (genre_map : gmap Z string)
    (it : api_item) : row :=
  let gnames :=
    map (fun g => default (str_Z g) (genre_map !! g)) (it_genre_ids it) in
  {| tmdb_id := it_id it;
     title := match it_title it with
              | Some t => if String.eqb t "" then default "N/A" (it_original_title it) else t
              | None => default "N/A" (it_original_title it)
              end;
     release_date := normalize_date to_datetime (it_release_date it);
     rating := normalize_rating float_of_str (it_vote_average it);
     overview := str_or (it_overview it) "N/A";
     genres := match gnames with
               | [] => "N/A"
               | _ => join " | " (filter (fun g => g <> "") gnames)
               end;
     poster_url := match it_poster_path it with
                   | Some p => if String.eqb p "" then Some "N/A"
                               else Some ("https://image.tmdb.org/t/p/w500" +:+ p)
                   | None => Some "N/A"
                   end;
     movie_url := match it_id it with
                  | Some i => if i =? 0 then "N/A"
                              else BASE_URL +:+ "/movie/" +:+ str_Z i
                  | None => "N/A"
                  end;
     method := if proxies then "API_TOR" else "API" |}.

Record api_state : Type := mkApiState {
  a_io : io;
  a_metrics : metrics;
  a_rows : list row;
  a_page : Z;
  a_got : Z
}.

(** [for it in data.get("results", []): if got>=max_movies: break; ...] *)
Fixpoint take_results (max_movies : Z) (proxies : bool)
    (genre_map : gmap Z string) (results : list api_item)
    (rows : list row) (got : Z) : list row * Z :=
  match results with
  | [] => (rows, got)
  | it :: rest =>
      if max_movies <=? got then (rows, got)
      else take_results max_movies proxies genre_map rest
             (rows ++ [api_row proxies genre_map it]) (got + 1)
  end.

(** [while got < max_movies: ...] of [scrape_api]: the body has no
    exit of its own.  [None] when [fuel] iterations were not enough. *)
Fixpoint scrape_api_loop (fuel : nat) (max_movies : Z) (proxies : bool)
    (genre_map : gmap Z string) (s : api_state) : option (outcome api_state) :=
  match fuel with
  | O => None
  | S fuel' =>
      if a_got s <? max_movies then
        let via := route_of proxies in
        let io1 := emit (EvApiPopular via (a_page s)) (a_io s) in
        match api_popular w (tick (a_io s)) via (a_page s) with
        | Raised e => Some (Raised e)
        | Returned r =>
            let m1 := record (a_metrics s) (r_latency r) (r_size r) in
            let results := if r_ok r then r_payload r else [] in
            let '(rows, got) :=
              take_results max_movies proxies genre_map results (a_rows s) (a_got s) in
            scrape_api_loop fuel' max_movies proxies genre_map
              (mkApiState (note EvSleep io1) m1 rows (a_page s + 1) got)
        end
      else Some (Returned s)
  end.

(** [scrape_api(max_movies, proxies)] (without the [elapsed_s] entry). *)
Definition scrape_api (fuel : nat) (max_movies : Z) (proxies : bool) (s : io)
    : option (outcome (list row * summary_dict * io)) :=
  match fetch_genre_map (route_of proxies) s init with
  | Raised e => Some (Raised e)
  | Returned (genre_map, s1, m1) =>
      match scrape_api_loop fuel max_movies proxies genre_map
              (mkApiState s1 m1 [] 1 0) with
      | None => None
      | Some (Raised e) => Some (Raised e)
      | Some (Returned st) =>
          match summary_mt (a_metrics st) with
          | Returned msum => Some (Returned (a_rows st, msum, a_io st))
          | Raised e => Some (Raised e)
          end
      end
  end.

Definition CARDS : string := "div.card.style_1, div.card.style_2, div.card.style_3".

Definition listing_url (page : Z) : string :=
  BASE_URL +:+ "/movie?page=" +:+ str_Z page.

Definition detail_url (i : Z) : string :=
  BASE_URL +:+ "/movie/" +:+ str_Z i.

(** The id a listing card links to: the anchor must exist, its [href]
    must be non-empty and [mid] must find a non-zero id in it. *)
Definition card_id (c : elem) : option Z :=
  a ← select_one c "h2 a[href^='/movie/']";
  href ← elem_get a "href";
  if String.eqb href "" then None
  else i ← mid href; if i =? 0 then None else Some i.

(** The [for c in cards] loop of [get_ids_from_listing]. *)
Fixpoint collect_cards (max_ids : Z) (cards : list elem) (ids : list Z) : list Z :=
  match cards with
  | [] => ids
  | c :: rest =>
      let ids1 := match card_id c with Some i => ids ++ [i] | None => ids end in
      if max_ids <=? Z.of_nat (length ids1) then ids1
      else collect_cards max_ids rest ids1
  end.

(** [get_ids_from_listing(max_ids, session, metrics)]. *)
Fixpoint get_ids_from_listing (fuel : nat) (max_ids : Z) (via : route)
    (page : Z) (ids : list Z) (s : io) (m : metrics)
    : option (outcome (list Z * io * metrics)) :=
  match fuel with
  | O => None
  | S fuel' =>
      if Z.of_nat (length ids) <? max_ids then
        let s1 := emit (EvHttpGet via (listing_url page)) s in
        match http_get w (tick s) via (listing_url page) with
        | Raised e => Some (Raised e)
        | Returned r =>
            let m1 := record m (r_latency r) (r_size r) in
            if r_ok r then
              let cards := select (parse_html (r_payload r)) CARDS in
              get_ids_from_listing fuel' max_ids via (page + 1)
                (collect_cards max_ids cards ids) (note EvSleep s1) m1
            else Some (Returned (ids, s1, m1))
        end
      else Some (Returned (ids, s, m))
  end.

(** [fetch_detail_bs4(mid_, session, metrics)]; [None] is the [None]
    it returns for a response that is not [ok]. *)
Definition fetch_detail_bs4 (mid_ : Z) (via : route) (s : io) (m : metrics)
    : outcome (option row * io * metrics) :=
  let url := detail_url mid_ in
  let s1 := emit (EvHttpGet via url) s in
  match http_get w (tick s) via url with
  | Raised e => Raised e
  | Returned r =>
      let m1 := record m (r_latency r) (r_size r) in
      if r_ok r then
        let soup := parse_html (r_payload r) in
        let title :=
          match select_one soup "h2.title, h2 a, h2" with
          | Some t => strip (elem_text t)
          | None => "Movie " +:+ str_Z mid_
          end in
        let release_date :=
          match select_one soup "span.release" with
          | Some t => strip (elem_text t)
          | None =>
              match select_one soup "span[itemprop='datePublished']" with
              | Some t => strip (elem_text t)
              | None => "N/A"
              end
          end in
        let overview :=
          match select_one soup "div.overview p, #overview p, div.facts p" with
          | Some t => strip (elem_text t)
          | None => "N/A"
          end in
        let genres :=
          match select soup "span.genres a, a[href*='/genre/']" with
          | [] => "N/A"
          | tags => join " | " (map (fun g => strip (elem_text g)) tags)
          end in
        let rating :=
          match select_one soup "div.user_score_chart" with
          | Some t =>
              normalize_rating float_of_str
                (from_option VStr VNone (elem_get t "data-percent"))
          | None => RNA
          end in
        let poster_url :=
          match select_one soup "img.poster" with
          | Some t =>
              match elem_get t "data-src" with
              | Some u => if String.eqb u "" then elem_get t "src" else Some u
              | None => elem_get t "src"
              end
          | None => Some "N/A"
          end in
        Returned (Some {| tmdb_id := Some mid_; title := title;
                          release_date := release_date; rating := rating;
                          overview := overview; genres := genres;
                          poster_url := poster_url; movie_url := url;
                          method := "BS4_TOR" |}, s1, m1)
      else Returned (None, s1, m1)
  end.

(** [for i in ids: row = fetch_detail_bs4(i, session, M); ...] *)
Fixpoint bs4_details (ids : list Z) (via : route) (rows : list row)
    (s : io) (m : metrics) : outcome (list row * io * metrics) :=
  match ids with
  | [] => Returned (rows, s, m)
  | i :: rest =>
      match fetch_detail_bs4 i via s m with
      | Raised e => Raised e
      | Returned (Some r, s1, m1) =>
          bs4_details rest via (rows ++ [r]) (note EvSleep s1) m1
      | Returned (None, s1, m1) => bs4_details rest via rows s1 m1
      end
  end.

(** [scrape_bs4(max_movies, proxies)] (without the [elapsed_s] entry). *)
Definition scrape_bs4 (fuel : nat) (max_movies : Z) (proxies : bool) (s : io)
    : option (outcome (list row * summary_dict * io)) :=
  let via := route_of proxies in
  match get_ids_from_listing fuel (max_movies * 2) via 1 [] s init with
  | None => None
  | Some (Raised e) => Some (Raised e)
  | Some (Returned (ids, s1, m1)) =>
      match bs4_details (py_prefix max_movies ids) via [] s1 m1 with
      | Raised e => Some (Raised e)
      | Returned (rows, s2, m2) =>
          match summary_mt m2 with
          | Returned msum => Some (Returned (rows, msum, s2))
          | Raised e => Some (Raised e)
          end
      end
  end.

(** *** The browser *)

(** What the caller reads of the driver: [page_source], and the
    seconds reading it takes. *)
Record driver : Type := mkDriver { page_source : string; read_latency : float }.

(** The second component of what [safe_get] returns. *)
Inductive nav_mode : Type := ModeOk | ModePartial | ModeError.

(** The iterations of [for attempt in range(retries + 1)] that are
    left, from [attempt] on.
<<
    try:
        driver.set_page_load_timeout(timeout)
        driver.get(url)
        return True, "ok", None
    except TimeoutException as e:
        try: driver.execute_script("window.stop();")
        except Exception: pass
        return True, "partial", e
    except WebDriverException as e:
        if attempt >= retries: return False, "error", e
        time.sleep(3.0 + attempt * 2.0)
    except Exception as e:
        if attempt >= retries: return False, "error", e
        time.sleep(3.0 + attempt * 2.0)
>> *)
Fixpoint safe_get_from (left : nat) (attempt : Z) (via : route) (url : string)
    (timeout retries : Z) (s : io) (d : driver)
    : (bool * nav_mode * option exn) * io * driver :=
  match left with
  | O => ((false, ModeError, None), s, d)
  | S left' =>
      let s1 := note (EvSetPageLoadTimeout timeout) s in
      let nv := browse w (tick s1) via url in
      let s2 := emit (EvNavigate via url) s1 in
      let d2 := mkDriver (nav_dom nv) (nav_read_latency nv) in
      match nav_raises nv with
      | None => ((true, ModeOk, None), s2, d2)
      | Some e =>
          if is_TimeoutException e then
            (* an exception of the script is swallowed *)
            ((true, ModePartial, Some e), note EvWindowStop s2, d2)
          else if is_WebDriverException e then
            if retries <=? attempt then ((false, ModeError, Some e), s2, d2)
            else safe_get_from left' (attempt + 1) via url timeout retries
                   (note EvSleep s2) d2
          else
            if retries <=? attempt then ((false, ModeError, Some e), s2, d2)
            else safe_get_from left' (attempt + 1) via url timeout retries
                   (note EvSleep s2) d2
      end
  end.

(** [safe_get(driver, url, timeout, retries)]. *)
Definition safe_get (via : route) (url : string) (timeout retries : Z)
    (s : io) (d : driver) : (bool * nav_mode * option exn) * io * driver :=
  safe_get_from (Z.to_nat (retries + 1)) 0 via url timeout retries s d.

(** [not ok and mode == "error"]. *)
Definition nav_failed (r : bool * nav_mode * option exn) : bool :=
  negb (fst (fst r)) &&
  match snd (fst r) with ModeError => true | _ => false end.

(** The variables of [scrape_selenium]. *)
Record sel_state : Type := mkSel {
  s_io : io;
  s_driver : driver;
  s_metrics : metrics;
  s_rows : list row
}.

(** The [for c in cards] loop of the listing phase. *)
Fixpoint sel_collect_cards (max_movies : Z) (cards : list elem) (ids : list Z)
    : list Z :=
  match cards with
  | [] => ids
  | c :: rest =>
      let ids1 :=
        match card_id c with
        | Some i => if bool_decide (i ∈ ids) then ids else ids ++ [i]
        | None => ids
        end in
      if max_movies <=? Z.of_nat (length ids1) then ids1
      else sel_collect_cards max_movies rest ids1
  end.

(** [drv.page_source]: a WebDriver command of its own, which the caller
    makes outside every [try]; it returns the document of the window or
    raises. *)
Definition read_page_source (s : io) (d : driver) : outcome string :=
  match page_source_raises w (tick s) with
  | Some e => Raised e
  | None => Returned (page_source d)
  end.

(** [while len(ids) < max_movies: ...], the listing phase. *)
Fixpoint sel_listing (fuel : nat) (max_movies : Z) (via : route)
    (page : Z) (ids : list Z) (st : sel_state)
    : option (outcome (list Z * sel_state)) :=
  match fuel with
  | O => None
  | S fuel' =>
      if Z.of_nat (length ids) <? max_movies then
        let '(r, s1, d1) :=
          safe_get via (listing_url page) (SEL_PAGELOAD_TIMEOUT cfg)
            (SEL_RETRIES cfg) (s_io st) (s_driver st) in
        match read_page_source s1 d1 with
        | Raised e => Some (Raised e)
        | Returned html =>
            let m1 := record (s_metrics st) (read_latency d1)
                        (Z.of_nat (String.length html)) in
            if nav_failed r then Some (Returned (ids, mkSel s1 d1 m1 (s_rows st)))
            else
              let cards := select (parse_html html) CARDS in
              sel_listing fuel' max_movies via (page + 1)
                (sel_collect_cards max_movies cards ids)
                (mkSel (note EvSleep s1) d1 m1 (s_rows st))
        end
      else Some (Returned (ids, st))
  end.

(** The row the detail phase appends for the document [s]. *)
Definition selenium_row (use_tor : bool) (i : Z) (url : string) (s : elem) : row :=
  let title :=
    match select_one s "h2.title, h2 a, h2" with
    | Some t => strip (elem_text t)
    | None => "Movie " +:+ str_Z i
    end in
  let release_date :=
    match select_one s "span.release" with
    | Some t => strip (elem_text t)
    | None =>
        match select_one s "span[itemprop='datePublished']" with
        | Some t => strip (elem_text t)
        | None => "N/A"
        end
    end in
  let overview :=
    match select_one s "div.overview p, #overview p, div.facts p" with
    | Some t => strip (elem_text t)
    | None => "N/A"
    end in
  let genres :=
    match select s "span.genres a, a[href*='/genre/']" with
    | [] => "N/A"
    | tags => join " | " (map (fun g => strip (elem_text g)) tags)
    end in
  let rating :=
    match select_one s "div.user_score_chart" with
    | Some t =>
        normalize_rating float_of_str
          (from_option VStr VNone (elem_get t "data-percent"))
    | None => RNA
    end in
  let poster_url :=
    match select_one s "img.poster" with
    | Some t =>
        match elem_get t "data-src" with
        | Some u => if String.eqb u "" then elem_get t "src" else Some u
        | None => elem_get t "src"
        end
    | None => Some "N/A"
    end in
  {| tmdb_id := Some i; title := title; release_date := release_date;
     rating := rating; overview := overview; genres := genres;
     poster_url := poster_url; movie_url := url;
     method := if use_tor then "Selenium_TOR" else "Selenium" |}.

(** One iteration of [for i in ids[:max_movies]], the detail phase.
<<
    ok, mode, exc = safe_get(drv, url)
    t1 = time.time()
    html = drv.page_source
    M.rec(time.time()-t1, len(html.encode("utf-8")))
    if not ok and mode == "error":
        try: rr = fallback_session.get(url, timeout=30) ...
>>
    The document is read before the result of the navigation is looked at,
    and an exception of that read leaves the loop. *)
Definition sel_detail_step (use_tor : bool) (st : sel_state) (i : Z)
    : outcome sel_state :=
  let via := route_of use_tor in
  let url := detail_url i in
  let '(r, s1, d1) :=
    safe_get via url (SEL_PAGELOAD_TIMEOUT cfg) (SEL_RETRIES cfg)
      (s_io st) (s_driver st) in
  match read_page_source s1 d1 with
  | Raised e => Raised e
  | Returned html =>
      let m1 := record (s_metrics st) (read_latency d1)
                  (Z.of_nat (String.length html)) in
      if nav_failed r then
        (* fallback via the [requests] session made for the same route *)
        let s2 := emit (EvHttpGet via url) s1 in
        match http_get w (tick s1) via url with
        | Raised _ => Returned (mkSel s2 d1 m1 (s_rows st))           (* continue *)
        | Returned rr =>
            let m2 := record m1 (r_latency rr) (r_size rr) in
            if r_ok rr then
              Returned (mkSel (note EvSleep s2) d1 m2
                (s_rows st ++ [selenium_row use_tor i url (parse_html (r_payload rr))]))
            else Returned (mkSel s2 d1 m2 (s_rows st))                (* continue *)
        end
      else
        Returned (mkSel (note EvSleep s1) d1 m1
          (s_rows st ++ [selenium_row use_tor i url (parse_html html)]))
  end.

(** [for i in ids[:max_movies]: ...], the detail phase. *)
Fixpoint sel_details (use_tor : bool) (ids : list Z) (st : sel_state)
    : outcome sel_state :=
  match ids with
  | [] => Returned st
  | i :: rest =>
      match sel_detail_step use_tor st i with
      | Raised e => Raised e
      | Returned st' => sel_details use_tor rest st'
      end
  end.

(** [scrape_selenium(max_movies, use_tor)] (without [elapsed_s]).  An
    exception inside the [try] passes through [finally: drv.quit()] and
    leaves the function. *)
Definition scrape_selenium (fuel : nat) (max_movies : Z) (use_tor : bool)
    (s : io) (d : driver) : option (outcome (list row * summary_dict * io)) :=
  match sel_listing fuel max_movies (route_of use_tor) 1 [] (mkSel s d init []) with
  | None => None
  | Some (Raised e) => Some (Raised e)
  | Some (Returned (ids, st)) =>
      match sel_details use_tor (py_prefix max_movies ids) st with
      | Raised e => Some (Raised e)
      | Returned st' =>
          match summary_mt (s_metrics st') with
          | Returned msum => Some (Returned (s_rows st', msum, s_io st'))
          | Raised e => Some (Raised e)
          end
      end
  end.

(** *** The entry point *)

(** A fresh browser window. *)
Definition blank : driver := mkDriver "" fzero.

(** What the entry point computes before it writes its files: the
    three record sets and whether the session goes through Tor.
<<
    use_tor = (args.proxy == "tor")
    proxies = {...} if (use_tor and check_tor()) else None
    api_rows, api_m = scrape_api(args.max, proxies=proxies)
    bs_rows, bs_m  = scrape_bs4(args.max, proxies=proxies)
    se_rows, se_m  = scrape_selenium(args.max, use_tor=(proxies is not None))
>> *)
Definition main (fuel : nat) (proxy_tor : bool) (max_movies : Z)
    : option (outcome (list row * list row * list row * bool)) :=
  let '(proxies, s0) :=
    if proxy_tor then check_tor io0 else (false, io0) in
  match scrape_api fuel max_movies proxies s0 with
  | None => None
  | Some (Raised e) => Some (Raised e)
  | Some (Returned (api_rows, _, s1)) =>
      match scrape_bs4 fuel max_movies proxies s1 with
      | None => None
      | Some (Raised e) => Some (Raised e)
      | Some (Returned (bs_rows, _, s2)) =>
          match scrape_selenium fuel max_movies proxies s2 blank with
          | None => None
          | Some (Raised e) => Some (Raised e)
          | Some (Returned (se_rows, _, _)) =>
              Some (Returned (api_rows, bs_rows, se_rows, proxies))
          end
      end
  end.
End Runner.

(** A row under another method tag. *)
Definition with_method (tag : string) (r : row) : row :=
  {| tmdb_id := tmdb_id r; title := title r; release_date := release_date r;
     rating := rating r; overview := overview r; genres := genres r;
     poster_url := poster_url r; movie_url := movie_url r; method := tag |}.

(** The tag of the browser variant for a route. *)
Definition selenium_tag (use_tor : bool) : string :=
  if use_tor then "Selenium_TOR" else "Selenium".

(** The tag of the API variant for a route. *)
Definition api_tag (proxies : bool) : string := if proxies then "API_TOR" else "API".

(** Every row carries the tag. *)
Definition tagged (tag : string) (rows : list row) : Prop :=
  Forall (fun r => method r = tag) rows.

(** The method tags of the direct route and of the Tor route. *)
Definition direct_tags : list string := ["API"; "BS4"; "Selenium"].
Definition tor_tags : list string := ["API_TOR"; "BS4_TOR"; "Selenium_TOR"].

End Step3c.

(** ** A small concrete site, to run the definitions on *)

Module Site.
Export Step3c.

(** A document as a table from selectors to the elements they match. *)
#[warnings="-register-all"]
Inductive toy : Type :=
  | Toy (text : string) (attrs : list (string * string))
        (matches : list (string * list toy)).

Definition toy_text (t : toy) : string := let 'Toy x _ _ := t in x.

Fixpoint assoc {A : Type} (k : string) (l : list (string * A)) : option A :=
  match l with
  | [] => None
  | (k', v) :: rest => if String.eqb k k' then Some v else assoc k rest
  end.

Definition toy_get (t : toy) (k : string) : option string :=
  let 'Toy _ a _ := t in assoc k a.

Definition toy_select (t : toy) (selector : string) : list toy :=
  let 'Toy _ _ m := t in default [] (assoc selector m).

Definition card (href : string) (name : string) : toy :=
  Toy "" [] [("h2 a[href^='/movie/']", [Toy name [("href", href)] []])].

Definition listing_page : toy :=
  Toy "" [] [("div.card.style_1, div.card.style_2, div.card.style_3",
              [card "/movie/949" "Heat"; card "/movie/238" "The Godfather"])].

Definition detail_page : toy :=
  Toy "" [] [("h2.title, h2 a, h2", [Toy " Heat " [] []]);
             ("span.release", [Toy "12/15/1995 (US)" [] []]);
             ("div.user_score_chart", [Toy "" [("data-percent", "79")] []])].

Definition toy_parse (body : string) : toy :=
  if String.eqb body "LISTING" then listing_page
  else if String.eqb body "DETAIL" then detail_page
  else Toy "" [] [].

#[export] Instance toy_html : Html :=
  {| elem := toy; parse_html := toy_parse; select := toy_select;
     elem_text := toy_text; elem_get := toy_get |}.

Definition half_second : float := Eval vm_compute in fdiv fone (of_Z 2).

Definition heat : api_item :=
  {| it_id := Some 949; it_title := Some "Heat"; it_original_title := Some "Heat";
     it_release_date := VStr "1995-12-15"; it_vote_average := VInt 79;
     it_overview := Some "A crew of thieves."; it_genre_ids := [28; 80];
     it_poster_path := Some "/heat.jpg" |}.

Definition is_listing (url : string) : bool :=
  match strip_prefix "https://www.themoviedb.org/movie?page=" url with
  | Some _ => true
  | None => false
  end.

Definition page_body (url : string) : string :=
  if is_listing url then "LISTING" else "DETAIL".

(** A site that answers every request, reached directly; the Tor check
    endpoint cannot be reached. *)
Definition site_no_tor : world :=
  {| api_genres := fun _ _ => Returned (mkResponse true half_second 120 [(28, "Action")]);
     api_popular := fun _ _ page =>
       Returned (mkResponse true half_second 900 (if page =? 1 then [heat] else []));
     http_get := fun _ _ url => Returned (mkResponse true half_second 2048 (page_body url));
     tor_probe := fun _ => Raised RequestException;
     browse := fun _ _ url => mkNavigation None (page_body url) half_second;
     page_source_raises := fun _ => None |}.

(** A listing endpoint that has nothing to list, on any page. *)
Definition site_empty : world :=
  {| api_genres := fun _ _ => Returned (mkResponse true half_second 120 []);
     api_popular := fun _ _ _ => Returned (mkResponse true half_second 40 []);
     http_get := fun _ _ _ => Returned (mkResponse false half_second 0 "");
     tor_probe := fun _ => Raised RequestException;
     browse := fun _ _ _ => mkNavigation (Some WebDriverException) "" fzero;
     page_source_raises := fun _ => None |}.

(** A browser whose first navigation fails, whose second times out with
    the document half loaded, over a site that answers HTTP requests. *)
Definition site_slow : world :=
  {| api_genres := fun _ _ => Returned (mkResponse true half_second 120 []);
     api_popular := fun _ _ _ => Returned (mkResponse true half_second 40 []);
     http_get := fun _ _ url => Returned (mkResponse true half_second 2048 (page_body url));
     tor_probe := fun _ => Returned true;
     browse := fun n _ url =>
       match n with
       | O => mkNavigation (Some WebDriverException) "" fzero
       | _ => mkNavigation (Some TimeoutException) (page_body url) half_second
       end;
     page_source_raises := fun _ => None |}.

(** A browser that cannot navigate at all, over a site that answers
    HTTP requests. *)
Definition site_no_browser : world :=
  {| api_genres := fun _ _ => Returned (mkResponse true half_second 120 []);
     api_popular := fun _ _ _ => Returned (mkResponse true half_second 40 []);
     http_get := fun _ _ url => Returned (mkResponse true half_second 2048 (page_body url));
     tor_probe := fun _ => Returned true;
     browse := fun _ _ _ => mkNavigation (Some WebDriverException) "" fzero;
     page_source_raises := fun _ => None |}.

(** A browser that is lost after the listing page: every navigation to
    a detail page raises, and so does reading [page_source] from then on.
    The site answers HTTP requests. *)
Definition site_browser_lost : world :=
  {| api_genres := fun _ _ => Returned (mkResponse true half_second 120 []);
     api_popular := fun _ _ _ => Returned (mkResponse true half_second 40 []);
     http_get := fun _ _ url => Returned (mkResponse true half_second 2048 (page_body url));
     tor_probe := fun _ => Returned true;
     browse := fun _ _ url =>
       if is_listing url then mkNavigation None (page_body url) half_second
       else mkNavigation (Some WebDriverException) "" fzero;
     page_source_raises := fun n =>
       if (n <=? 1)%nat then None else Some WebDriverException |}.

Definition cfg0 : config := {| SEL_PAGELOAD_TIMEOUT := 60; SEL_RETRIES := 2 |}.

(** The rows of the three variants for the ids given. *)
Definition sample_rows (tag : string) (ids : list Z) : list row :=
  map (fun i => {| tmdb_id := Some i; title := "Movie " +:+ str_Z i;
                   release_date := "N/A"; rating := RNA; overview := "N/A";
                   genres := "N/A"; poster_url := None; movie_url := "N/A";
                   method := tag |}) ids.

Definition api_123 : list row := sample_rows "API" [1; 2; 3].
Definition bs4_234 : list row := sample_rows "BS4" [2; 3; 4].
Definition sel_345 : list row := sample_rows "Selenium" [3; 4; 5].

Definition sample_row (i : Z) (name tag : string) : row :=
  {| tmdb_id := Some i; title := name; release_date := "N/A"; rating := RNA;
     overview := "N/A"; genres := "N/A"; poster_url := None;
     movie_url := "N/A"; method := tag |}.

End Site.

(** ** Floats as data

    Equality of two floats as values of the datatype (not [==], which
    identifies the two zeros and tells NaN from itself). *)

#[global] Instance float_eq_dec : EqDecision float.
Proof. solve_decision. Defined.

(** ** What a run leaves in the log and in the rows *)

Module Trace.
Export Step3c.

(** The route of a request or of a navigation. *)
Definition event_route (e : event) : option route :=
  match e with
  | EvApiGenres via | EvApiPopular via _ | EvHttpGet via _ | EvNavigate via _ => Some via
  | EvProbe | EvSetPageLoadTimeout _ | EvWindowStop | EvSleep => None
  end.

(** The routes of the requests and navigations of a log, in order. *)
Definition routes (l : list event) : list route := omap event_route l.

(** From [s] to [s'] the run made [n] requests or navigations, all of
    them through [via]. *)
Definition extends (via : route) (n : nat) (s s' : io) : Prop :=
  exists l, log s' = log s ++ l /\ routes l = replicate n via /\
            tick s' = (tick s + n)%nat.

(** A row for the movie [i]: its id, and the detail URL of that id. *)
Definition row_of_id (i : Z) (r : row) : Prop :=
  tmdb_id r = Some i /\ movie_url r = detail_url i.

(** A row whose id is positive and is the id [mid] reads in its URL. *)
Definition id_in_url (r : row) : Prop :=
  exists i, 0 < i /\ tmdb_id r = Some i /\ mid (movie_url r) = Some i.

End Trace.

(** ** The values a record may hold *)

Module Ranges.
Export Schema.

(** A float whose mantissa fits the 53 bits of a double. *)
Definition small_mantissa (f : float) : Prop :=
  match f with
  | S754_finite _ m _ => Z.pos m < 2 ^ 53
  | _ => True
  end.

(** A value as the JSON decoder gives it: a float in it is a double. *)
Definition wf_value (v : pyval) : Prop :=
  match v with
  | VFloat f => small_mantissa f
  | _ => True
  end.

(** A rating of the data model: the sentinel, or [k / 10] for an integer
    [k] from 0 to 100. *)
Definition rating_ok (r : Normalizer.rating) : Prop :=
  r = RNA \/ exists k, 0 <= k <= 100 /\ r = RNum (fdiv (of_Z k) ften).

(** A date as [normalize_date] leaves it: the sentinel, or ten
    characters [YYYY-MM-DD] that name a day, or, for a day of a year below
    1000, the date with its year in decimal without leading zeros. *)
Definition date_ok (s : string) : Prop :=
  s = "N/A" \/
  (exists d, parse_iso_date s = Some d) \/
  (exists d, calendar_day d = true /\ year d < 1000 /\ s = strftime_ymd (midnight d)).

End Ranges.

(** ** The samples of the worker threads *)

Module SamplesMT.
Export MetricsMT.
Import Metrics.

(** The samples a worker has still to append: that of the call it is
    in, then those of the calls it has left. *)
Definition pending_samples (w : worker) : list float :=
  match w_pc w with
  | Idle => []
  | LoadedCount _ l _ | StoredCount l _ | LoadedBytes _ l _ | StoredBytes l _ =>
      [pymax fzero l]
  end ++ samples (w_todo w).

(** The samples of all the calls submitted. *)
Definition all_samples (todos : list (list (float * Z))) : list float :=
  concat (samples <$> todos).

End SamplesMT.

(** ** The worker threads under the interpreter lock *)

(** CPython runs one thread at a time and hands the interpreter lock to
    another thread only where it checks for a request to do so: when a
    call returns and at the jump that closes a loop (from version 3.10 on),
    not between the bytecodes of one expression.  In
<<
    self.count += 1
    self.bytes += max(0, int(size))
    self.latencies.append(max(0.0, float(latency)))
>>
    the first statement has no call in it, so no other thread runs between
    its load and its store.  The second loads [self.bytes], then calls
    [int] and [max], then adds and stores: the lock can change hands
    between the load and the store.  The third calls [float] and [max]
    and then appends the sample in one step. *)

Module MetricsGil.
Export SamplesMT.
Import Metrics.













End MetricsGil.

(** ** The metrics table of step3c *)

Module Table.
Export Step3c.

(** The name of a line of [proxy_scrape_network_metrics.csv]:
<<
    rows[0]["method"] if rows else ("X_TOR" if proxies else "X")
>> *)
Definition table_name (rows : list row) (tor_name direct_name : string)
    (proxies : bool) : string :=
  match rows with
  | r :: _ => method r
  | [] => if proxies then tor_name else direct_name
  end.

(** The names of the three lines, in the order they are written. *)
Definition table_names (api_rows bs_rows se_rows : list row) (proxies : bool)
    : list string :=
  [table_name api_rows "API_TOR" "API" proxies;
   table_name bs_rows "BS4_TOR" "BS4" proxies;
   table_name se_rows "Selenium_TOR" "Selenium" proxies].

End Table.

(** ** step1_scraping_unified.py: the static-HTML and the browser scraper *)

Module Step1Html.
Export Schema.
Import Metrics.

(** The five fields [get_movie_details_requests] returns. *)
Record details : Type := mkDetails {
  d_release_date : string;
  d_overview : string;
  d_genres : string;
  d_rating : Normalizer.rating;
  d_poster_url : option string
}.

(** ["N/A", "N/A", "N/A", "N/A", "N/A"] *)
Definition no_details : details :=
  mkDetails "N/A" "N/A" "N/A" RNA (Some "N/A").

Section Scrapers.
Context `{Html}.
Variable float_of_str : string -> option float.
Variable w : world.
(** [urljoin(BASE_URL, href)] of the standard library; [href] is [None]
    when the anchor has no such attribute. *)
Variable urljoin : string -> option string -> string.
(** The seconds [driver.get] took, for the navigation made at a tick. *)
Variable nav_seconds : nat -> float.
(** [wait.until(EC.presence_of_all_elements_located(...))] on the page
    loaded at a tick: the exception it raises when the cards do not show
    up within 20 seconds. *)
Variable wait_cards : nat -> option exn.

(** The fields read from a detail document, with the selector for the
    overview that the caller uses. *)
Definition read_details (overview_selector : string) (soup : elem) : details :=
  {| d_release_date :=
       match select_one soup "span.release" with
       | Some t => strip (elem_text t)
       | None =>
           match select_one soup "span[itemprop='datePublished']" with
           | Some t => strip (elem_text t)
           | None => "N/A"
           end
       end;
     d_overview :=
       match select_one soup overview_selector with
       | Some t => strip (elem_text t)
       | None => "N/A"
       end;
     d_genres :=
       match select soup "span.genres a, a[href*='/genre/']" with
       | [] => "N/A"
       | tags => join " | " (map (fun g => strip (elem_text g)) tags)
       end;
     d_rating :=
       match select_one soup "div.user_score_chart" with
       | Some t =>
           normalize_rating float_of_str
             (from_option VStr VNone (elem_get t "data-percent"))
       | None => RNA
       end;
     d_poster_url :=
       match select_one soup "img.poster" with
       | Some t =>
           match elem_get t "data-src" with
           | Some u => if String.eqb u "" then elem_get t "src" else Some u
           | None => elem_get t "src"
           end
       | None => Some "N/A"
       end |}.

(** [get_movie_details_requests(session, movie_url, metrics)]: the whole
    body is inside [try: ... except Exception: return "N/A", ...], so a
    request that raises leaves the metrics as they were. *)
Definition get_movie_details_requests (movie_url : string) (s : io) (m : metrics)
    : details * io * metrics :=
  let s1 := emit (EvHttpGet Direct movie_url) s in
  match http_get w (tick s) Direct movie_url with
  | Raised _ => (no_details, s1, m)
  | Returned resp =>
      (read_details "div.overview p, div.facts p, #overview p"
         (parse_html (r_payload resp)),
       s1, record m (r_latency resp) (r_size resp))
  end.

(** The variables of the two scrapers. *)
Record state : Type := mkState {
  st_io : io;
  st_metrics : metrics;
  st_movies : list row
}.

(** The dictionary both scrapers append. *)
Definition html_row (tag : string) (tmdb_id : option Z) (title movie_url : string)
    (d : details) : row :=
  {| tmdb_id := tmdb_id; title := title; release_date := d_release_date d;
     rating := d_rating d; overview := d_overview d; genres := d_genres d;
     poster_url := d_poster_url d; movie_url := movie_url; method := tag |}.

(** [for card in cards: ...] of [scrape_bs4]. *)
Fixpoint bs4_cards (max_movies : Z) (cards : list elem) (st : state) : state :=
  match cards with
  | [] => st
  | card :: rest =>
      if max_movies <=? Z.of_nat (length (st_movies st)) then st       (* break *)
      else
        match select_one card "h2 a[href^='/movie/']" with
        | None => bs4_cards max_movies rest st                         (* continue *)
        | Some a =>
            let movie_url := urljoin BASE_URL (elem_get a "href") in
            let tmdb_id := Step3c.mid movie_url in
            let title := strip (elem_text a) in
            let '(d, s1, m1) :=
              get_movie_details_requests movie_url (st_io st) (st_metrics st) in
            bs4_cards max_movies rest
              (mkState (note EvSleep s1) m1
                 (st_movies st ++ [html_row "BS4" tmdb_id title movie_url d]))
        end
  end.

(** [while len(movies) < max_movies: ...] of [scrape_bs4]; [None] when
    [fuel] iterations were not enough. *)
Fixpoint scrape_bs4_loop (fuel : nat) (max_movies : Z) (page : Z) (st : state)
    : option (outcome state) :=
  match fuel with
  | O => None
  | S fuel' =>
      if Z.of_nat (length (st_movies st)) <? max_movies then
        let list_url := Step3c.listing_url page in
        let s1 := emit (EvHttpGet Direct list_url) (st_io st) in
        match http_get w (tick (st_io st)) Direct list_url with
        | Raised e => Some (Raised e)
        | Returned resp =>
            let m1 := record (st_metrics st) (r_latency resp) (r_size resp) in
            match select (parse_html (r_payload resp)) Step3c.CARDS with
            | [] => Some (Returned (mkState s1 m1 (st_movies st)))     (* break *)
            | cards =>
                scrape_bs4_loop fuel' max_movies (page + 1)
                  (bs4_cards max_movies cards (mkState s1 m1 (st_movies st)))
            end
        end
      else Some (Returned st)
  end.

(** [scrape_bs4(max_movies)] (without the [elapsed_s] entry). *)
Definition scrape_bs4 (fuel : nat) (max_movies : Z) (s : io)
    : option (outcome (list row * summary_dict * io)) :=
  match scrape_bs4_loop fuel max_movies 1 (mkState s init []) with
  | None => None
  | Some (Raised e) => Some (Raised e)
  | Some (Returned st) =>
      match summary (st_metrics st) with
      | Returned msum => Some (Returned (st_movies st, msum, st_io st))
      | Raised e => Some (Raised e)
      end
  end.

(** [for card in cards: ...] of [scrape_selenium]: a navigation that
    raises ends the scraper. *)
Fixpoint selenium_cards (max_movies : Z) (cards : list elem) (st : state)
    : outcome state :=
  match cards with
  | [] => Returned st
  | card :: rest =>
      if max_movies <=? Z.of_nat (length (st_movies st)) then Returned st  (* break *)
      else
        match select_one card "h2 a[href^='/movie/']" with
        | None => selenium_cards max_movies rest st                        (* continue *)
        | Some a =>
            let movie_url := urljoin BASE_URL (elem_get a "href") in
            let tmdb_id := Step3c.mid movie_url in
            let title := strip (elem_text a) in
            let nv := browse w (tick (st_io st)) Direct movie_url in
            let s1 := emit (EvNavigate Direct movie_url) (st_io st) in
            match nav_raises nv with
            | Some e => Raised e
            | None =>
                let html_movie := nav_dom nv in
                let m1 := record (st_metrics st) (nav_seconds (tick (st_io st)))
                            (Z.of_nat (String.length html_movie)) in
                selenium_cards max_movies rest
                  (mkState (note EvSleep s1) m1
                     (st_movies st ++
                      [html_row "Selenium" tmdb_id title movie_url
                         (read_details "div.overview p, #overview p"
                            (parse_html html_movie))]))
            end
        end
  end.

(** [while len(movies) < max_movies: ...] of [scrape_selenium]. *)
Fixpoint scrape_selenium_loop (fuel : nat) (max_movies : Z) (page : Z) (st : state)
    : option (outcome state) :=
  match fuel with
  | O => None
  | S fuel' =>
      if Z.of_nat (length (st_movies st)) <? max_movies then
        let list_url := Step3c.listing_url page in
        let nv := browse w (tick (st_io st)) Direct list_url in
        let s1 := emit (EvNavigate Direct list_url) (st_io st) in
        match nav_raises nv with
        | Some e => Some (Raised e)
        | None =>
            let html := nav_dom nv in
            let m1 := record (st_metrics st) (nav_seconds (tick (st_io st)))
                        (Z.of_nat (String.length html)) in
            match wait_cards (tick (st_io st)) with
            | Some e => Some (Raised e)
            | None =>
                match select (parse_html html) Step3c.CARDS with
                | [] => Some (Returned (mkState s1 m1 (st_movies st)))   (* break *)
                | cards =>
                    match selenium_cards max_movies cards
                            (mkState s1 m1 (st_movies st)) with
                    | Raised e => Some (Raised e)
                    | Returned st1 =>
                        scrape_selenium_loop fuel' max_movies (page + 1) st1
                    end
                end
            end
        end
      else Some (Returned st)
  end.

(** [scrape_selenium(max_movies)] (without the [elapsed_s] entry; the
    [finally: driver.quit()] leaves no trace in the result). *)
Definition scrape_selenium (fuel : nat) (max_movies : Z) (s : io)
    : option (outcome (list row * summary_dict * io)) :=
  match scrape_selenium_loop fuel max_movies 1 (mkState s init []) with
  | None => None
  | Some (Raised e) => Some (Raised e)
  | Some (Returned st) =>
      match summary (st_metrics st) with
      | Returned msum => Some (Returned (st_movies st, msum, st_io st))
      | Raised e => Some (Raised e)
      end
  end.
End Scrapers.

(** A row of the two scrapers: its tag, and the id read from its URL. *)
Definition html_row_ok (tag : string) (r : row) : Prop :=
  method r = tag /\ tmdb_id r = Step3c.mid (movie_url r).

(** The anchors among the cards: those a row is made for. *)
Definition anchored `{Html} (cards : list elem) : list elem :=
  omap (fun card => select_one card "h2 a[href^='/movie/']") cards.

End Step1Html.

(** ** step3b_multithreading_scrapers.py: the code outside the thread pools *)

Module Step3b.
Export Schema.
Import Metrics.

(** [x] when it is truthy as an id: not [None] and not 0. *)
Definition truthy_id (x : option Z) : option Z :=
  match x with
  | Some i => if i =? 0 then None else Some i
  | None => None
  end.

(** [parse_id(url_or_path)]: [re.search(r"/movie/(\d+)", url_or_path or "")]. *)
Definition parse_id (url_or_path : option string) : option Z :=
  Step3c.mid (default "" url_or_path).

Section Scrapers.
Context `{Html}.
Variable float_of_str : string -> option float.
Variable w : world.
(** [urljoin(BASE_URL, href)] of the standard library. *)
Variable urljoin : string -> option string -> string.
(** [time.time() - t0]: the seconds a run took from one point to another. *)
Variable elapsed : io -> io -> float.

(** [get_popular_ids_api]: the iterations of
    [for page in range(1, pages+1)] that are left, from [page] on. *)
Fixpoint popular_pages (left : nat) (page : Z) (ids : list Z) (s : io) (m : metrics)
    : outcome (list Z * io * metrics) :=
  match left with
  | O => Returned (ids, s, m)
  | S left' =>
      match api_popular w (tick s) Direct page with
      | Raised e => Raised e
      | Returned r =>
          let m1 := record m (r_latency r) (r_size r) in
          let results := if r_ok r then r_payload r else [] in
          popular_pages left' (page + 1)
            (ids ++ omap (fun it => truthy_id (it_id it)) results)
            (note EvSleep (emit (EvApiPopular Direct page) s)) m1
      end
  end.

(** [get_popular_ids_api(pages, metrics, session)]. *)
Definition get_popular_ids_api (pages : Z) (s : io) (m : metrics)
    : outcome (list Z * io * metrics) :=
  popular_pages (Z.to_nat pages) 1 [] s m.

Definition LINKS : string :=
  "div.card.style_1 h2 a, div.card.style_2 h2 a, div.card.style_3 h2 a".

(** [collect_ids_from_listing]: the iterations of
    [for page in range(1, pages+1)] that are left.  The body is inside
    [try: ... except requests.exceptions.RequestException:
    time.sleep(1.0); continue]. *)
Fixpoint listing_pages (left : nat) (page : Z) (ids : list Z) (s : io) (m : metrics)
    : outcome (list Z * io * metrics) :=
  match left with
  | O => Returned (ids, s, m)
  | S left' =>
      let s1 := emit (EvHttpGet Direct (Step3c.listing_url page)) s in
      match http_get w (tick s) Direct (Step3c.listing_url page) with
      | Raised RequestException =>
          listing_pages left' (page + 1) ids (note EvSleep s1) m
      | Raised e => Raised e
      | Returned r =>
          let m1 := record m (r_latency r) (r_size r) in
          if r_ok r then
            let links := select (parse_html (r_payload r)) LINKS in
            listing_pages left' (page + 1)
              (ids ++ omap (fun a => truthy_id (parse_id (elem_get a "href"))) links)
              (note EvSleep s1) m1
          else listing_pages left' (page + 1) ids s1 m1          (* continue *)
      end
  end.

(** [collect_ids_from_listing(pages, metrics, session)]. *)
Definition collect_ids_from_listing (pages : Z) (s : io) (m : metrics)
    : outcome (list Z * io * metrics) :=
  listing_pages (Z.to_nat pages) 1 [] s m.

(** [safe_get(driver, url, retries=2, wait_between=3.0)]: the iterations
    of [for attempt in range(retries+1)] that are left, from [attempt] on.
<<
    try:
        driver.get(url)
        return True
    except Exception as e:
        if attempt == retries: return False
        time.sleep(wait_between)
>>
    The browser is the document it holds.  [None] is what the function
    returns when the loop ends without a [return]. *)
Fixpoint safe_get_from (left : nat) (attempt : Z) (url : string) (retries : Z)
    (s : io) (page_source : string) : option bool * io * string :=
  match left with
  | O => (None, s, page_source)
  | S left' =>
      let nv := browse w (tick s) Direct url in
      let s1 := emit (EvNavigate Direct url) s in
      match nav_raises nv with
      | None => (Some true, s1, nav_dom nv)
      | Some _ =>
          if attempt =? retries then (Some false, s1, nav_dom nv)
          else safe_get_from left' (attempt + 1) url retries
                 (note EvSleep s1) (nav_dom nv)
      end
  end.

Definition safe_get (url : string) (retries : Z) (s : io) (page_source : string)
    : option bool * io * string :=
  safe_get_from (Z.to_nat (retries + 1)) 0 url retries s page_source.

(** The variables of [scrape_selenium_detail]. *)
Record state : Type := mkState {
  st_io : io;
  st_page_source : string;
  st_metrics : metrics;
  st_rows : list row;
  st_visited : gset Z
}.

(** [for c in cards: ...], gathering the detail URLs of a listing page:
    an id is taken once over the whole run. *)
Fixpoint gather (cards : list elem) (visited : gset Z)
    (detail_urls : list (Z * string)) : gset Z * list (Z * string) :=
  match cards with
  | [] => (visited, detail_urls)
  | c :: rest =>
      match select_one c "h2 a[href^='/movie/']" with
      | None => gather rest visited detail_urls                      (* continue *)
      | Some a =>
          let href := elem_get a "href" in
          match truthy_id (parse_id href) with
          | Some i =>
              if bool_decide (i ∈ visited) then gather rest visited detail_urls
              else gather rest ({[i]} ∪ visited)
                     (detail_urls ++ [(i, urljoin BASE_URL href)])
          | None => gather rest visited detail_urls
          end
      end
  end.

(** The row made from the detail document of the movie [i]. *)
Definition detail_row (i : Z) (mu : string) (psoup : elem) : row :=
  Step1Html.html_row "Selenium_MP" (Some i)
    match select_one psoup "h2.title, h2 a, h2" with
    | Some t => strip (elem_text t)
    | None => "Movie " +:+ str_Z i
    end
    mu
    (Step1Html.read_details float_of_str
       "div.overview p, #overview p, div.facts p" psoup).

(** [for mid, mu in detail_urls: ...]. *)
Fixpoint visit (max_movies : Z) (detail_urls : list (Z * string)) (st : state) : state :=
  match detail_urls with
  | [] => st
  | (i, mu) :: rest =>
      if max_movies <=? Z.of_nat (length (st_rows st)) then st          (* break *)
      else
        let '(ok, s1, page1) := safe_get mu 2 (st_io st) (st_page_source st) in
        match ok with
        | Some true =>
            let m1 := record (st_metrics st) (elapsed (st_io st) s1)
                        (Z.of_nat (String.length page1)) in
            visit max_movies rest
              (mkState (note EvSleep s1) page1 m1
                 (st_rows st ++ [detail_row i mu (parse_html page1)])
                 (st_visited st))
        | _ =>                                                        (* continue *)
            visit max_movies rest
              (mkState s1 page1 (st_metrics st) (st_rows st) (st_visited st))
        end
  end.

(** [while len(rows) < max_movies: ...]; [None] when [fuel] iterations
    were not enough. *)
Fixpoint detail_loop (fuel : nat) (max_movies : Z) (page : Z) (st : state)
    : option state :=
  match fuel with
  | O => None
  | S fuel' =>
      if Z.of_nat (length (st_rows st)) <? max_movies then
        let '(ok, s1, page1) :=
          safe_get (Step3c.listing_url page) 2 (st_io st) (st_page_source st) in
        match ok with
        | Some true =>
            let m1 := record (st_metrics st) (elapsed (st_io st) s1)
                        (Z.of_nat (String.length page1)) in
            match select (parse_html page1) Step3c.CARDS with
            | [] => Some (mkState s1 page1 m1 (st_rows st) (st_visited st))   (* break *)
            | cards =>
                let '(visited, detail_urls) := gather cards (st_visited st) [] in
                let st1 := visit max_movies detail_urls
                             (mkState s1 page1 m1 (st_rows st) visited) in
                detail_loop fuel' max_movies (page + 1)
                  (mkState (note EvSleep (st_io st1)) (st_page_source st1)
                     (st_metrics st1) (st_rows st1) (st_visited st1))
            end
        | _ =>                                                            (* break *)
            Some (mkState s1 page1 (st_metrics st) (st_rows st) (st_visited st))
        end
      else Some st
  end.

(** [scrape_selenium_detail(max_movies)] (without the [elapsed_s] entry). *)
Definition scrape_selenium_detail (fuel : nat) (max_movies : Z) (s : io)
    : option (outcome (list row * summary_dict * io)) :=
  match detail_loop fuel max_movies 1 (mkState s "" init [] ∅) with
  | None => None
  | Some st =>
      match summary_mt (st_metrics st) with
      | Returned msum =>
          Some (Returned (Step3c.py_prefix max_movies (st_rows st), msum, st_io st))
      | Raised e => Some (Raised e)
      end
  end.
End Scrapers.

(** What holds of the rows and of the visited ids throughout
    [scrape_selenium_detail]: the rows carry pairwise distinct positive
    ids, all of them visited, and the tag of the variant. *)
Definition detail_rows_ok (rows : list row) (visited : gset Z) : Prop :=
  exists js, tmdb_id <$> rows = Some <$> js /\ NoDup js /\
    Forall (fun j => 0 < j /\ j ∈ visited) js /\
    Forall (fun r => method r = "Selenium_MP") rows.

End Step3b.

(** ** Counting rows by id *)

Module Count.
Export Step1.

(** The number of rows that carry the id [k]. *)
Definition count_id (k : option Z) (rows : list row) : nat :=
  length (filter (fun r => k = tmdb_id r) rows).

End Count.

(** ** More sample sites *)

Module Sites.
Export Site.

Definition godfather : api_item :=
  {| it_id := Some 238; it_title := Some "The Godfather";
     it_original_title := Some "The Godfather";
     it_release_date := VStr "1972-03-14"; it_vote_average := VInt 87;
     it_overview := Some "The aging patriarch."; it_genre_ids := [18; 80];
     it_poster_path := None |}.

(** A listing endpoint with two entries on every page. *)
Definition site_two_per_page : world :=
  {| api_genres := fun _ _ => Returned (mkResponse true half_second 120 [(18, "Drama")]);
     api_popular := fun _ _ _ => Returned (mkResponse true half_second 900 [heat; godfather]);
     http_get := fun _ _ url => Returned (mkResponse true half_second 2048 (page_body url));
     tor_probe := fun _ => Returned true;
     browse := fun _ _ url => mkNavigation None (page_body url) half_second;
     page_source_raises := fun _ => None |}.

(** A site whose HTTP side is down: every request raises. *)
Definition site_down : world :=
  {| api_genres := fun _ _ => Raised RequestException;
     api_popular := fun _ _ _ => Raised RequestException;
     http_get := fun _ _ _ => Raised RequestException;
     tor_probe := fun _ => Raised RequestException;
     browse := fun _ _ _ => mkNavigation (Some WebDriverException) "" fzero;
     page_source_raises := fun _ => None |}.

(** A site that serves every page, with no card on any of them. *)
Definition site_no_cards : world :=
  {| api_genres := fun _ _ => Returned (mkResponse true half_second 120 []);
     api_popular := fun _ _ _ => Returned (mkResponse true half_second 40 []);
     http_get := fun _ _ _ => Returned (mkResponse true half_second 512 "EMPTY");
     tor_probe := fun _ => Returned true;
     browse := fun _ _ _ => mkNavigation None "EMPTY" half_second;
     page_source_raises := fun _ => None |}.

(** [urljoin] on the links of the sample site, which are absolute paths. *)
Definition join_url (base : string) (href : option string) : string :=
  base +:+ default "" href.

Definition elapsed_half_second (s s' : io) : float := half_second.

End Sites.

(** * Properties *)

Import Schema.
#[local] Existing Instance Site.toy_html.

(** ** Facts on binary64 comparison, rounding and division *)

Section FloatFacts.

Lemma SFcompare_antisym (x y : float) :
  SFcompare y x = CompOpp <$> SFcompare x y.
Proof.
  destruct x as [[]|[]| |[] mx ex], y as [[]|[]| |[] my ey]; simpl; try reflexivity;
    rewrite (Z.compare_antisym ey ex);
    destruct (ey ?= ex); simpl; try reflexivity;
    rewrite (Pos.compare_cont_antisym mx my Eq); reflexivity.
Qed.

Lemma SFcompare_Eq_finite (s s' : bool) (m m' : positive) (e e' : Z) :
  SFcompare (S754_finite s m e) (S754_finite s' m' e') = Some Eq ->
  S754_finite s m e = S754_finite s' m' e'.
Proof.
  simpl. destruct s, s'; try discriminate;
    destruct (e ?= e') eqn:He; try discriminate;
    apply Z.compare_eq in He; subst e';
    intros Hm; f_equal.
  - destruct (Pos.compare_cont Eq m m') eqn:Hc; try discriminate.
    now apply Pos.compare_eq.
  - now apply Pos.compare_eq; injection Hm.
Qed.

Lemma SFcompare_refl (x : float) : x <> S754_nan -> SFcompare x x = Some Eq.
Proof.
  destruct x as [[]|[]| |[] m e]; simpl; try congruence; intros _;
    rewrite Z.compare_refl; fold (Pos.compare m m); rewrite Pos.compare_refl; reflexivity.
Qed.

Lemma shr_1_nonneg (r : shr_record) : 0 <= shr_m r -> 0 <= shr_m (shr_1 r).
Proof.
  destruct r as [m b c]; simpl. destruct m as [|[p|p|]|[p|p|]]; simpl; lia.
Qed.

Lemma iter_shr_1_nonneg (p : positive) (r : shr_record) :
  0 <= shr_m r -> 0 <= shr_m (SpecFloat.iter_pos shr_1 p r).
Proof.
  revert r; induction p as [p IH|p IH|]; intros r Hr; simpl.
  - apply IH, IH, shr_1_nonneg, Hr.
  - apply IH, IH, Hr.
  - apply shr_1_nonneg, Hr.
Qed.

Lemma shr_fexp_nonneg (m e : Z) (l : location) :
  0 <= m -> 0 <= shr_m (fst (shr_fexp prec emax m e l)).
Proof.
  intros Hm. unfold shr_fexp, shr.
  assert (H0 : 0 <= shr_m (shr_record_of_loc m l)).
  { destruct l as [|[]]; simpl; assumption. }
  destruct (fexp prec emax (Zdigits2 m + e) - e); simpl; try assumption.
  now apply iter_shr_1_nonneg.
Qed.

Lemma round_nearest_even_nonneg (m : Z) (l : location) :
  0 <= m -> 0 <= round_nearest_even m l.
Proof.
  intros Hm. destruct l as [|[]]; simpl; try lia. destruct (Z.even m); lia.
Qed.

(** Rounding a non-negative mantissa gives a zero, a finite float or an
    infinity of the requested sign, never NaN. *)
Lemma binary_round_aux_signed (s : bool) (m e : Z) (l : location) :
  0 <= m ->
  let r := binary_round_aux prec emax s m e l in
  r = S754_zero s \/ r = S754_infinity s \/ exists m' e', r = S754_finite s m' e'.
Proof.
  intros Hm. unfold binary_round_aux.
  pose proof (shr_fexp_nonneg m e l Hm) as H1.
  destruct (shr_fexp prec emax m e l) as [mrs' e1]; simpl in H1.
  pose proof (shr_fexp_nonneg _ e1 loc_Exact
                (round_nearest_even_nonneg _ (loc_of_shr_record mrs') H1)) as H2.
  destruct (shr_fexp prec emax _ e1 loc_Exact) as [mrs'' e2]; simpl in H2.
  destruct (shr_m mrs'') as [|p|p]; simpl.
  - now left.
  - destruct (e2 <=? emax - prec); eauto.
  - lia.
Qed.

Lemma fdiv_finite_signed (s s' : bool) (m m' : positive) (e e' : Z) :
  let r := fdiv (S754_finite s m e) (S754_finite s' m' e') in
  r = S754_zero (xorb s s') \/ r = S754_infinity (xorb s s') \/
  exists m2 e2, r = S754_finite (xorb s s') m2 e2.
Proof.
  unfold fdiv, SFdiv.
  destruct (SFdiv_core_binary prec emax (Z.pos m) e (Z.pos m') e') as [[mz ez] lz] eqn:Hc.
  apply binary_round_aux_signed.
  unfold SFdiv_core_binary in Hc.
  set (s0 := e - e' - _) in Hc.
  set (mm := match s0 with Z.pos _ => _ | 0 => _ | Z.neg _ => _ end) in Hc.
  assert (0 <= mm).
  { subst mm. destruct s0; try lia. apply Z.shiftl_nonneg. lia. }
  pose proof (Z.div_pos mm (Z.pos m') H ltac:(lia)) as Hq.
  unfold Z.div in Hq. destruct (Z.div_eucl mm (Z.pos m')) as [q r]. 
  injection Hc as <- _ _. exact Hq.
Qed.
End FloatFacts.

(** ** The rating normaliser *)

Section RatingFacts.
Import Normalizer.
Variable float_of_str : string -> option float.

(** A float above 10 is a positive finite float or plus infinity. *)
Lemma above_ten_positive (r : float) :
  fgt r ften = true ->
  r = S754_infinity false \/ exists m e, r = S754_finite false m e.
Proof.
  unfold fgt, SFltb, ften.
  destruct r as [[]|[]| |[] m e]; try discriminate; eauto.
Qed.

(** Comparisons of a positive finite float with zero. *)
Lemma zero_lt_positive (m : positive) (e : Z) :
  SFltb fzero (S754_finite false m e) = true.
Proof. reflexivity. Qed.

Lemma positive_lt_zero (m : positive) (e : Z) :
  SFltb (S754_finite false m e) fzero = false.
Proof. reflexivity. Qed.

(** On a float that is not negative and not NaN,
    [max(0.0, min(10.0, _))] is the clamp to [0, 10]. *)
Lemma max_min_is_clamp (w : float) :
  w = S754_zero false \/ w = S754_infinity false \/
    (exists m e, w = S754_finite false m e) ->
  pymax fzero (pymin ften w) = clamp w fzero ften.
Proof.
  intros [-> | [-> | (m & e & ->)]].
  - vm_compute; reflexivity.
  - vm_compute; reflexivity.
  - unfold pymax, pymin, clamp, fgt, flt.
    rewrite positive_lt_zero.
    unfold SFltb at 2 3 4.
    rewrite (SFcompare_antisym (S754_finite false m e) ften).
    destruct (SFcompare (S754_finite false m e) ften) as [[]|] eqn:Hc;
      cbn [fmap option_fmap option_map CompOpp].
    + apply SFcompare_Eq_finite in Hc. rewrite Hc. vm_compute; reflexivity.
    + apply (f_equal (fun b : bool => if b then S754_finite false m e else fzero)
               (zero_lt_positive m e)).
    + vm_compute; reflexivity.
    + unfold ften in Hc. cbn [SFcompare] in Hc. discriminate.
Qed.

(** A float in [0, 10] is a zero or a positive finite float, is not
    above 10, and passes [min(10.0, _)] unchanged. *)
Lemma in_range_cases (r : float) :
  fle fzero r = true -> fle r ften = true ->
  fgt r ften = false /\ pymin ften r = r /\
  ((exists s, r = S754_zero s) \/ exists m e, r = S754_finite false m e).
Proof.
  destruct r as [s|[]| |[] m e]; try discriminate.
  - intros _ _. repeat split; eauto.
  - intros _. unfold fle, fgt, pymin, flt, SFleb, SFltb.
    rewrite (SFcompare_antisym (S754_finite false m e) ften).
    destruct (SFcompare (S754_finite false m e) ften) as [[]|] eqn:Hc;
      cbn [fmap option_fmap option_map CompOpp]; try discriminate; intros _.
    + apply SFcompare_Eq_finite in Hc. rewrite Hc. repeat split; eauto.
    + repeat split; eauto.
Qed.

Lemma round_nd_not_nan (n : nat) (x : float) :
  x <> S754_nan -> round_nd n x <> S754_nan.
Proof.
  destruct x as [s|s| |s m e]; cbn [round_nd]; try congruence. intros _.
  destruct (0 <=? e); [congruence|].
  destruct (round_half_even _ _) as [|k|k]; try congruence.
  destruct (fdiv_finite_signed s false k (Z.to_pos (10 ^ Z.of_nat n)) 0 0)
    as [H | [H | (m2 & e2 & H)]]; unfold fdiv in H; rewrite H; congruence.
Qed.

Lemma feq_refl (x : float) : x <> S754_nan -> feq x x = true.
Proof. intros Hx. unfold feq, SFeqb. now rewrite SFcompare_refl. Qed.

(** C3. For a numeric input with value [r]: above 10 the result is
    [round(clamp(r / 10, 0, 10), 1)]; in [0, 10] it is [round(r, 1)]
    (equal as numbers, and identical unless [r] is the negative zero,
    which [max(0.0, _)] replaces by [0.0]).  When [float(x)] raises, the
    result is the sentinel, so no input makes the function raise. *)
Theorem normalize_rating_spec (x : pyval) :
  (forall r, py_float float_of_str x = Some r -> fgt r ften = true ->
     normalize_rating float_of_str x
     = RNum (round_nd 1 (clamp (fdiv r ften) fzero ften))) /\
  (forall r, py_float float_of_str x = Some r ->
     fle fzero r = true -> fle r ften = true ->
     rating_eqb (normalize_rating float_of_str x) (RNum (round_nd 1 r)) = true /\
     (r <> fnegzero -> normalize_rating float_of_str x = RNum (round_nd 1 r))) /\
  (py_float float_of_str x = None -> normalize_rating float_of_str x = RNA).
Proof.
  unfold normalize_rating. split; [|split].
  - intros r -> Hr. rewrite Hr. do 2 f_equal. apply max_min_is_clamp.
    destruct (above_ten_positive r Hr) as [-> | (m & e & ->)].
    + right; left; reflexivity.
    + apply (fdiv_finite_signed false false m 5629499534213120 e (-49)).
  - intros r -> H0r Hr10.
    destruct (in_range_cases r H0r Hr10) as (Hgt & Hmin & Hshape).
    rewrite Hgt, Hmin. 
    destruct Hshape as [[s ->] | (m & e & ->)].
    + split; [destruct s; reflexivity|].
      destruct s; [intros Hnz; now elim Hnz | reflexivity].
    + change (pymax fzero (S754_finite false m e)) with (S754_finite false m e).
      split; [|reflexivity].
      apply feq_refl, round_nd_not_nan. congruence.
  - intros ->. reflexivity.
Qed.

End RatingFacts.

(** Three inputs: 85 is read on the 0-100 scale, "7" is in range, and
    [None] is not a number. *)
Lemma normalize_rating_spec_witness :
  Normalizer.normalize_rating Normalizer.digits_to_float (VInt 85)
    = Normalizer.RNum (round_nd 1 (Normalizer.clamp (fdiv (of_Z 85) ften) fzero ften)) /\
  Normalizer.normalize_rating Normalizer.digits_to_float (VStr "7")
    = Normalizer.RNum (round_nd 1 (of_Z 7)) /\
  Normalizer.normalize_rating Normalizer.digits_to_float VNone = Normalizer.RNA.
Proof.
  split; [|split].
  - exact (proj1 (normalize_rating_spec Normalizer.digits_to_float (VInt 85))
             (of_Z 85) eq_refl eq_refl).
  - refine (proj2 (proj1 (proj2 (normalize_rating_spec Normalizer.digits_to_float (VStr "7")))
             (of_Z 7) eq_refl eq_refl eq_refl) _).
    discriminate.
  - exact (proj2 (proj2 (normalize_rating_spec Normalizer.digits_to_float VNone)) eq_refl).
Defined.

(** ** Conversion of a positive [int] to a float *)

Section RoundingFacts.

Lemma digits2_pos_size (p : positive) : digits2_pos p = Pos.size p.
Proof. induction p; simpl; congruence. Qed.

(** [2^(d-1) <= m < 2^d] for the number [d] of binary digits of [m]. *)
Lemma Zdigits2_bounds (m : Z) :
  0 < m -> 2 ^ (Zdigits2 m - 1) <= m < 2 ^ Zdigits2 m.
Proof.
  destruct m as [|p|p]; try lia. intros _. simpl. rewrite digits2_pos_size.
  pose proof (Pos.size_gt p) as Hgt. pose proof (Pos.size_le p) as Hle.
  apply Pos2Z.pos_lt_pos in Hgt. apply Pos2Z.pos_le_pos in Hle.
  rewrite Pos2Z.inj_pow in Hgt, Hle.
  split; [|exact Hgt].
  replace (Z.pos (Pos.size p)) with (Z.succ (Z.pos (Pos.size p) - 1)) in Hle by lia.
  rewrite Z.pow_succ_r in Hle by lia. lia.
Qed.

Lemma Zdigits2_lower (m k : Z) : 0 <= k -> 2 ^ k <= m -> k + 1 <= Zdigits2 m.
Proof.
  intros Hk Hm. assert (0 < m) by (pose proof (Z.pow_pos_nonneg 2 k); lia).
  destruct (Zdigits2_bounds m H) as [_ Hub].
  destruct (Z_lt_le_dec k (Zdigits2 m)) as [|Hle]; [lia|].
  pose proof (Z.pow_le_mono_r 2 (Zdigits2 m) k ltac:(lia) Hle). lia.
Qed.

Lemma shr_1_div2 (r : shr_record) : 0 <= shr_m r -> shr_m (shr_1 r) = shr_m r / 2.
Proof.
  destruct r as [m b c]; cbn [shr_m]. intros Hm.
  destruct m as [|[p|p|]|p]; try lia; cbn [shr_1 shr_m].
  - reflexivity.
  - apply Z.div_unique with 1; lia.
  - apply Z.div_unique with 0; lia.
  - reflexivity.
Qed.

Lemma pow2_xI (p : positive) : 2 ^ Z.pos p~1 = 2 * 2 ^ Z.pos p * 2 ^ Z.pos p.
Proof.
  replace (Z.pos p~1) with (Z.pos p + Z.pos p + 1) by lia.
  rewrite !Z.pow_add_r, Z.pow_1_r by lia. ring.
Qed.

Lemma pow2_xO (p : positive) : 2 ^ Z.pos p~0 = 2 ^ Z.pos p * 2 ^ Z.pos p.
Proof.
  replace (Z.pos p~0) with (Z.pos p + Z.pos p) by lia.
  now rewrite !Z.pow_add_r by lia.
Qed.

Lemma iter_shr_1_div (p : positive) (r : shr_record) :
  0 <= shr_m r ->
  shr_m (SpecFloat.iter_pos shr_1 p r) = shr_m r / 2 ^ Z.pos p.
Proof.
  revert r. induction p as [p IH|p IH|]; intros r Hr; cbn [SpecFloat.iter_pos].
  - assert (H1 : 0 <= shr_m (shr_1 r)) by now apply shr_1_nonneg.
    assert (H2 : 0 <= shr_m (SpecFloat.iter_pos shr_1 p (shr_1 r)))
      by now apply iter_shr_1_nonneg.
    assert (0 < 2 ^ Z.pos p) by (apply Z.pow_pos_nonneg; lia).
    rewrite IH, IH, shr_1_div2 by assumption.
    rewrite !Z.div_div by lia.
    now rewrite pow2_xI, Z.mul_assoc.
  - assert (H2 : 0 <= shr_m (SpecFloat.iter_pos shr_1 p r))
      by now apply iter_shr_1_nonneg.
    assert (0 < 2 ^ Z.pos p) by (apply Z.pow_pos_nonneg; lia).
    rewrite IH, IH by assumption.
    rewrite !Z.div_div by lia.
    now rewrite pow2_xO.
  - now rewrite shr_1_div2.
Qed.

(** A right shift by fewer bits than the mantissa has keeps it positive
    and does not lower the magnitude [digits + exponent]. *)
Lemma shr_fexp_positive (m e : Z) (l : location) :
  0 < m -> emin prec emax + 1 <= Zdigits2 m + e ->
  let r := shr_fexp prec emax m e l in
  0 < shr_m (fst r) /\ Zdigits2 m + e <= Zdigits2 (shr_m (fst r)) + snd r.
Proof.
  intros Hm Hmag. unfold shr_fexp, shr.
  assert (H0 : shr_m (shr_record_of_loc m l) = m) by (destruct l as [|[]]; reflexivity).
  destruct (Zdigits2_bounds m Hm) as [Hlo _].
  assert (Hd : 1 <= Zdigits2 m) by (destruct m; simpl; lia).
  destruct (fexp prec emax (Zdigits2 m + e) - e) as [|n|n] eqn:Hn; cbn [fst snd];
    rewrite ?H0; try lia.
  rewrite iter_shr_1_div, H0 by lia.
  assert (Hnb : Z.pos n <= Zdigits2 m - 1).
  { unfold fexp, emin, prec, emax in *. lia. }
  assert (Hq : 2 ^ (Zdigits2 m - 1 - Z.pos n) <= m / 2 ^ Z.pos n).
  { apply Z.div_le_lower_bound; [apply Z.pow_pos_nonneg; lia|].
    rewrite <- Z.pow_add_r by lia.
    now replace (Z.pos n + (Zdigits2 m - 1 - Z.pos n)) with (Zdigits2 m - 1) by lia. }
  split.
  - eapply Z.lt_le_trans; [|exact Hq]. apply Z.pow_pos_nonneg; lia.
  - assert (Hk : 0 <= Zdigits2 m - 1 - Z.pos n) by lia.
    pose proof (Zdigits2_lower _ _ Hk Hq). lia.
Qed.

Lemma round_nearest_even_ge (m : Z) (l : location) : m <= round_nearest_even m l.
Proof. destruct l as [|[]]; simpl; try lia. destruct (Z.even m); lia. Qed.

Lemma Zdigits2_mono (a b : Z) : 0 < a -> a <= b -> Zdigits2 a <= Zdigits2 b.
Proof.
  intros Ha Hab. destruct (Zdigits2_bounds a Ha) as [Hlo _].
  assert (1 <= Zdigits2 a) by (destruct a; simpl; lia).
  pose proof (Zdigits2_lower b (Zdigits2 a - 1) ltac:(lia) ltac:(lia)). lia.
Qed.

(** Rounding a positive mantissa of magnitude above [emin] gives a
    finite float or an infinity: never a zero, never NaN. *)
Lemma binary_round_aux_nonzero (s : bool) (m e : Z) (l : location) :
  0 < m -> emin prec emax + 1 <= Zdigits2 m + e ->
  let r := binary_round_aux prec emax s m e l in
  r = S754_infinity s \/ exists m' e', r = S754_finite s m' e'.
Proof.
  intros Hm Hmag. unfold binary_round_aux.
  destruct (shr_fexp_positive m e l Hm Hmag) as [H1 H1'].
  destruct (shr_fexp prec emax m e l) as [mrs' e1]; simpl in H1, H1'.
  pose proof (round_nearest_even_ge (shr_m mrs') (loc_of_shr_record mrs')) as Hge.
  pose proof (Zdigits2_mono _ _ H1 Hge) as Hdg.
  destruct (shr_fexp_positive (round_nearest_even (shr_m mrs') (loc_of_shr_record mrs'))
              e1 loc_Exact ltac:(lia) ltac:(lia)) as [H2 _].
  destruct (shr_fexp prec emax _ e1 loc_Exact) as [mrs'' e2]; simpl in H2.
  destruct (shr_m mrs'') as [|p|p]; try lia.
  destruct (e2 <=? emax - prec); eauto.
Qed.

Lemma iter_xO_pow (m d : positive) : Z.pos (Pos.iter xO m d) = Z.pos m * 2 ^ Z.pos d.
Proof.
  induction d as [|d IH] using Pos.peano_ind.
  - simpl. lia.
  - rewrite Pos.iter_succ, Pos2Z.inj_xO, IH, Pos2Z.inj_succ, Z.pow_succ_r by lia. lia.
Qed.

(** [float(z)] of a positive [int] is a positive finite float or plus
    infinity. *)
Lemma of_Z_positive (z : Z) :
  0 < z ->
  of_Z z = S754_infinity false \/ exists m e, of_Z z = S754_finite false m e.
Proof.
  destruct z as [|p|p]; try lia. intros _.
  unfold of_Z, binary_normalize, binary_round.
  destruct (shl_align p 0 _) as [mz ez] eqn:Ha.
  apply binary_round_aux_nonzero; [lia|].
  assert (Hd : 1 <= Z.pos (digits2_pos p)) by lia.
  unfold shl_align in Ha.
  destruct (fexp prec emax (Z.pos (digits2_pos p) + 0) - 0) as [|d|d] eqn:Hf;
    injection Ha as <- <-.
  - unfold emin, prec, emax. simpl Zdigits2. lia.
  - unfold emin, prec, emax. simpl Zdigits2. lia.
  - pose proof (Zdigits2_bounds (Z.pos p) ltac:(lia)) as [Hlo _]. simpl Zdigits2 in Hlo.
    assert (Hq : 2 ^ (Z.pos (digits2_pos p) - 1 + Z.pos d) <= Z.pos (Pos.iter xO p d)).
    { rewrite iter_xO_pow, Z.pow_add_r by lia.
      apply Z.mul_le_mono_nonneg_r; [apply Z.pow_nonneg|]; lia. }
    assert (Hk : 0 <= Z.pos (digits2_pos p) - 1 + Z.pos d) by lia.
    pose proof (Zdigits2_lower _ _ Hk Hq) as Hdig.
    unfold fexp, emin, prec, emax in *. lia.
Qed.
End RoundingFacts.

(** ** The metrics accumulator *)

Section MetricsFacts.
Import Metrics.

(** Float multiplication commutes. *)
Lemma fmul_comm (x y : float) : fmul x y = fmul y x.
Proof.
  unfold fmul.
  destruct x as [sx|sx| |sx mx ex], y as [sy|sy| |sy my ey]; cbn [SFmul];
    rewrite ?(xorb_comm sx sy); try reflexivity.
  now rewrite (Pos.mul_comm mx my), (Z.add_comm ex ey).
Qed.

(** What a run of [record] calls leaves in the accumulator. *)
Lemma record_all_spec (calls : list (float * Z)) (m : metrics) :
  request_count (record_all m calls) = request_count m + Z.of_nat (length calls) /\
  total_bytes (record_all m calls)
    = total_bytes m + fold_right (fun c acc => Z.max 0 (snd c) + acc) 0 calls /\
  latencies (record_all m calls) = latencies m ++ samples calls.
Proof.
  revert m. induction calls as [|[l b] calls IH]; intros m; cbn [record_all fold_left].
  - cbn [length fold_right samples map]. rewrite app_nil_r. repeat split; lia.
  - destruct (IH (record m l b)) as (Hc & Hb & Hl).
    unfold record_all in Hc, Hb, Hl. cbn [fst snd]. rewrite Hc, Hb, Hl.
    cbn [record request_count total_bytes latencies length samples map fold_right fst snd].
    rewrite <- app_assoc. repeat split; lia.
Qed.

(** The number of samples is never the float zero once a call was made. *)
Lemma flen_nonzero (x : float) (xs : list float) :
  flen (x :: xs) = S754_infinity false \/
  exists m e, flen (x :: xs) = S754_finite false m e.
Proof. unfold flen. apply of_Z_positive. cbn [length]. lia. Qed.

(** The division of [summary] never sees a zero divisor. *)
Lemma avg_ms_returns (lat : list float) :
  avg_ms lat = Returned (match lat with
                         | [] => fzero
                         | _ => fmul fthousand (mean lat)
                         end).
Proof.
  destruct lat as [|x xs]; [reflexivity|].
  unfold avg_ms, pydiv, mean.
  destruct (flen_nonzero x xs) as [-> | (m & e & ->)]; reflexivity.
Qed.

(** The three sources compute the same summary. *)
Lemma avg_ms_mt_returns (lat : list float) :
  avg_ms_mt lat = avg_ms lat.
Proof.
  destruct lat as [|x xs]; [reflexivity|].
  unfold avg_ms_mt, avg_ms. destruct (pydiv _ _); [|reflexivity].
  now rewrite fmul_comm.
Qed.

(** X6. The summaries of step3b and step3c are the summary of step1. *)
Lemma summary_mt_summary (m : metrics) : summary_mt m = summary m.
Proof. unfold summary_mt, summary. now rewrite avg_ms_mt_returns. Qed.

(** X5. [summary()] returns for every accumulator: its division never
    sees a zero divisor. *)
Lemma summary_returns (m : metrics) : exists s, summary m = Returned s.
Proof. unfold summary. rewrite avg_ms_returns. eauto. Qed.

(** C7. After any sequence of [record] calls, [summary()] returns a
    dictionary whose request count is the number of recorded samples,
    whose average latency is the mean of the recorded latencies times
    1000 rounded to 2 decimals (when there is a sample), and whose total
    latency is their sum rounded to 3 decimals. *)
Theorem summary_of_calls (calls : list (float * Z)) :
  exists s : summary_dict,
    summary (record_all init calls) = Returned s /\
    requests s = Z.of_nat (length (samples calls)) /\
    (calls <> [] ->
       avg_latency_ms s = round_nd 2 (fmul (mean (samples calls)) fthousand)) /\
    total_latency_s s = pyround 3 (pysum (samples calls)).
Proof.
  destruct (record_all_spec calls init) as (Hc & _ & Hl).
  cbn [init request_count latencies app] in Hc, Hl.
  unfold summary. rewrite avg_ms_returns, Hl, Hc.
  eexists; split; [reflexivity|]. cbn [requests avg_latency_ms total_latency_s].
  split; [|split].
  - unfold samples. rewrite length_map. lia.
  - intros Hne. destruct calls as [|c calls]; [congruence|].
    cbn [samples map]. now rewrite fmul_comm.
  - reflexivity.
Qed.

(** C10. With no recorded sample, [summary()] returns (no division is
    performed): 0 requests, 0 bytes, an average of [0.0] and a total that
    is the [int] 0, equal to [0.0] as a number. *)
Theorem summary_empty :
  exists s : summary_dict,
    summary init = Returned s /\ summary_mt init = Returned s /\
    requests s = 0 /\ bytes s = 0 /\ avg_latency_ms s = fzero /\
    total_latency_s s = PInt 0 /\
    pynum_eqb (total_latency_s s) (PFloat fzero) = true.
Proof. eexists. repeat split. Qed.
End MetricsFacts.

(** Two calls, of half a second and of a negative duration that is stored
    as [0.0]. *)
Lemma summary_of_calls_witness :
  exists s : Metrics.summary_dict,
    Metrics.summary
      (Metrics.record_all Metrics.init
         [(fdiv fone (of_Z 2), 100); (of_Z (-1), -5)]) = Returned s /\
    Metrics.requests s = 2 /\
    Metrics.avg_latency_ms s
      = round_nd 2 (fmul (Metrics.mean [fdiv fone (of_Z 2); fzero]) fthousand) /\
    Metrics.total_latency_s s = pyround 3 (pysum [fdiv fone (of_Z 2); fzero]).
Proof.
  destruct (summary_of_calls [(fdiv fone (of_Z 2), 100); (of_Z (-1), -5)])
    as (s & Hs & Hr & Ha & Ht).
  exists s. split; [exact Hs|]. split; [exact Hr|]. split; [|exact Ht].
  apply Ha. discriminate.
Defined.

(** ** Workers recording without a lock *)

Section Interleaving.
Import Metrics MetricsMT.

Lemma sum_list_with_insert {A : Type} (f : A -> nat) (l : list A) (i : nat) (x y : A) :
  l !! i = Some x ->
  (sum_list_with f (<[i := y]> l) + f x = sum_list_with f l + f y)%nat.
Proof.
  revert i. induction l as [|a l IH]; intros [|i] Hi; simplify_eq/=.
  - lia.
  - specialize (IH i Hi). lia.
Qed.

Lemma tmp_bounded_mono (b b' : Z) (w : worker) :
  b <= b' -> tmp_bounded b w -> tmp_bounded b' w.
Proof. unfold tmp_bounded. destruct (w_pc w); intros; lia. Qed.

Lemma invariant_start (todos : list (list (float * Z))) :
  invariant (total_calls todos) (start todos).
Proof.
  assert (Hp : sum_list_with pending (map (mkWorker Idle) todos) = total_calls todos).
  { unfold total_calls. induction todos as [|t todos IH]; simpl; [reflexivity|].
    rewrite IH. unfold pending. simpl. lia. }
  assert (Hs : sum_list_with stored (map (mkWorker Idle) todos) = 0%nat).
  { clear Hp. induction todos as [|t todos IH]; simpl; [reflexivity|]. exact IH. }
  split; unfold stores_done, start; simpl; rewrite ?Hs; try lia.
  clear Hp Hs. induction todos; simpl; constructor; [exact I|assumption].
Qed.

Lemma pending_mk (c : pc) (todo : list (float * Z)) :
  pending (mkWorker c todo)
  = (length todo + match c with Idle => 0 | _ => 1 end)%nat.
Proof. reflexivity. Qed.

Lemma stored_mk (c : pc) (todo : list (float * Z)) :
  stored (mkWorker c todo)
  = match c with
    | StoredCount _ _ | LoadedBytes _ _ _ | StoredBytes _ _ => 1%nat
    | _ => 0%nat
    end.
Proof. reflexivity. Qed.

Lemma invariant_step (total : nat) (p p' : pool) :
  step p p' -> invariant total p -> invariant total p'.
Proof.
  intros [q i w w' m' Hi Hw] [Hpend Hcount Hfirst Htmp].
  pose proof (sum_list_with_insert pending _ _ _ w' Hi) as Sp.
  pose proof (sum_list_with_insert stored _ _ _ w' Hi) as Ss.
  pose proof (Forall_lookup_1 _ _ _ _ Htmp Hi) as Hwt.
  unfold stores_done in *.
  destruct w as [pcw todo]. unfold worker_step in Hw. cbn [w_pc w_todo] in Hw.
  destruct pcw as [|t l s|l s|t l s|l s];
    [destruct todo as [|[l s] rest]; [discriminate|]|..];
    injection Hw as <- <-;
    unfold tmp_bounded in Hwt; rewrite !pending_mk in Sp; rewrite !stored_mk in Ss;
    cbn [w_pc w_todo length] in Hwt, Sp, Ss;
    (split; unfold stores_done; cbn [shared workers request_count latencies];
     rewrite ?length_app; cbn [length]; try lia);
    (apply Forall_insert;
     [eapply Forall_impl; [exact Htmp|]; intros x; apply tmp_bounded_mono; lia
     |unfold tmp_bounded; cbn [w_pc]; try exact I; lia]).
Qed.

Lemma invariant_steps (total : nat) (p p' : pool) :
  rtc step p p' -> invariant total p -> invariant total p'.
Proof. induction 1; eauto using invariant_step. Qed.

Lemma finished_sums (p : pool) :
  finished p ->
  sum_list_with pending (workers p) = 0%nat /\
  sum_list_with stored (workers p) = 0%nat.
Proof.
  unfold finished. induction 1 as [|w ws Hw _ IH]; cbn; [tauto|].
  rewrite Hw. cbn. tauto.
Qed.

Lemma serial_invariant_step (total : nat) (p p' : pool) :
  step_serial p p' -> serial_invariant total p -> serial_invariant total p'.
Proof.
  intros [q i l s rest Hi] [Ht Hc].
  pose proof (sum_list_with_insert pending _ _ _ (mkWorker Idle rest) Hi) as Sp.
  rewrite !pending_mk in Sp. cbn [length] in Sp.
  split; cbn [shared workers record request_count latencies];
    rewrite length_app; cbn [length]; lia.
Qed.

Lemma serial_invariant_steps (total : nat) (p p' : pool) :
  rtc step_serial p p' -> serial_invariant total p -> serial_invariant total p'.
Proof. induction 1; eauto using serial_invariant_step. Qed.

Lemma run_schedule_sound (sched : list nat) (p p' : pool) :
  run_schedule sched p = Some p' -> rtc step p p'.
Proof.
  revert p. induction sched as [|i sched IH]; intros p; cbn.
  - intros [= ->]. constructor.
  - destruct (workers p !! i) as [w|] eqn:Hi; [|discriminate]. cbn.
    destruct (worker_step (shared p) w) as [[m' w']|] eqn:Hw; [|discriminate]. cbn.
    intros Hrun. eapply rtc_l; [|exact (IH _ Hrun)].
    destruct p; econstructor; eassumption.
Qed.

(** With threads that may switch between any two loads and stores:
    when all workers have returned, every call has appended its latency
    sample, and the request count is at most the number of calls and at
    least 1 if a call was made; it equals the number of calls when no two
    calls overlap. *)
Theorem unlocked_record (todos : list (list (float * Z))) :
  (forall p, rtc step (start todos) p -> finished p ->
     length (latencies (shared p)) = total_calls todos /\
     request_count (shared p) <= Z.of_nat (total_calls todos) /\
     ((0 < total_calls todos)%nat -> 1 <= request_count (shared p))) /\
  (forall p, rtc step_serial (start todos) p -> finished p ->
     request_count (shared p) = Z.of_nat (total_calls todos)).
Proof.
  split; intros p Hrun Hfin; destruct (finished_sums p Hfin) as [Hp Hs].
  - destruct (invariant_steps _ _ _ Hrun (invariant_start todos))
      as [Hpend Hcount Hfirst _].
    unfold stores_done in *. rewrite Hp in Hpend. rewrite Hs in Hcount, Hfirst.
    repeat split; try lia.
  - assert (H0 : serial_invariant (total_calls todos) (start todos)).
    { destruct (invariant_start todos) as [H _ _ _]. split; [exact H|reflexivity]. }
    destruct (serial_invariant_steps _ _ _ Hrun H0) as [Ht Hc].
    rewrite Hp in Ht. lia.
Qed.
End Interleaving.

(** The racy schedule is a run of the pool, and it ends with every worker
    back. *)
Lemma racy_run :
  exists p : MetricsMT.pool,
    MetricsMT.racy_result = Some p /\
    rtc MetricsMT.step (MetricsMT.start MetricsMT.two_workers) p /\
    MetricsMT.finished p.
Proof.
  eexists. split; [reflexivity|]. split.
  - apply (run_schedule_sound MetricsMT.racy_schedule). vm_compute. reflexivity.
  - repeat constructor.
Qed.

(** ** The date normaliser *)

Section DateFacts.
Import Normalizer.

Lemma digit_val_char (n : Z) : digit_val (digit_char n) = Some (n mod 10).
Proof.
  unfold digit_char.
  assert (H : 0 <= n mod 10 < 10) by (apply Z.mod_pos_bound; lia).
  destruct (n mod 10) as [|p|p]; [reflexivity| |lia].
  assert (Hp : (p = 1 \/ p = 2 \/ p = 3 \/ p = 4 \/ p = 5 \/
                p = 6 \/ p = 7 \/ p = 8 \/ p = 9)%positive) by lia.
  repeat (destruct Hp as [-> | Hp]; [reflexivity|]). subst p. reflexivity.
Qed.

(** From 1000 to 9999 the decimal form of a year has four digits. *)
Lemma decimal_four_digits (y : Z) : 1000 <= y <= 9999 -> decimal y = pad4 y.
Proof.
  intros Hy.
  assert (Hall : forallb (fun n => String.eqb (decimal n) (pad4 n)) (seqZ 1000 9000) = true)
    by (vm_compute; reflexivity).
  rewrite forallb_forall in Hall. apply String.eqb_eq, Hall.
  apply list_elem_of_In, elem_of_seqZ. lia.
Qed.

Lemma four_digits (y : Z) :
  0 <= y <= 9999 ->
  1000 * ((y / 1000) mod 10) + 100 * ((y / 100) mod 10)
    + 10 * ((y / 10) mod 10) + y mod 10 = y.
Proof.
  intros Hy.
  pose proof (Z.div_mod y 10 ltac:(lia)) as H0.
  pose proof (Z.div_mod (y / 10) 10 ltac:(lia)) as H1.
  pose proof (Z.div_mod (y / 100) 10 ltac:(lia)) as H2.
  assert (E1 : y / 10 / 10 = y / 100) by (rewrite Z.div_div by lia; reflexivity).
  assert (E2 : y / 100 / 10 = y / 1000) by (rewrite Z.div_div by lia; reflexivity).
  assert (E3 : (y / 1000) mod 10 = y / 1000).
  { apply Z.mod_small. split; [apply Z.div_pos; lia|].
    apply Z.div_lt_upper_bound; lia. }
  rewrite E1 in H1. rewrite E2 in H2. rewrite E3.
  generalize dependent (y / 1000). generalize dependent (y / 100).
  generalize dependent (y / 10). intros. lia.
Qed.

Lemma two_digits (n : Z) :
  0 <= n <= 99 -> 10 * ((n / 10) mod 10) + n mod 10 = n.
Proof.
  intros Hn.
  pose proof (Z.div_mod n 10 ltac:(lia)) as H0.
  assert (E : (n / 10) mod 10 = n / 10).
  { apply Z.mod_small. split; [apply Z.div_pos; lia|].
    apply Z.div_lt_upper_bound; lia. }
  rewrite E. lia.
Qed.

(** A day of the calendar with a year of four digits. *)
Lemma valid_date_calendar (d : date) :
  valid_date d = true <-> calendar_day d = true /\ 1000 <= year d.
Proof.
  unfold valid_date, calendar_day. rewrite !andb_true_iff, !Z.leb_le. lia.
Qed.

(** The reference reader reads back what [strftime] prints for a year
    of four digits. *)
Lemma parse_strftime (d : date) :
  valid_date d = true -> parse_iso_date (strftime_ymd (midnight d)) = Some d.
Proof.
  intros Hv. pose proof Hv as Hv'.
  unfold valid_date in Hv'. rewrite !andb_true_iff, !Z.leb_le in Hv'.
  assert (Hmd : days_in_month (year d) (month d) <= 31).
  { unfold days_in_month. repeat case_match; lia. }
  destruct d as [y m dd]. cbn [year month day] in *.
  unfold strftime_ymd. cbn [ts_date midnight year month day].
  rewrite decimal_four_digits by lia. unfold pad4, pad2.
  unfold parse_iso_date. cbv [String.append String.app].
  rewrite !digit_val_char. cbn [mbind option_bind].
  rewrite (four_digits y), (two_digits m), (two_digits dd) by lia.
  now rewrite Hv.
Qed.






Section Idempotence.
Variable to_datetime : pyval -> option timestamp.

(** The days the timestamps of the parser can hold. *)
Variable readable : date -> Prop.

(** What is assumed of the pandas parser: a timestamp holds a day of the
    calendar, within the range of the parser; the parser reads ten
    characters [YYYY-MM-DD] that name a day of its range as that day at
    midnight; and it does not read the sentinel as a date. *)
Hypothesis to_datetime_day :
  forall x t, to_datetime x = Some t ->
    calendar_day (ts_date t) = true /\ readable (ts_date t).
Hypothesis to_datetime_iso :
  forall s d, parse_iso_date s = Some d -> readable d ->
    to_datetime (VStr s) = Some (midnight d).
Hypothesis to_datetime_na : to_datetime (VStr "N/A") = None.

End Idempotence.

Lemma parse_iso_date_valid (s : string) (d : date) :
  parse_iso_date s = Some d -> valid_date d = true.
Proof.
  unfold parse_iso_date. intros Hp.
  repeat (case_match; try discriminate).
  repeat (apply bind_Some in Hp; destruct Hp as (? & _ & Hp)).
  destruct (valid_date _) eqn:Hv; [|discriminate].
  now injection Hp as <-.
Qed.

Lemma iso_to_datetime_valid (x : pyval) (t : timestamp) :
  iso_to_datetime x = Some t -> valid_date (ts_date t) = true.
Proof.
  destruct x as [| | | |s|]; try discriminate. unfold iso_to_datetime.
  destruct (parse_iso_date s) as [d|] eqn:Hp; [|discriminate].
  intros [= <-]. exact (parse_iso_date_valid s d Hp).
Qed.

Lemma iso_to_datetime_iso (d : date) :
  valid_date d = true ->
  iso_to_datetime (VStr (strftime_ymd (midnight d))) = Some (midnight d).
Proof. intros Hd. unfold iso_to_datetime. now rewrite parse_strftime. Qed.


End DateFacts.



(** ** Navigation under a page-load timeout *)

Section NavigationFacts.
Import Step3c.
Variable w : world.

(** The loop of [safe_get], entered at [attempt] with the iterations up
    to [retries] left: [k] failures that are not timeouts, then a
    timeout. *)
Lemma safe_get_from_timeout (via : route) (url : string) (timeout retries : Z)
    (k left : nat) (attempt : Z) (s : io) (d : driver) :
  Z.of_nat left = retries + 1 - attempt ->
  attempt + Z.of_nat k <= retries ->
  (forall j, (j < k)%nat ->
     exists e, nav_raises (browse w (tick s + j) via url) = Some e /\
               is_TimeoutException e = false) ->
  nav_raises (browse w (tick s + k) via url) = Some TimeoutException ->
  exists s',
    safe_get_from w left attempt via url timeout retries s d
    = ((true, ModePartial, Some TimeoutException), s',
       mkDriver (nav_dom (browse w (tick s + k) via url))
                (nav_read_latency (browse w (tick s + k) via url))) /\
    last (log s') = Some EvWindowStop /\
    tick s' = S (tick s + k).
Proof.
  revert left attempt s d.
  induction k as [|k IH]; intros left attempt s d Hleft Hk Hfail Htime.
  - destruct left as [|left]; [lia|]. cbn [safe_get_from note tick].
    rewrite Nat.add_0_r in Htime |- *. rewrite Htime. cbn [is_TimeoutException].
    eexists. split; [reflexivity|]. cbn [log tick emit note].
    split; [apply last_snoc|reflexivity].
  - destruct left as [|left]; [lia|]. cbn [safe_get_from note tick].
    destruct (Hfail 0%nat ltac:(lia)) as (e & He & Hnt).
    rewrite Nat.add_0_r in He. rewrite He, Hnt.
    replace (retries <=? attempt) with false by (symmetry; apply Z.leb_gt; lia).
    assert (Hnext : exists s',
      safe_get_from w left (attempt + 1) via url timeout retries
        (note EvSleep (emit (EvNavigate via url)
           (mkIo (tick s) (log s ++ [EvSetPageLoadTimeout timeout]))))
        (mkDriver (nav_dom (browse w (tick s) via url))
                  (nav_read_latency (browse w (tick s) via url)))
      = ((true, ModePartial, Some TimeoutException), s',
         mkDriver (nav_dom (browse w (tick s + S k) via url))
                  (nav_read_latency (browse w (tick s + S k) via url))) /\
      last (log s') = Some EvWindowStop /\ tick s' = S (tick s + S k)).
    { destruct (IH left (attempt + 1)
                 (note EvSleep (emit (EvNavigate via url)
                    (mkIo (tick s) (log s ++ [EvSetPageLoadTimeout timeout]))))
                 (mkDriver (nav_dom (browse w (tick s) via url))
                           (nav_read_latency (browse w (tick s) via url))))
        as (s' & Hs' & Hlast & Htick); try lia.
      - intros j Hj. cbn [tick note emit].
        replace (S (tick s) + j)%nat with (tick s + S j)%nat by lia.
        apply Hfail. lia.
      - cbn [tick note emit].
        now replace (S (tick s) + k)%nat with (tick s + S k)%nat by lia.
      - cbn [tick note emit] in Hs', Htick.
        replace (S (tick s) + k)%nat with (tick s + S k)%nat in Hs', Htick by lia.
        eauto. }
    destruct (is_WebDriverException e); exact Hnext.
Qed.

(** C5. When a navigation of [safe_get] runs into the page-load timeout
    (after any number of failed attempts that the retry budget covers),
    [safe_get] stops the page ([window.stop()]), returns
    [(True, "partial", e)] and leaves the document loaded so far in
    [page_source].  It returns a value on every path: the exception is
    not passed on to the caller. *)
Theorem safe_get_timeout_partial (via : route) (url : string) (timeout retries : Z)
    (k : nat) (s : io) (d : driver) :
  Z.of_nat k <= retries ->
  (forall j, (j < k)%nat ->
     exists e, nav_raises (browse w (tick s + j) via url) = Some e /\
               is_TimeoutException e = false) ->
  nav_raises (browse w (tick s + k) via url) = Some TimeoutException ->
  exists s' d',
    safe_get w via url timeout retries s d
    = ((true, ModePartial, Some TimeoutException), s', d') /\
    page_source d' = nav_dom (browse w (tick s + k) via url) /\
    last (log s') = Some EvWindowStop.
Proof.
  intros Hk Hfail Htime. unfold safe_get.
  destruct (safe_get_from_timeout via url timeout retries k
              (Z.to_nat (retries + 1)) 0 s d) as (s' & Hs' & Hlast & _);
    try assumption; try lia.
  eexists _, _. split; [exact Hs'|]. split; [reflexivity|exact Hlast].
Qed.
End NavigationFacts.

(** A browser whose first attempt fails and whose second attempt times
    out, under a retry budget of 2. *)
Lemma safe_get_timeout_partial_witness :
  exists s' d',
    Step3c.safe_get Site.site_slow Direct "https://www.themoviedb.org/movie/949"
      60 2 io0 Step3c.blank
    = ((true, Step3c.ModePartial, Some TimeoutException), s', d') /\
    Step3c.page_source d' = "DETAIL" /\
    last (log s') = Some EvWindowStop.
Proof.
  apply (safe_get_timeout_partial Site.site_slow Direct
           "https://www.themoviedb.org/movie/949" 60 2 1 io0 Step3c.blank).
  - lia.
  - intros j Hj. assert (j = 0%nat) as -> by lia.
    exists WebDriverException. split; reflexivity.
  - reflexivity.
Defined.

(** ** Fallback to the HTTP session *)

Section FallbackFacts.
Import Step3c Metrics.
Context `{Html}.
Variable float_of_str : string -> option float.
Variable w : world.
Variable cfg : config.

(** The static-HTML variant and the browser variant read a document
    with the same selectors. *)
Lemma selenium_row_bs4 (use_tor : bool) (i : Z) (via : route) (s : io)
    (m : metrics) (rr : response string) :
  http_get w (tick s) via (detail_url i) = Returned rr ->
  r_ok rr = true ->
  exists b s' m',
    fetch_detail_bs4 float_of_str w i via s m = Returned (Some b, s', m') /\
    selenium_row float_of_str use_tor i (detail_url i) (parse_html (r_payload rr))
    = with_method (selenium_tag use_tor) b.
Proof.
  intros Hget Hok. unfold fetch_detail_bs4. rewrite Hget, Hok.
  eexists _, _, _. split; [reflexivity|]. reflexivity.
Qed.

(** X30. When the navigation to a detail page ends in the failed state
    and the document is then read from the browser without an exception,
    the caller requests the same URL through the HTTP session of the same
    route and builds the row that [fetch_detail_bs4] builds from that
    response (the same selectors), under the browser variant's tag.  When
    the fallback raises or the response is not [ok], no row is added.  In
    both cases the loop goes on with the remaining ids. *)
Theorem fallback_after_failed_navigation (use_tor : bool) (st : sel_state) (i : Z)
    (r : bool * nav_mode * option exn) (s1 : io) (d1 : driver) :
  safe_get w (route_of use_tor) (detail_url i)
    (SEL_PAGELOAD_TIMEOUT cfg) (SEL_RETRIES cfg) (s_io st) (s_driver st)
  = (r, s1, d1) ->
  nav_failed r = true ->
  page_source_raises w (tick s1) = None ->
  let m1 := record (s_metrics st) (read_latency d1)
              (Z.of_nat (String.length (page_source d1))) in
  exists st',
    sel_detail_step float_of_str w cfg use_tor st i = Returned st' /\
    (exists tail,
       log (s_io st') = log s1 ++ EvHttpGet (route_of use_tor) (detail_url i) :: tail) /\
    match fetch_detail_bs4 float_of_str w i (route_of use_tor) s1 m1 with
    | Returned (Some b, _, _) =>
        s_rows st' = s_rows st ++ [with_method (selenium_tag use_tor) b]
    | Returned (None, _, _) | Raised _ => s_rows st' = s_rows st
    end /\
    (forall rest,
       sel_details float_of_str w cfg use_tor (i :: rest) st
       = sel_details float_of_str w cfg use_tor rest st').
Proof.
  intros Hnav Hfail Hread m1.
  assert (Hloop : forall st',
    sel_detail_step float_of_str w cfg use_tor st i = Returned st' ->
    forall rest,
      sel_details float_of_str w cfg use_tor (i :: rest) st
      = sel_details float_of_str w cfg use_tor rest st').
  { intros st' Hst' rest. cbn [sel_details]. now rewrite Hst'. }
  subst m1. revert Hloop. unfold sel_detail_step, read_page_source.
  rewrite Hnav, Hread, Hfail. unfold fetch_detail_bs4. intros Hloop.
  destruct (http_get w (tick s1) (route_of use_tor) (detail_url i)) as [rr|e].
  - destruct (r_ok rr) eqn:Hok; eexists; (split; [reflexivity|]);
      cbn [s_io s_rows log emit note].
    + split; [eexists; rewrite <- app_assoc; reflexivity|].
      split; [reflexivity|]. now apply Hloop.
    + split; [eexists; reflexivity|]. split; [reflexivity|]. now apply Hloop.
  - eexists. split; [reflexivity|]. cbn [s_io s_rows log emit note].
    split; [eexists; reflexivity|]. split; [reflexivity|]. now apply Hloop.
Qed.
End FallbackFacts.

(** A browser that cannot navigate, over a site that answers HTTP. *)
Lemma fallback_after_failed_navigation_witness :
  exists r s1 d1 st' b,
    Step3c.safe_get Site.site_no_browser Direct (Step3c.detail_url 949) 60 2
      io0 Step3c.blank = (r, s1, d1) /\
    Step3c.nav_failed r = true /\
    fst (fst r) = false /\
    Step3c.sel_detail_step Normalizer.digits_to_float Site.site_no_browser Site.cfg0
      false (Step3c.mkSel io0 Step3c.blank Metrics.init []) 949 = Returned st' /\
    In (EvHttpGet Direct (Step3c.detail_url 949)) (log (Step3c.s_io st')) /\
    Step3c.s_rows st' = [Step3c.with_method "Selenium" b] /\
    method b = "BS4_TOR" /\ title b = "Heat".
Proof.
  destruct (Step3c.safe_get Site.site_no_browser Direct (Step3c.detail_url 949) 60 2
              io0 Step3c.blank) as [[r s1] d1] eqn:Hnav.
  assert (Hfail : Step3c.nav_failed r = true)
    by (vm_compute in Hnav; injection Hnav as <- _ _; reflexivity).
  destruct (fallback_after_failed_navigation Normalizer.digits_to_float
              Site.site_no_browser Site.cfg0 false
              (Step3c.mkSel io0 Step3c.blank Metrics.init []) 949 r s1 d1 Hnav Hfail
              eq_refl)
    as (st' & Hst' & (tail & Hlog) & Hrows & _).
  vm_compute in Hnav. injection Hnav as <- <- <-.
  eexists _, _, _, st', _. split; [reflexivity|]. split; [reflexivity|].
  split; [reflexivity|]. split; [exact Hst'|]. split.
  - rewrite Hlog. apply in_or_app. right. left. reflexivity.
  - split; [exact Hrows|]. split; reflexivity.
Defined.

(** C6 fails when the browser is lost.  On the sample site the listing
    page gives the id 949; the three navigations to its detail page raise,
    so [safe_get] returns [(False, "error", e)]; the read of
    [drv.page_source] that follows raises too, before the result of the
    navigation is looked at.  The exception leaves [scrape_selenium]: no
    request for the detail page is made through the HTTP session, which
    would have answered, and no row is returned. *)
Theorem no_fallback_when_page_source_raises :
  let url := Step3c.detail_url 949 in
  exists st r s1 d1,
    Step3c.sel_listing Site.site_browser_lost Site.cfg0 10 1 Direct 1 []
      (Step3c.mkSel io0 Step3c.blank Metrics.init [])
    = Some (Returned ([949], st)) /\
    Step3c.safe_get Site.site_browser_lost Direct url 60 2
      (Step3c.s_io st) (Step3c.s_driver st) = (r, s1, d1) /\
    Step3c.nav_failed r = true /\
    Step3c.sel_detail_step Normalizer.digits_to_float Site.site_browser_lost Site.cfg0
      false st 949 = Raised WebDriverException /\
    ~ In (EvHttpGet Direct url) (log s1) /\
    (exists rr, http_get Site.site_browser_lost (tick s1) Direct url = Returned rr /\
                r_ok rr = true) /\
    Step3c.scrape_selenium Normalizer.digits_to_float Site.site_browser_lost Site.cfg0
      10 1 false io0 Step3c.blank = Some (Raised WebDriverException).
Proof.
  intros url. eexists _, _, _, _.
  split; [vm_compute; reflexivity|].
  split; [vm_compute; reflexivity|].
  split; [reflexivity|]. split; [vm_compute; reflexivity|].
  split; [|split; [eexists; split; reflexivity|vm_compute; reflexivity]].
  vm_compute. intros Hin. repeat (destruct Hin as [Hin|Hin]; [discriminate Hin|]).
  exact Hin.
Qed.

(** ** Pagination *)

Section PaginationFacts.
Variable float_of_str : string -> option float.
Variable to_datetime : pyval -> option Normalizer.timestamp.

(** step3c: on a listing that is empty on every page the loop goes round
    with [got] unchanged. *)
Lemma step3c_loop_spins (fuel : nat) (gm : gmap Z string) (s : Step3c.api_state) :
  Step3c.a_got s < 1 ->
  Step3c.scrape_api_loop float_of_str to_datetime Site.site_empty fuel 1 false gm s = None.
Proof.
  revert s. induction fuel as [|fuel IH]; intros s Hs; [reflexivity|].
  cbn [Step3c.scrape_api_loop].
  replace (Step3c.a_got s <? 1) with true by (symmetry; apply Z.ltb_lt; exact Hs).
  cbn [Site.site_empty Schema.api_popular Schema.r_ok Schema.r_payload Step3c.take_results].
  apply IH. exact Hs.
Qed.

(** C2 fails in step3c.  With a target of 1 over a listing whose every
    page is empty, [scrape_api] requests page after page and returns for
    no amount of fuel: its loop has no exit on an empty page. *)
Theorem step3c_scrape_api_never_returns (fuel : nat) :
  Step3c.scrape_api float_of_str to_datetime Site.site_empty fuel 1 false Schema.io0 = None.
Proof.
  unfold Step3c.scrape_api.
  cbn [Step3c.fetch_genre_map Site.site_empty Schema.api_genres Schema.r_ok].
  now rewrite step3c_loop_spins.
Qed.

(** step1: the same listing ends the run at the first page. *)
Lemma step1_scrape_api_exhausted :
  exists msum s,
    Step1.scrape_api float_of_str to_datetime Site.site_empty 1 1 Schema.io0
    = Some (Returned ([], msum, s)) /\
    Step1.pages_requested (Schema.log s) = [1].
Proof. eexists _, _. split; reflexivity. Qed.
End PaginationFacts.

(** ** The join by id *)

Section JoinFacts.
Import Step1.

Lemma int64_ids_id (rows : list row) (r : row) :
  int64_ids rows -> r ∈ rows -> exists i, tmdb_id r = Some i /\ - 2 ^ 63 <= i < 2 ^ 63.
Proof.
  unfold int64_ids. rewrite forallb_forall. intros Hall Hr.
  apply list_elem_of_In, Hall in Hr. unfold int64_id in Hr.
  destruct (tmdb_id r) as [i|]; [|discriminate].
  apply andb_true_iff in Hr as [H1 H2]. exists i. split; [reflexivity|]. lia.
Qed.

Lemma elem_of_merge_on_id {A B : Type} (kl : A -> option Z) (kr : B -> option Z)
    (left : list A) (right : list B) (x : A) (y : B) :
  (x, y) ∈ merge_on_id kl kr left right <-> x ∈ left /\ y ∈ right /\ kl x = kr y.
Proof.
  unfold merge_on_id. rewrite list_elem_of_bind. split.
  - intros (x' & Hxy & Hx'). apply list_elem_of_fmap in Hxy as (y' & [= -> ->] & Hy').
    apply list_elem_of_filter in Hy' as [Hk Hy']. auto.
  - intros (Hx & Hy & Hk). exists x. split; [|exact Hx].
    apply list_elem_of_fmap. exists y. split; [reflexivity|].
    apply list_elem_of_filter. auto.
Qed.

(** X2. On inputs whose ids are all present and fit 64 bits, every
    common row carries an id present in all three inputs and the field
    values of the API row with that id. *)
Lemma build_common_by_id_sound (api bs4 sel : list row) (t : tidy_row) :
  int64_ids api -> int64_ids bs4 -> int64_ids sel ->
  t ∈ build_common_by_id api bs4 sel ->
  exists a b s i, a ∈ api /\ b ∈ bs4 /\ s ∈ sel /\
    tmdb_id a = Some i /\ tmdb_id b = Some i /\ tmdb_id s = Some i /\
    t = tidy_of a.
Proof.
  intros Hia _ _. unfold build_common_by_id.
  destruct api as [|a0 api], bs4 as [|b0 bs4], sel as [|s0 sel];
    try (intros Hin; now apply elem_of_nil in Hin).
  intros Hin. apply list_elem_of_fmap in Hin as ([[a b] s] & -> & Hin).
  apply elem_of_merge_on_id in Hin as (Hab & Hs & Hk).
  apply elem_of_merge_on_id in Hab as (Ha & Hb & Hkab).
  cbn [fst] in *.
  destruct (int64_ids_id _ _ Hia Ha) as (i & Hi & _).
  exists a, b, s, i. rewrite <- Hk, <- Hkab. auto 10.
Qed.

Lemma filter_none {A : Type} (P : A -> Prop) `{forall x, Decision (P x)} (l : list A) :
  (forall z, z ∈ l -> ~ P z) -> filter P l = [].
Proof.
  induction l as [|y l IH]; intros Hl; [reflexivity|].
  rewrite filter_cons_False by (apply Hl; left).
  apply IH. intros z Hz. apply Hl. now right.
Qed.

(** With one row per id in the second and third inputs the join has at
    most as many rows as the first input. *)
Lemma merge_on_id_length {A B : Type} (kl : A -> option Z) (kr : B -> option Z)
    (left : list A) (right : list B) :
  NoDup (kr <$> right) ->
  (length (merge_on_id kl kr left right) <= length left)%nat.
Proof.
  intros Hnd. unfold merge_on_id.
  assert (Hone : forall x, (length (filter (fun y => kl x = kr y) right) <= 1)%nat).
  { intros x. clear left. induction right as [|y right IH]; [cbn; lia|].
    apply NoDup_cons in Hnd as [Hy Hnd]. rewrite filter_cons.
    destruct (decide (kl x = kr y)) as [Hk|Hk]; [|now apply IH].
    cbn [length]. enough (filter (fun y => kl x = kr y) right = []) as -> by (cbn; lia).
    apply filter_none. intros z Hz Hkz. apply Hy.
    rewrite <- Hk, Hkz. now apply list_elem_of_fmap_2. }
  induction left as [|x left IH]; [cbn; lia|].
  cbn [mbind list_bind]. rewrite length_app, length_fmap.
  specialize (Hone x). cbn [length]. cbn [mbind list_bind] in IH. lia.
Qed.

(** C4 fails on repeated ids.  One API row and two BS4 and two Selenium
    rows of the same id give four common rows for that one movie, above
    the length 1 of the shortest input. *)
Theorem duplicate_ids_multiply_rows :
  let a := Site.sample_row 1 "Heat" "API" in
  let b := Site.sample_row 1 "Heat" "BS4" in
  let s := Site.sample_row 1 "Heat" "Selenium" in
  build_common_by_id [a] [b; b] [s; s] = [tidy_of a; tidy_of a; tidy_of a; tidy_of a] /\
  common_count [a] [b; b] [s; s] = 4%nat /\
  (length [a] `min` (length [b; b] `min` length [s; s]) = 1)%nat.
Proof. repeat split. Qed.
End JoinFacts.

(** ** Route tags *)

Section TagFacts.
Import Step3c.
Context `{Html}.
Variable float_of_str : string -> option float.
Variable to_datetime : pyval -> option timestamp.
Variable w : world.

(** [fetch_detail_bs4] tags its row ["BS4_TOR"] on either route. *)
Lemma fetch_detail_bs4_tag (i : Z) (via : route) (s s' : io)
    (m m' : Metrics.metrics) (r : row) :
  fetch_detail_bs4 float_of_str w i via s m = Returned (Some r, s', m') ->
  method r = "BS4_TOR".
Proof.
  unfold fetch_detail_bs4.
  destruct (http_get w (tick s) via (detail_url i)) as [rr|e]; [|discriminate].
  destruct (r_ok rr); [|discriminate]. now intros [= <- _ _].
Qed.

(** The API and browser variants tag their rows by the route in use. *)
Lemma api_row_tag (proxies : bool) (gm : gmap Z string) (it : api_item) :
  method (api_row float_of_str to_datetime proxies gm it)
  = if proxies then "API_TOR" else "API".
Proof. reflexivity. Qed.

Lemma selenium_row_tag (use_tor : bool) (i : Z) (url : string) (e : elem) :
  method (selenium_row float_of_str use_tor i url e) = selenium_tag use_tor.
Proof. reflexivity. Qed.
End TagFacts.

(** C1 fails for the static-HTML variant.  The run asks for Tor, the probe
    fails and every request goes out directly; the API and browser rows
    are tagged for the direct route, the BS4 row is tagged ["BS4_TOR"]. *)
Theorem bs4_row_tagged_tor_after_failed_probe :
  exists api_rows bs_rows se_rows,
    Step3c.main Normalizer.digits_to_float Normalizer.iso_to_datetime
      Site.site_no_tor Site.cfg0 10 true 1
    = Some (Returned (api_rows, bs_rows, se_rows, false)) /\
    method <$> api_rows = ["API"] /\
    method <$> bs_rows = ["BS4_TOR"] /\
    method <$> se_rows = ["Selenium"] /\
    "BS4_TOR" ∈ Step3c.tor_tags /\ "BS4_TOR" ∉ Step3c.direct_tags.
Proof.
  eexists _, _, _. split; [vm_compute; reflexivity|].
  repeat split.
  - unfold Step3c.tor_tags. set_solver.
  - unfold Step3c.direct_tags. intros Hin.
    repeat (apply elem_of_cons in Hin as [Heq | Hin]; [discriminate Heq|]).
    now apply elem_of_nil in Hin.
Qed.

(** ** Pagination in step1 *)

Section Step1Pagination.
Import Step1.
Variable float_of_str : string -> option float.
Variable to_datetime : pyval -> option timestamp.
Variable w : world.


(** The inner loop never lowers the count, never passes the target, and
    takes at least one entry of a non-empty page while below the target. *)
Lemma take_results_count (max_movies : Z) (gm : gmap Z string)
    (results : list api_item) (movies : list row) (fetched : Z) :
  let r := take_results float_of_str to_datetime max_movies gm results movies fetched in
  fetched <= snd r /\
  (fetched <= max_movies -> snd r <= max_movies) /\
  (results <> [] -> fetched < max_movies -> fetched < snd r).
Proof.
  revert movies fetched.
  induction results as [|item rest IH]; intros movies fetched; cbn [Step1.take_results].
  - cbn [snd]. repeat split; try lia. congruence.
  - destruct (Z.leb_spec max_movies fetched) as [Hge|Hlt]; cbn [snd].
    + repeat split; lia.
    + destruct (IH (movies ++ [api_row float_of_str to_datetime gm item]) (fetched + 1))
        as (H1 & H2 & _).
      repeat split; lia.
Qed.

Lemma pages_requested_snoc (l : list event) (e : event) :
  pages_requested (l ++ [e])
  = pages_requested l ++ match e with EvApiPopular _ p => [p] | _ => [] end.
Proof.
  unfold pages_requested. rewrite omap_app. f_equal. destruct e; reflexivity.
Qed.

(** X1. The loop of step1's [scrape_api] returns or raises within
    [max_movies - fetched + 1] iterations.  When it returns, the pages it
    requested are consecutive, and it stopped below the target only on a
    page that listed nothing. *)
Theorem step1_pagination (fuel : nat) (max_movies : Z) (gm : gmap Z string)
    (s : api_state) :
  (Z.to_nat (max_movies - a_fetched s) < fuel)%nat ->
  exists r, scrape_api_loop float_of_str to_datetime w fuel max_movies gm s = Some r /\
    match r with
    | Raised _ => True
    | Returned st =>
        (exists k : nat,
           pages_requested (log (a_io st))
           = pages_requested (log (a_io s))
             ++ ((fun j => a_page s + Z.of_nat j) <$> seq 0 k)) /\
        (a_fetched st < max_movies ->
           exists t p resp,
             last (pages_requested (log (a_io st))) = Some p /\
             api_popular w t Direct p = Returned resp /\
             (if r_ok resp then r_payload resp else []) = [])
    end.
Proof.
  revert s. induction fuel as [|fuel IH]; intros s Hfuel; [lia|].
  cbn [Step1.scrape_api_loop].
  destruct (Z.ltb_spec (a_fetched s) max_movies) as [Hlt|Hge].
  2:{ eexists. split; [reflexivity|]. split; [|lia].
      exists 0%nat. cbn. now rewrite app_nil_r. }
  destruct (api_popular w (tick (a_io s)) Direct (a_page s)) as [resp|e] eqn:Hresp.
  2:{ eexists. split; [reflexivity|exact I]. }
  destruct (if r_ok resp then r_payload resp else []) as [|item rest] eqn:Hres.
  - eexists. split; [reflexivity|]. cbn [a_io a_fetched emit log].
    rewrite pages_requested_snoc. split.
    + exists 1%nat. cbn. now rewrite Z.add_0_r.
    + intros _. exists (tick (a_io s)), (a_page s), resp.
      rewrite last_snoc. now rewrite Hres.
  - destruct (take_results_count max_movies gm (item :: rest) (a_movies s) (a_fetched s))
      as (_ & _ & Hprog).
    specialize (Hprog ltac:(congruence) Hlt).
    destruct (take_results float_of_str to_datetime max_movies gm (item :: rest)
                (a_movies s) (a_fetched s))
      as [movies fetched] eqn:Htake. cbn [snd] in Hprog.
    destruct (IH (mkApiState (note EvSleep (emit (EvApiPopular Direct (a_page s)) (a_io s)))
                    (Metrics.record (a_metrics s) (r_latency resp) (r_size resp))
                    movies (a_page s + 1) fetched)) as (r & Hr & Hpost).
    { cbn [a_fetched]. lia. }
    exists r. split; [exact Hr|].
    destruct r as [st|e]; [|exact I].
    destruct Hpost as ((k & Hk) & Hstop). split; [|exact Hstop].
    exists (S k). rewrite Hk. cbn [a_io a_page note emit log].
    rewrite !pages_requested_snoc, app_nil_r, <- app_assoc. f_equal.
    cbn [seq fmap list_fmap app]. rewrite Z.add_0_r. f_equal.
    rewrite <- seq_shift, <- list_fmap_compose. apply list_fmap_ext.
    intros i j _. cbn. lia.
Qed.
End Step1Pagination.

(** One page of one movie, for a target of 1. *)
Lemma step1_pagination_witness :
  exists r,
    Step1.scrape_api_loop Normalizer.digits_to_float Normalizer.iso_to_datetime
      Site.site_no_tor 2 1 ∅ (Step1.mkApiState io0 Metrics.init [] 1 0) = Some r /\
    match r with
    | Raised _ => True
    | Returned st =>
        (exists k : nat,
           Step1.pages_requested (log (Step1.a_io st))
           = Step1.pages_requested (log io0) ++ ((fun j => 1 + Z.of_nat j) <$> seq 0 k)) /\
        (Step1.a_fetched st < 1 ->
           exists t p resp,
             last (Step1.pages_requested (log (Step1.a_io st))) = Some p /\
             api_popular Site.site_no_tor t Direct p = Returned resp /\
             (if r_ok resp then r_payload resp else []) = [])
    end.
Proof.
  apply (step1_pagination Normalizer.digits_to_float Normalizer.iso_to_datetime
           Site.site_no_tor 2 1 ∅ (Step1.mkApiState io0 Metrics.init [] 1 0)).
  vm_compute. lia.
Defined.

(** ** The join of inputs without repeated ids *)

Section JoinBound.
Import Step1.

Lemma filter_key_length {A : Type} (k : A -> option Z) (v : option Z) (l : list A) :
  NoDup (k <$> l) -> (length (filter (fun x => v = k x) l) <= 1)%nat.
Proof.
  induction l as [|y l IH]; intros Hnd; [cbn; lia|].
  apply NoDup_cons in Hnd as [Hy Hnd]. rewrite filter_cons.
  destruct (decide (v = k y)) as [Hk|Hk]; [|now apply IH].
  cbn [length]. enough (filter (fun x => v = k x) l = []) as -> by (cbn; lia).
  apply filter_none. intros z Hz Hkz. apply Hy.
  rewrite <- Hk, Hkz. now apply list_elem_of_fmap_2.
Qed.

Lemma merge_on_id_cons_l {A B : Type} (kl : A -> option Z) (kr : B -> option Z)
    (x : A) (left : list A) (right : list B) :
  merge_on_id kl kr (x :: left) right
  = ((fun y => (x, y)) <$> filter (fun y => kl x = kr y) right)
    ++ merge_on_id kl kr left right.
Proof. reflexivity. Qed.

Lemma merge_on_id_length_cons_r {A B : Type} (kl : A -> option Z) (kr : B -> option Z)
    (left : list A) (y : B) (right : list B) :
  length (merge_on_id kl kr left (y :: right))
  = (length (filter (fun x => kl x = kr y) left)
     + length (merge_on_id kl kr left right))%nat.
Proof.
  induction left as [|x left IH]; [reflexivity|].
  rewrite !merge_on_id_cons_l, !length_app, !length_fmap, IH, !filter_cons.
  destruct (decide (kl x = kr y)); cbn [length]; lia.
Qed.

Lemma merge_on_id_nil_r {A B : Type} (kl : A -> option Z) (kr : B -> option Z)
    (left : list A) :
  merge_on_id kl kr left (@nil B) = [].
Proof. induction left as [|x left IH]; [reflexivity|]. now rewrite merge_on_id_cons_l, IH. Qed.

Lemma merge_on_id_length_r {A B : Type} (kl : A -> option Z) (kr : B -> option Z)
    (left : list A) (right : list B) :
  NoDup (kl <$> left) ->
  (length (merge_on_id kl kr left right) <= length right)%nat.
Proof.
  intros Hnd. induction right as [|y right IH].
  - now rewrite merge_on_id_nil_r.
  - rewrite merge_on_id_length_cons_r. cbn [length].
    assert (length (filter (fun x => kl x = kr y) left) <= 1)%nat; [|lia].
    erewrite list_filter_iff; [apply (filter_key_length kl (kr y)); exact Hnd|].
    intros x. cbn. split; congruence.
Qed.

Lemma merge_on_id_keys_NoDup {A B : Type} (kl : A -> option Z) (kr : B -> option Z)
    (left : list A) (right : list B) :
  NoDup (kl <$> left) -> NoDup (kr <$> right) ->
  NoDup ((fun ab => kl (fst ab)) <$> merge_on_id kl kr left right).
Proof.
  intros Hl Hr. induction left as [|x left IH]; [constructor|].
  apply NoDup_cons in Hl as [Hx Hl].
  rewrite merge_on_id_cons_l, fmap_app. apply NoDup_app. split; [|split].
  - pose proof (filter_key_length kr (kl x) right Hr) as Hone.
    destruct (filter (fun y => kl x = kr y) right) as [|y [|y' ys]];
      cbn in Hone |- *; try lia; [constructor|apply NoDup_singleton].
  - intros v Hv Hv'. apply Hx.
    apply list_elem_of_fmap in Hv as ([x' y] & -> & Hxy).
    apply list_elem_of_fmap in Hxy as (y' & [= -> ->] & _).
    apply list_elem_of_fmap in Hv' as ([x2 y2] & Heq & Hin).
    apply elem_of_merge_on_id in Hin as (Hin & _ & _).
    cbn [fst] in Heq. rewrite Heq. now apply list_elem_of_fmap_2.
  - now apply IH.
Qed.

(** X3. On inputs whose ids are all present and fit 64 bits: when no id
    repeats within an input, the join has at most as many rows as the
    shortest of the three inputs. *)
Theorem join_bound_distinct_ids (api bs4 sel : list row) :
  int64_ids api -> int64_ids bs4 -> int64_ids sel ->
  NoDup (tmdb_id <$> api) -> NoDup (tmdb_id <$> bs4) -> NoDup (tmdb_id <$> sel) ->
  (common_count api bs4 sel <= length api `min` (length bs4 `min` length sel))%nat.
Proof.
  intros _ _ _ Ha Hb Hs. unfold common_count, build_common_by_id.
  destruct api as [|a0 api], bs4 as [|b0 bs4], sel as [|s0 sel];
    try (cbn [length]; lia).
  rewrite length_map.
  pose proof (merge_on_id_length (fun ab : row * row => tmdb_id (fst ab)) tmdb_id
                (merge_on_id tmdb_id tmdb_id (a0 :: api) (b0 :: bs4)) (s0 :: sel) Hs) as H1.
  pose proof (merge_on_id_length tmdb_id tmdb_id (a0 :: api) (b0 :: bs4) Hb) as H2.
  pose proof (merge_on_id_length_r tmdb_id tmdb_id (a0 :: api) (b0 :: bs4) Ha) as H3.
  pose proof (merge_on_id_length_r (fun ab : row * row => tmdb_id (fst ab)) tmdb_id
                (merge_on_id tmdb_id tmdb_id (a0 :: api) (b0 :: bs4)) (s0 :: sel)
                (merge_on_id_keys_NoDup tmdb_id tmdb_id _ _ Ha Hb)) as H4.
  lia.
Qed.
End JoinBound.

(** The inputs with ids 1,2,3 and 2,3,4 and 3,4,5: the join is the row of
    id 3. *)
Lemma join_bound_distinct_ids_witness :
  (Step1.common_count Site.api_123
     Site.bs4_234 Site.sel_345
   <= length Site.api_123 `min` (length Site.bs4_234 `min` length Site.sel_345))%nat /\
  Step1.t_tmdb_id <$> Step1.build_common_by_id Site.api_123
     Site.bs4_234 Site.sel_345
  = [Some 3].
Proof.
  split; [|reflexivity].
  apply (join_bound_distinct_ids Site.api_123
           Site.bs4_234 Site.sel_345);
    try reflexivity; apply (bool_decide_unpack _); vm_compute; exact I.
Defined.

(** The row of id 3 in that join. *)
Lemma build_common_by_id_sound_witness :
  exists a b s i,
    a ∈ Site.api_123 /\
    b ∈ Site.bs4_234 /\
    s ∈ Site.sel_345 /\
    tmdb_id a = Some i /\ tmdb_id b = Some i /\ tmdb_id s = Some i /\
    Step1.mkTidy (Some 3) "Movie 3" "N/A" Normalizer.RNA "N/A" "N/A" None "N/A"
    = Step1.tidy_of a.
Proof.
  apply (build_common_by_id_sound Site.api_123
           Site.bs4_234 Site.sel_345); try reflexivity.
  vm_compute. left.
Defined.

(** ** Route tags of a whole run *)

Section RunTags.
Import Step3c.
Context `{Html}.
Variable float_of_str : string -> option float.
Variable to_datetime : pyval -> option timestamp.
Variable w : world.
Variable cfg : config.

Lemma take_results_tagged (max_movies : Z) (proxies : bool) (gm : gmap Z string)
    (results : list api_item) (rows : list row) (got : Z) :
  tagged (api_tag proxies) rows ->
  tagged (api_tag proxies)
    (fst (take_results float_of_str to_datetime max_movies proxies gm results rows got)).
Proof.
  revert rows got. induction results as [|it rest IH]; intros rows got Hrows;
    cbn [take_results]; [exact Hrows|].
  destruct (max_movies <=? got); [exact Hrows|].
  apply IH. apply Forall_app. split; [exact Hrows|]. now constructor.
Qed.

Lemma scrape_api_loop_tagged (fuel : nat) (max_movies : Z) (proxies : bool)
    (gm : gmap Z string) (s st : api_state) :
  tagged (api_tag proxies) (a_rows s) ->
  scrape_api_loop float_of_str to_datetime w fuel max_movies proxies gm s
  = Some (Returned st) ->
  tagged (api_tag proxies) (a_rows st).
Proof.
  revert s. induction fuel as [|fuel IH]; intros s Hs; cbn [scrape_api_loop];
    [discriminate|].
  destruct (a_got s <? max_movies); [|now intros [= <-]].
  destruct (api_popular w (tick (a_io s)) (route_of proxies) (a_page s)) as [r|e];
    [|discriminate].
  pose proof (take_results_tagged max_movies proxies gm
                (if r_ok r then r_payload r else []) (a_rows s) (a_got s) Hs) as Ht.
  destruct (take_results _ _ _ _ _ _ _ _) as [rows got]. apply IH. exact Ht.
Qed.

Lemma scrape_api_tagged (fuel : nat) (max_movies : Z) (proxies : bool) (s s' : io)
    (rows : list row) (msum : Metrics.summary_dict) :
  scrape_api float_of_str to_datetime w fuel max_movies proxies s
  = Some (Returned (rows, msum, s')) ->
  tagged (api_tag proxies) rows.
Proof.
  unfold scrape_api.
  destruct (fetch_genre_map w (route_of proxies) s Metrics.init) as [[[gm s1] m1]|e];
    [|discriminate].
  destruct (scrape_api_loop _ _ _ _ _ _ _ _) as [[st|e]|] eqn:Hloop; try discriminate.
  destruct (Metrics.summary_mt (a_metrics st)); [|discriminate].
  intros [= <- _ _]. eapply scrape_api_loop_tagged; [|exact Hloop]. constructor.
Qed.

Lemma bs4_details_tagged (ids : list Z) (via : route) (rows rows' : list row)
    (s s' : io) (m m' : Metrics.metrics) :
  tagged "BS4_TOR" rows ->
  bs4_details float_of_str w ids via rows s m = Returned (rows', s', m') ->
  tagged "BS4_TOR" rows'.
Proof.
  revert rows s m. induction ids as [|i ids IH]; intros rows s m Hrows; cbn [bs4_details].
  - now intros [= <- _ _].
  - destruct (fetch_detail_bs4 float_of_str w i via s m) as [[[[r|] s1] m1]|e] eqn:Hf;
      [| |discriminate].
    + apply IH. apply Forall_app. split; [exact Hrows|].
      constructor; [|constructor]. exact (fetch_detail_bs4_tag _ _ _ _ _ _ _ _ _ Hf).
    + now apply IH.
Qed.

Lemma scrape_bs4_tagged (fuel : nat) (max_movies : Z) (proxies : bool) (s s' : io)
    (rows : list row) (msum : Metrics.summary_dict) :
  scrape_bs4 float_of_str w fuel max_movies proxies s = Some (Returned (rows, msum, s')) ->
  tagged "BS4_TOR" rows.
Proof.
  unfold scrape_bs4.
  destruct (get_ids_from_listing _ _ _ _ _ _ _ _) as [[[[ids s1] m1]|e]|]; try discriminate.
  destruct (bs4_details _ _ _ _ _ _ _) as [[[rows' s2] m2]|e] eqn:Hd; [|discriminate].
  destruct (Metrics.summary_mt m2); [|discriminate].
  intros [= <- _ _]. eapply bs4_details_tagged; [|exact Hd]. constructor.
Qed.

Lemma sel_detail_step_tagged (use_tor : bool) (st st' : sel_state) (i : Z) :
  sel_detail_step float_of_str w cfg use_tor st i = Returned st' ->
  tagged (selenium_tag use_tor) (s_rows st) ->
  tagged (selenium_tag use_tor) (s_rows st').
Proof.
  intros Hstep Hst. unfold sel_detail_step in Hstep.
  destruct (safe_get _ _ _ _ _ _ _) as [[r s1] d1].
  destruct (read_page_source w s1 d1) as [html|e]; [|discriminate].
  assert (Hadd : forall e, tagged (selenium_tag use_tor)
            (s_rows st ++ [selenium_row float_of_str use_tor i (detail_url i) e])).
  { intros e. apply Forall_app. split; [exact Hst|]. now repeat constructor. }
  destruct (nav_failed r); [|injection Hstep as <-; apply Hadd].
  destruct (http_get _ _ _ _) as [rr|e]; [|injection Hstep as <-; exact Hst].
  destruct (r_ok rr); injection Hstep as <-; [apply Hadd|exact Hst].
Qed.

(** What every iteration of the detail phase keeps holds when the phase
    returns. *)
Lemma sel_details_keeps (P : sel_state -> Prop) (use_tor : bool) :
  (forall st st' i,
     sel_detail_step float_of_str w cfg use_tor st i = Returned st' -> P st -> P st') ->
  forall ids st st',
    sel_details float_of_str w cfg use_tor ids st = Returned st' -> P st -> P st'.
Proof.
  intros Hstep ids. induction ids as [|i ids IH]; intros st st'; cbn [sel_details].
  - now intros [= <-].
  - destruct (sel_detail_step float_of_str w cfg use_tor st i) as [st1|e] eqn:H1;
      [|discriminate].
    intros Hrest Hst. exact (IH _ _ Hrest (Hstep _ _ _ H1 Hst)).
Qed.

Lemma sel_listing_rows (fuel : nat) (max_movies : Z) (via : route) (page : Z)
    (ids ids' : list Z) (st st' : sel_state) :
  sel_listing w cfg fuel max_movies via page ids st = Some (Returned (ids', st')) ->
  s_rows st' = s_rows st.
Proof.
  revert page ids st. induction fuel as [|fuel IH]; intros page ids st;
    cbn [sel_listing]; [discriminate|].
  destruct (Z.of_nat (length ids) <? max_movies); [|now intros [= _ <-]].
  destruct (safe_get _ _ _ _ _ _ _) as [[r s1] d1].
  destruct (read_page_source w s1 d1) as [html|e]; [|discriminate].
  destruct (nav_failed r); [now intros [= _ <-]|].
  intros Hrec. now rewrite (IH _ _ _ Hrec).
Qed.

Lemma scrape_selenium_tagged (fuel : nat) (max_movies : Z) (use_tor : bool)
    (s s' : io) (d : driver) (rows : list row) (msum : Metrics.summary_dict) :
  scrape_selenium float_of_str w cfg fuel max_movies use_tor s d
  = Some (Returned (rows, msum, s')) ->
  tagged (selenium_tag use_tor) rows.
Proof.
  unfold scrape_selenium.
  destruct (sel_listing _ _ _ _ _ _ _ _) as [[[ids st]|e]|] eqn:Hl; try discriminate.
  apply sel_listing_rows in Hl. cbn [s_rows] in Hl.
  destruct (sel_details _ _ _ _ _ _) as [st'|e] eqn:Hd; [|discriminate].
  destruct (Metrics.summary_mt _); [|discriminate]. intros [= <- _ _].
  apply (sel_details_keeps (fun st0 => tagged (selenium_tag use_tor) (s_rows st0))
           use_tor (sel_detail_step_tagged use_tor) _ _ _ Hd).
  rewrite Hl. constructor.
Qed.

(** X4. In every run that asks for Tor and whose probe does not succeed,
    the session is direct, every API row is tagged ["API"], every browser
    row ["Selenium"], and every static-HTML row ["BS4_TOR"]. *)
Theorem tags_after_failed_probe (fuel : nat) (max_movies : Z)
    (api_rows bs_rows se_rows : list row) (proxies : bool) :
  tor_probe w 0 <> Returned true ->
  main float_of_str to_datetime w cfg fuel true max_movies
  = Some (Returned (api_rows, bs_rows, se_rows, proxies)) ->
  proxies = false /\
  tagged "API" api_rows /\ tagged "Selenium" se_rows /\ tagged "BS4_TOR" bs_rows.
Proof.
  intros Hprobe. unfold main, check_tor. cbn [tick io0].
  assert (Hp : match tor_probe w 0 with Returned ok => ok | Raised _ => false end = false).
  { destruct (tor_probe w 0) as [[]|]; congruence. }
  rewrite Hp.
  destruct (scrape_api _ _ _ _ _ _ _) as [[[[a ma] s1]|e]|] eqn:Ha; try discriminate.
  destruct (scrape_bs4 _ _ _ _ _ _) as [[[[b mb] s2]|e]|] eqn:Hb; try discriminate.
  destruct (scrape_selenium _ _ _ _ _ _ _ _) as [[[[c mc] s3]|e]|] eqn:Hc; try discriminate.
  intros [= <- <- <- <-]. split; [reflexivity|].
  split; [exact (scrape_api_tagged _ _ _ _ _ _ _ Ha)|].
  split; [exact (scrape_selenium_tagged _ _ _ _ _ _ _ _ Hc)|].
  exact (scrape_bs4_tagged _ _ _ _ _ _ _ Hb).
Qed.
End RunTags.

(** The run against the site whose Tor check endpoint cannot be reached. *)
Lemma tags_after_failed_probe_witness :
  exists api_rows bs_rows se_rows proxies,
    Step3c.main Normalizer.digits_to_float Normalizer.iso_to_datetime
      Site.site_no_tor Site.cfg0 10 true 1
    = Some (Returned (api_rows, bs_rows, se_rows, proxies)) /\
    length api_rows = 1%nat /\ length bs_rows = 1%nat /\ length se_rows = 1%nat /\
    proxies = false /\
    Step3c.tagged "API" api_rows /\ Step3c.tagged "Selenium" se_rows /\
    Step3c.tagged "BS4_TOR" bs_rows.
Proof.
  eexists _, _, _, _. split; [vm_compute; reflexivity|].
  split; [reflexivity|]. split; [reflexivity|]. split; [reflexivity|].
  apply (tags_after_failed_probe Normalizer.digits_to_float Normalizer.iso_to_datetime
           Site.site_no_tor Site.cfg0 10 1).
  - discriminate.
  - vm_compute. reflexivity.
Defined.

(** ** The range of ratings *)

Section RatingRange.
Import Normalizer Ranges.
Variable float_of_str : string -> option float.

Lemma round_half_even_bounds (num den n : Z) :
  0 < den -> 0 <= num <= n * den -> 0 <= round_half_even num den <= n.
Proof.
  intros Hden Hnum. unfold round_half_even.
  pose proof (Z.div_mod num den ltac:(lia)) as Hdm.
  pose proof (Z.mod_pos_bound num den Hden) as Hr.
  assert (Hq0 : 0 <= num / den) by (apply Z.div_pos; lia).
  assert (Hqn : num / den <= n) by (apply Z.div_le_upper_bound; lia).
  destruct (Z.compare_spec (2 * (num mod den)) den) as [He|Hl|Hg].
  - destruct (Z.even (num / den)); [lia|]. nia.
  - lia.
  - nia.
Qed.

Lemma shr_fexp_mantissa (m e : Z) (l : location) :
  0 <= m -> shr_m (fst (shr_fexp prec emax m e l)) < 2 ^ 53.
Proof.
  intros Hm. unfold shr_fexp, shr.
  assert (H0 : shr_m (shr_record_of_loc m l) = m) by (destruct l as [|[]]; reflexivity).
  assert (Hub : m < 2 ^ Zdigits2 m).
  { destruct (Z.eq_dec m 0) as [->|]; [reflexivity|]. apply Zdigits2_bounds. lia. }
  assert (Hd : 0 <= Zdigits2 m) by (destruct m; simpl; lia).
  destruct (fexp prec emax (Zdigits2 m + e) - e) as [|n|n] eqn:Hn; cbn [fst];
    rewrite ?iter_shr_1_div, H0 by lia.
  - assert (Zdigits2 m <= 53) by (unfold fexp, emin, prec, emax in *; lia).
    pose proof (Z.pow_le_mono_r 2 (Zdigits2 m) 53 ltac:(lia) ltac:(lia)). lia.
  - assert (Hle : Zdigits2 m <= 53 + Z.pos n) by (unfold fexp, emin, prec, emax in *; lia).
    pose proof (Z.pow_le_mono_r 2 (Zdigits2 m) (53 + Z.pos n) ltac:(lia) Hle) as Hp.
    rewrite Z.pow_add_r in Hp by lia.
    apply Z.div_lt_upper_bound; [apply Z.pow_pos_nonneg; lia|]. lia.
  - assert (Zdigits2 m <= 53) by (unfold fexp, emin, prec, emax in *; lia).
    pose proof (Z.pow_le_mono_r 2 (Zdigits2 m) 53 ltac:(lia) ltac:(lia)). lia.
Qed.

Lemma binary_round_aux_mantissa (s s' : bool) (m e : Z) (l : location)
    (m' : positive) (e' : Z) :
  0 <= m ->
  binary_round_aux prec emax s m e l = S754_finite s' m' e' -> Z.pos m' < 2 ^ 53.
Proof.
  intros Hm. unfold binary_round_aux.
  pose proof (shr_fexp_nonneg m e l Hm) as H1.
  destruct (shr_fexp prec emax m e l) as [mrs' e1]; simpl in H1.
  pose proof (shr_fexp_mantissa _ e1 loc_Exact
                (round_nearest_even_nonneg _ (loc_of_shr_record mrs') H1)) as H2.
  destruct (shr_fexp prec emax _ e1 loc_Exact) as [mrs'' e2]; simpl in H2.
  destruct (shr_m mrs'') as [|p|p]; try discriminate.
  destruct (e2 <=? emax - prec); [|discriminate].
  now intros [= _ <- _].
Qed.

Lemma fdiv_mantissa (s s' s2 : bool) (m m' m2 : positive) (e e' e2 : Z) :
  fdiv (S754_finite s m e) (S754_finite s' m' e') = S754_finite s2 m2 e2 ->
  Z.pos m2 < 2 ^ 53.
Proof.
  unfold fdiv, SFdiv.
  destruct (SFdiv_core_binary prec emax (Z.pos m) e (Z.pos m') e') as [[mz ez] lz] eqn:Hc.
  apply binary_round_aux_mantissa.
  unfold SFdiv_core_binary in Hc.
  set (s0 := e - e' - _) in Hc.
  set (mm := match s0 with Z.pos _ => _ | 0 => _ | Z.neg _ => _ end) in Hc.
  assert (0 <= mm).
  { subst mm. destruct s0; try lia. apply Z.shiftl_nonneg. lia. }
  pose proof (Z.div_pos mm (Z.pos m') H ltac:(lia)) as Hq.
  unfold Z.div in Hq. destruct (Z.div_eucl mm (Z.pos m')) as [q r].
  injection Hc as <- _ _. exact Hq.
Qed.

Lemma valid_mantissa (s : bool) (m : positive) (e : Z) :
  valid_binary prec emax (S754_finite s m e) = true -> Z.pos m < 2 ^ 53.
Proof.
  unfold valid_binary, bounded, canonical_mantissa.
  intros Hb. apply andb_prop in Hb as [Hc _]. apply Z.eqb_eq in Hc.
  pose proof (Zdigits2_bounds (Z.pos m) ltac:(lia)) as [_ Hub]. simpl Zdigits2 in Hub.
  assert (Z.pos (digits2_pos m) <= 53) by (unfold fexp, emin, prec, emax in *; lia).
  pose proof (Z.pow_le_mono_r 2 (Z.pos (digits2_pos m)) 53 ltac:(lia) ltac:(lia)). lia.
Qed.

Lemma tenth_table (p : positive) :
  Z.pos p <= 100 ->
  SFdiv prec emax (S754_finite false p 0)
    (S754_finite false (Z.to_pos (10 ^ Z.of_nat 1)) 0)
  = fdiv (of_Z (Z.pos p)) ften.
Proof.
  intros Hp.
  assert (Hall : Forall (fun k =>
            SFdiv prec emax (S754_finite false (Z.to_pos k) 0)
              (S754_finite false (Z.to_pos (10 ^ Z.of_nat 1)) 0)
            = fdiv (of_Z k) ften) (seqZ 1 100)).
  { apply (bool_decide_unpack _). vm_compute. exact I. }
  rewrite Forall_forall in Hall.
  apply (Hall (Z.pos p)). apply elem_of_seqZ. lia.
Qed.

Lemma tenth_range (k : Z) :
  0 <= k <= 100 ->
  fle fzero (fdiv (of_Z k) ften) = true /\ fle (fdiv (of_Z k) ften) ften = true.
Proof.
  intros Hk.
  assert (Hall : Forall (fun k =>
            fle fzero (fdiv (of_Z k) ften) = true /\
            fle (fdiv (of_Z k) ften) ften = true) (seqZ 0 101)).
  { apply (bool_decide_unpack _). vm_compute. exact I. }
  rewrite Forall_forall in Hall. apply Hall. apply elem_of_seqZ. lia.
Qed.

Lemma below_ten_exponent (m : positive) (e : Z) :
  SFltb (S754_finite false m e) ften = true ->
  e < -49 \/ (e = -49 /\ Z.pos m < 5629499534213120).
Proof.
  intros Hlt. unfold SFltb, ften in Hlt. cbn [SFcompare] in Hlt.
  destruct (Z.compare_spec e (-49)) as [Heq|Hl|Hg]; [right|left; exact Hl|discriminate].
  split; [exact Heq|].
  change (Pos.compare_cont Eq m 5629499534213120 = Lt).
  destruct (Pos.compare_cont Eq m 5629499534213120); try discriminate. reflexivity.
Qed.

Lemma below_ten_numerator (m : positive) (e : Z) :
  Z.pos m < 2 ^ 53 ->
  e < -49 \/ (e = -49 /\ Z.pos m < 5629499534213120) ->
  0 <= Z.pos m * 10 <= 100 * 2 ^ (- e).
Proof.
  intros Hm He. split; [lia|].
  destruct He as [He | [-> Hm']].
  - pose proof (Z.pow_le_mono_r 2 50 (- e) ltac:(lia) ltac:(lia)) as Hp.
    assert (H53 : 2 ^ 53 = 8 * 2 ^ 50) by reflexivity.
    rewrite H53 in Hm. lia.
  - assert (H49 : 2 ^ (- -49) = 562949953421312) by reflexivity.
    rewrite H49. lia.
Qed.

(** A positive float up to 10 rounds to a number of tenths up to 100. *)
Lemma round_below_ten (m : positive) (e : Z) :
  Z.pos m < 2 ^ 53 ->
  SFltb (S754_finite false m e) ften = true ->
  exists k, 0 <= k <= 100 /\ round_nd 1 (S754_finite false m e) = fdiv (of_Z k) ften.
Proof.
  intros Hm Hlt.
  pose proof (below_ten_exponent m e Hlt) as He.
  pose proof (below_ten_numerator m e Hm He) as Hnum.
  assert (Hden : 0 < 2 ^ (- e)) by (apply Z.pow_pos_nonneg; lia).
  pose proof (round_half_even_bounds _ _ 100 Hden Hnum) as Hk.
  unfold round_nd.
  replace (0 <=? e) with false by (symmetry; apply Z.leb_gt; lia).
  change (10 ^ Z.of_nat 1) with 10.
  destruct (round_half_even (Z.pos m * 10) (2 ^ (- e))) as [|k|k]; [| |lia].
  - exists 0. split; [lia|]. vm_compute. reflexivity.
  - exists (Z.pos k). split; [lia|]. apply tenth_table. lia.
Qed.

Lemma clamp_rounds_to_tenth (v : float) :
  (forall s m e, v = S754_finite s m e -> Z.pos m < 2 ^ 53) ->
  exists k, 0 <= k <= 100 /\
    round_nd 1 (pymax fzero (pymin ften v)) = fdiv (of_Z k) ften.
Proof.
  intros Hv. unfold pymax, pymin, fgt, flt.
  destruct (SFltb v ften) eqn:Hlt.
  - destruct (SFltb fzero v) eqn:H0.
    + destruct v as [s|s| |s m e]; try (destruct s; discriminate); try discriminate.
      destruct s; [discriminate|].
      apply round_below_ten; [eapply Hv; reflexivity|exact Hlt].
    + exists 0. split; [lia|]. vm_compute. reflexivity.
  - exists 100. split; [lia|]. vm_compute. reflexivity.
Qed.

Lemma normalize_rating_tenths (x : pyval) (f : float) :
  (forall r, py_float float_of_str x = Some r -> small_mantissa r) ->
  normalize_rating float_of_str x = RNum f ->
  exists k, 0 <= k <= 100 /\ f = fdiv (of_Z k) ften.
Proof.
  intros Hsmall. unfold normalize_rating.
  destruct (py_float float_of_str x) as [r|]; [|discriminate].
  specialize (Hsmall r eq_refl). intros [= <-].
  apply clamp_rounds_to_tenth.
  intros s m e. destruct (fgt r ften) eqn:Hgt.
  - destruct (above_ten_positive r Hgt) as [-> | (m0 & e0 & ->)].
    + intros Hd. cbv [fdiv SFdiv ften] in Hd. discriminate Hd.
    + apply fdiv_mantissa.
  - intros ->. exact Hsmall.
Qed.

Lemma valid_small (r : float) : valid_binary prec emax r = true -> small_mantissa r.
Proof. destruct r as [| | |s m e]; try exact (fun _ => I). apply valid_mantissa. Qed.

(** X7. Whatever the input, a rating that is a number is one of the 101
    floats [k / 10] for [k] from 0 to 100, hence within [0.0, 10.0]
    (inputs are the floats of the interpreter: canonical mantissa and
    exponent). *)
Theorem normalize_rating_range (x : pyval) (f : float) :
  (forall r, py_float float_of_str x = Some r -> valid_binary prec emax r = true) ->
  normalize_rating float_of_str x = RNum f ->
  (exists k, 0 <= k <= 100 /\ f = fdiv (of_Z k) ften) /\
  fle fzero f = true /\ fle f ften = true.
Proof.
  intros Hvalid Hf.
  destruct (normalize_rating_tenths x f) as (k & Hk & ->); [|exact Hf|].
  { intros r Hr. apply valid_small, Hvalid, Hr. }
  split; [eauto|]. now apply tenth_range.
Qed.

Lemma of_Z_small (z : Z) : small_mantissa (of_Z z).
Proof.
  unfold of_Z, binary_normalize. destruct z as [|p|p]; [exact I| |];
    unfold binary_round;
    destruct (shl_align p 0 _) as [mz ez];
    match goal with
    | |- small_mantissa ?r => destruct r as [| | |s m e] eqn:Hr; try exact I
    end;
    apply binary_round_aux_mantissa in Hr; [exact Hr|lia|exact Hr|lia].
Qed.

(** Whatever [float(x)] returns has a mantissa of at most 53 bits, when
    the floats in [x] and those the string parser returns have. *)
Lemma py_float_small (x : pyval) (r : float) :
  (forall s v, float_of_str s = Some v -> small_mantissa v) ->
  wf_value x -> py_float float_of_str x = Some r -> small_mantissa r.
Proof.
  intros Hstr Hx. destruct x as [|b|z|f|s|]; cbn [py_float]; try discriminate.
  - intros [= <-]. destruct b; [vm_compute; reflexivity|exact I].
  - unfold float_of_int. pose proof (of_Z_small z) as Hz.
    destruct (of_Z z); try discriminate; now intros [= <-].
  - now intros [= <-].
  - apply Hstr.
Qed.

Lemma normalize_rating_ok (x : pyval) :
  (forall s v, float_of_str s = Some v -> small_mantissa v) ->
  wf_value x -> rating_ok (normalize_rating float_of_str x).
Proof.
  intros Hstr Hx.
  destruct (normalize_rating float_of_str x) as [f|] eqn:Hf; [|now left].
  right. destruct (normalize_rating_tenths x f) as (k & Hk & ->); [|exact Hf|eauto].
  intros r Hr. exact (py_float_small x r Hstr Hx Hr).
Qed.
End RatingRange.

(** The input 85, read on the 0-100 scale. *)
Lemma normalize_rating_range_witness :
  (exists k, 0 <= k <= 100 /\
     round_nd 1 (Normalizer.clamp (fdiv (of_Z 85) ften) fzero ften) = fdiv (of_Z k) ften) /\
  fle fzero (round_nd 1 (Normalizer.clamp (fdiv (of_Z 85) ften) fzero ften)) = true /\
  fle (round_nd 1 (Normalizer.clamp (fdiv (of_Z 85) ften) fzero ften)) ften = true.
Proof.
  apply (normalize_rating_range Normalizer.digits_to_float (VInt 85)).
  - intros r Hr. vm_compute in Hr. injection Hr as <-. vm_compute. reflexivity.
  - vm_compute. reflexivity.
Defined.

Section SampleFacts.
Import Metrics.

Lemma pymax_zero_nonneg (x : float) : fle fzero (pymax fzero x) = true.
Proof.
  unfold pymax, fgt, fle, SFltb, SFleb.
  destruct (SFcompare fzero x) as [[]|] eqn:Hc; try reflexivity.
  now rewrite Hc.
Qed.

(** X8. After any run of [record] calls, the byte total is not negative
    and never decreases with a further call, every stored latency compares
    [>= 0.0] (so it is neither negative nor NaN), and the request counter
    is the number of stored latencies. *)
Theorem samples_never_negative (calls : list (float * Z)) :
  let m := record_all init calls in
  0 <= total_bytes m /\
  Forall (fun l => fle fzero l = true) (latencies m) /\
  request_count m = Z.of_nat (length (latencies m)) /\
  forall l b, total_bytes m <= total_bytes (record m l b).
Proof.
  destruct (record_all_spec calls init) as (Hc & Hb & Hl).
  cbn [init request_count total_bytes latencies app] in Hc, Hb, Hl.
  cbn zeta. rewrite Hc, Hb, Hl. split; [|split; [|split]].
  - clear. induction calls as [|c calls IH]; cbn [fold_right]; lia.
  - unfold samples. apply Forall_map, Forall_forall. intros c _. apply pymax_zero_nonneg.
  - unfold samples. now rewrite length_map.
  - intros l b. cbn [record total_bytes]. rewrite Hb. lia.
Qed.
End SampleFacts.

(** ** Ids in URLs *)

Section IdFacts.
Import Step3c.

Lemma digits_value_uint_acc (d : Decimal.uint) (acc : positive) :
  digits_value (Z.pos acc) (NilEmpty.string_of_uint d)
  = Some (Z.pos (Pos.of_uint_acc d acc)).
Proof.
  revert acc. induction d as [|d IH|d IH|d IH|d IH|d IH|d IH|d IH|d IH|d IH|d IH];
    intros acc; cbn [NilEmpty.string_of_uint digits_value Pos.of_uint_acc];
    [reflexivity|..];
    match goal with
    | |- context [digit_val ?c] =>
        let v := eval vm_compute in (digit_val c) in
        change (digit_val c) with v
    end; cbv iota; rewrite <- IH; f_equal; lia.
Qed.

Lemma digits_value_uint (d : Decimal.uint) :
  digits_value 0 (NilEmpty.string_of_uint d) = Some (Z.of_N (Pos.of_uint d)).
Proof.
  induction d as [|d IH|d IH|d IH|d IH|d IH|d IH|d IH|d IH|d IH|d IH];
    cbn [NilEmpty.string_of_uint digits_value Pos.of_uint];
    [reflexivity|..];
    match goal with
    | |- context [digit_val ?c] =>
        let v := eval vm_compute in (digit_val c) in
        change (digit_val c) with v
    end; cbv iota; [exact IH|..]; cbn [Z.of_N];
    rewrite <- digits_value_uint_acc; f_equal.
Qed.

Lemma append_cons (c : ascii) (s r : string) : String c s +:+ r = String c (s +:+ r).
Proof. reflexivity. Qed.

Lemma leading_digits_uint (d : Decimal.uint) (rest : string) :
  leading_digits rest = "" ->
  leading_digits (NilEmpty.string_of_uint d +:+ rest) = NilEmpty.string_of_uint d.
Proof.
  intros Hrest.
  induction d as [|d IH|d IH|d IH|d IH|d IH|d IH|d IH|d IH|d IH|d IH];
    cbn [NilEmpty.string_of_uint]; [exact Hrest|..];
    rewrite append_cons; cbn [leading_digits];
    match goal with
    | |- context [digit_val ?c] =>
        let v := eval vm_compute in (digit_val c) in
        change (digit_val c) with v
    end; cbv iota; now rewrite IH.
Qed.

Lemma str_Z_digits (i : Z) :
  0 <= i ->
  exists d, str_Z i = NilEmpty.string_of_uint d /\ d <> Decimal.Nil /\
            Z.of_N (Pos.of_uint d) = i.
Proof.
  intros Hi. destruct i as [|p|p]; [| |lia].
  - exists (Decimal.D0 Decimal.Nil). repeat split. discriminate.
  - exists (Pos.to_uint p). split; [|split].
    + unfold str_Z. cbn [Z.to_int NilZero.string_of_int NilZero.string_of_uint].
      pose proof (Unsigned.to_uint_nonnil p). now destruct (Pos.to_uint p).
    + apply Unsigned.to_uint_nonnil.
    + now rewrite DecimalPos.Unsigned.of_to.
Qed.

Lemma match_movie_here_id (i : Z) (rest : string) :
  0 <= i -> leading_digits rest = "" ->
  match_movie_here ("/movie/" +:+ str_Z i +:+ rest) = Some i.
Proof.
  intros Hi Hrest. destruct (str_Z_digits i Hi) as (d & -> & Hd & Hv).
  unfold match_movie_here.
  change (strip_prefix "/movie/" ("/movie/" +:+ NilEmpty.string_of_uint d +:+ rest))
    with (Some (NilEmpty.string_of_uint d +:+ rest)).
  cbn [mbind option_bind]. rewrite leading_digits_uint by exact Hrest.
  rewrite <- Hv, <- digits_value_uint.
  destruct d; try reflexivity. now elim Hd.
Qed.

Lemma mid_skip (c : ascii) (s : string) :
  match_movie_here (String c s) = None -> mid (String c s) = mid s.
Proof. intros Hm. cbn [mid]. now rewrite Hm. Qed.

Lemma mid_base (s : string) : mid (BASE_URL +:+ s) = mid s.
Proof.
  cbv [BASE_URL String.append].
  repeat (rewrite mid_skip by reflexivity). reflexivity.
Qed.

Lemma digits_value_ge (s : string) (acc v : Z) :
  0 <= acc -> digits_value acc s = Some v -> acc <= v.
Proof.
  revert acc. induction s as [|c s IH]; intros acc Hacc; cbn [digits_value].
  - intros [= <-]. lia.
  - unfold digit_val. destruct (_ && _) eqn:Hd; [|discriminate].
    apply andb_prop in Hd as [H1 H2]. apply Z.leb_le in H1, H2.
    intros Hv. apply IH in Hv; lia.
Qed.

(** [mid] never returns a negative id. *)
Lemma mid_nonneg (path : string) (i : Z) : mid path = Some i -> 0 <= i.
Proof.
  induction path as [|c s IH]; cbn [mid].
  - unfold match_movie_here. cbn. discriminate.
  - destruct (match_movie_here (String c s)) as [j|] eqn:Hm; [|exact IH].
    intros [= ->]. unfold match_movie_here in Hm.
    destruct (strip_prefix "/movie/" (String c s)) as [r|]; [|discriminate].
    cbn [mbind option_bind] in Hm.
    destruct (leading_digits r); [discriminate|].
    now apply digits_value_ge in Hm.
Qed.

(** X9. [mid] (and [parse_tmdb_id_from_url], [parse_id], the same
    expression) reads back the id printed after ["/movie/"], in a path
    and in a URL of the site, whatever follows the digits. *)
Theorem mid_movie_path (i : Z) (rest : string) :
  0 <= i -> leading_digits rest = "" ->
  mid ("/movie/" +:+ str_Z i +:+ rest) = Some i /\
  mid (BASE_URL +:+ "/movie/" +:+ str_Z i +:+ rest) = Some i.
Proof.
  intros Hi Hrest.
  assert (Hm : mid ("/movie/" +:+ str_Z i +:+ rest) = Some i).
  { pose proof (match_movie_here_id i rest Hi Hrest) as Hh.
    change ("/movie/" +:+ str_Z i +:+ rest)
      with (String "/" ("movie/" +:+ str_Z i +:+ rest)) in Hh |- *.
    cbn [mid]. now rewrite Hh. }
  split; [exact Hm|]. now rewrite mid_base.
Qed.
End IdFacts.

(** A listing link with a slug after the id. *)
Lemma mid_movie_path_witness :
  Step3c.mid "/movie/949-heat" = Some 949 /\
  Step3c.mid "https://www.themoviedb.org/movie/949-heat" = Some 949.
Proof.
  apply (mid_movie_path 949 "-heat"); [lia|reflexivity].
Defined.

(** ** Requests, routes and rows of a run *)

Section TraceFacts.
Import Trace.

Lemma routes_app (l1 l2 : list event) : routes (l1 ++ l2) = routes l1 ++ routes l2.
Proof. apply omap_app. Qed.

Lemma extends_refl (via : route) (s : io) : extends via 0 s s.
Proof. exists []. rewrite app_nil_r. repeat split. lia. Qed.

Lemma extends_trans (via : route) (n m : nat) (s1 s2 s3 : io) :
  extends via n s1 s2 -> extends via m s2 s3 -> extends via (n + m) s1 s3.
Proof.
  intros (l1 & H1 & R1 & T1) (l2 & H2 & R2 & T2). exists (l1 ++ l2).
  rewrite H2, H1, <- app_assoc, routes_app, R1, R2, replicate_add.
  repeat split. lia.
Qed.

Lemma extends_emit (via : route) (e : event) (s : io) :
  event_route e = Some via -> extends via 1 s (emit e s).
Proof.
  intros He. exists [e]. cbn [emit log tick]. unfold routes. cbn [omap list_omap].
  rewrite He. repeat split. lia.
Qed.

Lemma extends_note (via : route) (e : event) (s : io) :
  event_route e = None -> extends via 0 s (note e s).
Proof.
  intros He. exists [e]. cbn [note log tick]. unfold routes. cbn [omap list_omap].
  rewrite He. repeat split. lia.
Qed.

Lemma extends_eq (via : route) (n m : nat) (s s' : io) :
  n = m -> extends via n s s' -> extends via m s s'.
Proof. now intros ->. Qed.
End TraceFacts.


Section SafeGetFacts.
Import Trace.
Variable w : world.

Lemma safe_get_from_spec (via : route) (url : string) (timeout retries : Z)
    (left : nat) (attempt : Z) (s : io) (d : driver)
    (r : bool * nav_mode * option exn) (s' : io) (d' : driver) :
  left = 0%nat \/ Z.of_nat left = retries + 1 - attempt ->
  safe_get_from w left attempt via url timeout retries s d = (r, s', d') ->
  exists n, extends via n s s' /\ (n <= left)%nat /\
    match r with
    | (true, ModeOk, None) => (1 <= n)%nat
    | (true, ModePartial, Some e) => is_TimeoutException e = true
    | (false, ModeError, Some e) =>
        is_TimeoutException e = false /\ n = left /\ (1 <= n)%nat
    | (false, ModeError, None) => left = 0%nat
    | _ => False
    end.
Proof.
  revert attempt s d.
  induction left as [|left IH]; intros attempt s d Hinv; cbn [safe_get_from].
  - intros [= <- <- <-]. exists 0%nat. split; [apply extends_refl|]. split; [lia|reflexivity].
  - destruct Hinv as [Hinv|Hinv]; [discriminate|].
    set (s1 := note (EvSetPageLoadTimeout timeout) s).
    assert (H1 : extends via 1 s (emit (EvNavigate via url) s1)).
    { apply (extends_trans via 0 1 s s1); [now apply extends_note|now apply extends_emit]. }
    destruct (nav_raises (browse w (tick s1) via url)) as [e|] eqn:Hnv.
    2:{ intros [= <- <- <-]. exists 1%nat. split; [exact H1|]. split; lia. }
    destruct (is_TimeoutException e) eqn:Ht.
    { intros [= <- <- <-]. exists 1%nat. split; [|split; [lia|exact Ht]].
      apply (extends_trans via 1 0 s _ _ H1). now apply extends_note. }
    assert (Hgo :
      (if retries <=? attempt
       then (false, ModeError, Some e, emit (EvNavigate via url) s1,
             mkDriver (nav_dom (browse w (tick s1) via url))
                      (nav_read_latency (browse w (tick s1) via url)))
       else safe_get_from w left (attempt + 1) via url timeout retries
              (note EvSleep (emit (EvNavigate via url) s1))
              (mkDriver (nav_dom (browse w (tick s1) via url))
                        (nav_read_latency (browse w (tick s1) via url))))
      = (r, s', d') ->
      exists n, extends via n s s' /\ (n <= S left)%nat /\
        match r with
        | (true, ModeOk, None) => (1 <= n)%nat
        | (true, ModePartial, Some e) => is_TimeoutException e = true
        | (false, ModeError, Some e) =>
            is_TimeoutException e = false /\ n = S left /\ (1 <= n)%nat
        | (false, ModeError, None) => S left = 0%nat
        | _ => False
        end).
    { destruct (Z.leb_spec retries attempt) as [Hle|Hgt].
      - intros [= <- <- <-]. exists 1%nat. split; [exact H1|]. split; [lia|].
        split; [exact Ht|lia].
      - intros Hrec. apply IH in Hrec as (n & Hext & Hn & Hres); [|right; lia].
        exists (S n). split; [|split; [lia|]].
        + apply (extends_trans via 1 n s _ _ H1).
          eapply (extends_trans via 0 n); [|exact Hext]. now apply extends_note.
        + destruct r as [[[] []] [e'|]]; try exact Hres; try lia.
          destruct Hres as (He' & -> & _). split; [exact He'|]. split; [reflexivity|lia]. }
    destruct (is_WebDriverException e); exact Hgo.
Qed.

(** X10. [safe_get] navigates at most [retries + 1] times, always
    through [via].  It returns [(True, "ok", None)] after a navigation that
    did not raise, [(True, "partial", e)] for a timeout [e],
    [(False, "error", e)] for another exception [e] once all [retries + 1]
    navigations were made, and [(False, "error", None)] without navigating
    when [retries] is negative. *)
Theorem safe_get_bounded (via : route) (url : string) (timeout retries : Z)
    (s : io) (d : driver) (r : bool * nav_mode * option exn) (s' : io) (d' : driver) :
  safe_get w via url timeout retries s d = (r, s', d') ->
  exists n, extends via n s s' /\ Z.of_nat n <= Z.max 0 (retries + 1) /\
    match r with
    | (true, ModeOk, None) => (1 <= n)%nat
    | (true, ModePartial, Some e) => is_TimeoutException e = true
    | (false, ModeError, Some e) =>
        is_TimeoutException e = false /\ Z.of_nat n = retries + 1
    | (false, ModeError, None) => retries < 0 /\ n = 0%nat
    | _ => False
    end.
Proof.
  unfold safe_get. intros Hget.
  apply safe_get_from_spec in Hget as (n & Hext & Hn & Hres).
  2:{ destruct (Z_lt_le_dec retries 0); [left|right]; lia. }
  exists n. split; [exact Hext|]. split; [lia|].
  destruct r as [[[] []] [e|]]; try exact Hres.
  - destruct Hres as (He & -> & Hpos). split; [exact He|]. lia.
  - split; lia.
Qed.
End SafeGetFacts.

Section Step3cRuns.
Import Trace Metrics.
Context `{Html}.
Variable float_of_str : string -> option float.
Variable to_datetime : pyval -> option timestamp.
Variable w : world.
Variable cfg : config.

Lemma summary_mt_requests (m : metrics) (msum : summary_dict) :
  summary_mt m = Returned msum -> requests msum = request_count m.
Proof.
  unfold summary_mt. destruct (avg_ms_mt (latencies m)); [|discriminate].
  now intros [= <-].
Qed.

(** *** The API variant *)

Lemma take_results_rows (max_movies : Z) (proxies : bool) (gm : gmap Z string)
    (results : list api_item) (rows : list row) (got : Z) :
  exists new,
    take_results float_of_str to_datetime max_movies proxies gm results rows got
    = (rows ++ new, got + Z.of_nat (length new)) /\
    got + Z.of_nat (length new) <= Z.max got max_movies.
Proof.
  revert rows got. induction results as [|it rest IH]; intros rows got;
    cbn [take_results].
  - exists []. rewrite app_nil_r, Z.add_0_r. split; [reflexivity|lia].
  - destruct (Z.leb_spec max_movies got) as [Hge|Hlt].
    + exists []. rewrite app_nil_r, Z.add_0_r. split; [reflexivity|lia].
    + destruct (IH (rows ++ [api_row float_of_str to_datetime proxies gm it]) (got + 1))
        as (new & Heq & Hle).
      exists (api_row float_of_str to_datetime proxies gm it :: new).
      rewrite Heq, <- app_assoc. cbn [app length]. split; [f_equal; lia|lia].
Qed.

Lemma scrape_api_loop_rows (fuel : nat) (max_movies : Z) (proxies : bool)
    (gm : gmap Z string) (s st : api_state) :
  scrape_api_loop float_of_str to_datetime w fuel max_movies proxies gm s
  = Some (Returned st) ->
  a_got s = Z.of_nat (length (a_rows s)) ->
  a_got st = Z.of_nat (length (a_rows st)) /\
  max_movies <= a_got st <= Z.max (a_got s) max_movies /\
  exists n, extends (route_of proxies) n (a_io s) (a_io st) /\
    request_count (a_metrics st) = request_count (a_metrics s) + Z.of_nat n.
Proof.
  revert s. induction fuel as [|fuel IH]; intros s; cbn [scrape_api_loop];
    [discriminate|].
  destruct (Z.ltb_spec (a_got s) max_movies) as [Hlt|Hge].
  2:{ intros [= <-] Hgot. split; [exact Hgot|]. split; [lia|].
      exists 0%nat. split; [apply extends_refl|lia]. }
  destruct (api_popular w (tick (a_io s)) (route_of proxies) (a_page s)) as [r|e];
    [|discriminate].
  destruct (take_results_rows max_movies proxies gm
              (if r_ok r then r_payload r else []) (a_rows s) (a_got s))
    as (new & -> & Hle).
  intros Hloop Hgot. apply IH in Hloop as (Hgot' & Hrange & n & Hext & Hcount).
  2:{ cbn [a_got a_rows]. rewrite length_app. lia. }
  cbn [a_got a_io a_metrics record request_count] in Hrange, Hext, Hcount.
  split; [exact Hgot'|]. split; [lia|].
  exists (S n). split; [|lia].
  apply (extends_trans _ 1 n (a_io s)
           (emit (EvApiPopular (route_of proxies) (a_page s)) (a_io s)));
    [now apply extends_emit|].
  eapply (extends_trans _ 0 n); [|exact Hext]. now apply extends_note.
Qed.

(** X11. Whenever step3c's [scrape_api] returns, it returns exactly
    [max_movies] rows (none for a negative target); all its requests went
    through the route of [proxies], and the request counter of its summary
    is their number. *)
Theorem scrape_api_returned (fuel : nat) (max_movies : Z) (proxies : bool)
    (s s' : io) (rows : list row) (msum : summary_dict) :
  scrape_api float_of_str to_datetime w fuel max_movies proxies s
  = Some (Returned (rows, msum, s')) ->
  Z.of_nat (length rows) = Z.max 0 max_movies /\
  exists n, extends (route_of proxies) n s s' /\ requests msum = Z.of_nat n.
Proof.
  unfold scrape_api, fetch_genre_map.
  destruct (api_genres w (tick s) (route_of proxies)) as [resp|e]; [|discriminate].
  destruct (scrape_api_loop _ _ _ _ _ _ _ _) as [[st|e]|] eqn:Hloop; try discriminate.
  destruct (summary_mt (a_metrics st)) as [ms|e] eqn:Hsum; [|discriminate].
  intros [= <- <- <-].
  apply scrape_api_loop_rows in Hloop as (Hgot & Hrange & n & Hext & Hcount);
    [|reflexivity].
  cbn [a_got a_io a_metrics a_rows record request_count init] in Hgot, Hrange, Hext, Hcount.
  split; [lia|]. exists (S n). split.
  - apply (extends_trans _ 1 n s (emit (EvApiGenres (route_of proxies)) s));
      [now apply extends_emit|exact Hext].
  - rewrite (summary_mt_requests _ _ Hsum), Hcount. lia.
Qed.

(** *** Ids read from listing cards *)

Lemma append_nil_r (s : string) : s +:+ "" = s.
Proof. induction s as [|c s IH]; [reflexivity|]. rewrite append_cons. now f_equal. Qed.

Lemma mid_detail_url (i : Z) : 0 <= i -> mid (detail_url i) = Some i.
Proof.
  intros Hi. unfold detail_url. rewrite mid_base.
  pose proof (match_movie_here_id i "" Hi eq_refl) as Hh.
  rewrite append_nil_r in Hh.
  change ("/movie/" +:+ str_Z i) with (String "/" ("movie/" +:+ str_Z i)) in Hh |- *.
  cbn [mid]. now rewrite Hh.
Qed.

Lemma card_id_positive (c : elem) (i : Z) : card_id c = Some i -> 0 < i.
Proof.
  unfold card_id.
  destruct (select_one c "h2 a[href^='/movie/']") as [a|]; [|discriminate].
  cbn [mbind option_bind].
  destruct (elem_get a "href") as [href|]; [|discriminate].
  cbn [mbind option_bind].
  destruct (String.eqb href ""); [discriminate|].
  destruct (mid href) as [j|] eqn:Hmid; [|discriminate].
  cbn [mbind option_bind].
  destruct (Z.eqb_spec j 0) as [|Hnz]; [discriminate|].
  intros [= <-]. apply mid_nonneg in Hmid. lia.
Qed.

Lemma row_of_id_in_url (js : list Z) (rows : list row) :
  Forall2 row_of_id js rows -> Forall (fun i => 0 < i) js -> Forall id_in_url rows.
Proof.
  induction 1 as [|j r js rows [Hid Hurl] _ IH]; intros Hpos; [constructor|].
  apply Forall_cons in Hpos as [Hj Hpos]. constructor; [|now apply IH].
  exists j. split; [exact Hj|]. split; [exact Hid|].
  rewrite Hurl. apply mid_detail_url. lia.
Qed.

Lemma row_of_id_ids (js : list Z) (rows : list row) :
  Forall2 row_of_id js rows -> tmdb_id <$> rows = Some <$> js.
Proof.
  induction 1 as [|j r js rows [Hid _] _ IH]; [reflexivity|].
  cbn [fmap list_fmap]. now rewrite Hid, <- IH.
Qed.

Lemma py_prefix_sublist {A : Type} (n : Z) (xs : list A) : py_prefix n xs `sublist_of` xs.
Proof. unfold py_prefix. destruct (0 <=? n); apply sublist_take. Qed.

Lemma py_prefix_length {A : Type} (n : Z) (xs : list A) :
  0 <= n \/ xs = [] -> Z.of_nat (length (py_prefix n xs)) <= Z.max 0 n.
Proof.
  intros [Hn | ->]; unfold py_prefix.
  - replace (0 <=? n) with true by (symmetry; apply Z.leb_le; exact Hn).
    rewrite length_take. lia.
  - destruct (0 <=? n); rewrite take_nil; cbn [length]; lia.
Qed.

(** *** The static-HTML variant *)

Lemma collect_cards_ids (max_ids : Z) (cards : list elem) (ids : list Z) :
  Forall (fun i => 0 < i) ids ->
  Forall (fun i => 0 < i) (collect_cards max_ids cards ids) /\
  (Z.of_nat (length ids) < max_ids ->
   Z.of_nat (length (collect_cards max_ids cards ids)) <= max_ids).
Proof.
  revert ids. induction cards as [|c cards IH]; intros ids Hpos; cbn [collect_cards].
  - split; [exact Hpos|lia].
  - set (ids1 := match card_id c with Some i => ids ++ [i] | None => ids end).
    assert (Hpos1 : Forall (fun i => 0 < i) ids1).
    { subst ids1. destruct (card_id c) as [i|] eqn:Hc; [|exact Hpos].
      apply Forall_app. split; [exact Hpos|]. constructor; [|constructor].
      now apply card_id_positive in Hc. }
    assert (Hlen1 : (length ids1 <= length ids + 1)%nat).
    { subst ids1. destruct (card_id c); [rewrite length_app; cbn [length]|]; lia. }
    destruct (Z.leb_spec max_ids (Z.of_nat (length ids1))) as [Hge|Hlt].
    + split; [exact Hpos1|lia].
    + destruct (IH ids1 Hpos1) as [IH1 IH2]. split; [exact IH1|]. intros _. now apply IH2.
Qed.

Lemma get_ids_from_listing_ids (fuel : nat) (max_ids : Z) (via : route) (page : Z)
    (ids ids' : list Z) (s s' : io) (m m' : metrics) :
  get_ids_from_listing w fuel max_ids via page ids s m = Some (Returned (ids', s', m')) ->
  Forall (fun i => 0 < i) ids ->
  Forall (fun i => 0 < i) ids' /\
  Z.of_nat (length ids') <= Z.max (Z.of_nat (length ids)) max_ids /\
  exists n, extends via n s s' /\ request_count m' = request_count m + Z.of_nat n.
Proof.
  revert page ids s m. induction fuel as [|fuel IH]; intros page ids s m;
    cbn [get_ids_from_listing]; [discriminate|].
  destruct (Z.ltb_spec (Z.of_nat (length ids)) max_ids) as [Hlt|Hge].
  2:{ intros [= <- <- <-] Hpos. split; [exact Hpos|]. split; [lia|].
      exists 0%nat. split; [apply extends_refl|lia]. }
  destruct (http_get w (tick s) via (listing_url page)) as [r|e]; [|discriminate].
  assert (H1 : extends via 1 s (emit (EvHttpGet via (listing_url page)) s))
    by now apply extends_emit.
  destruct (r_ok r).
  2:{ intros [= <- <- <-] Hpos. split; [exact Hpos|]. split; [lia|].
      exists 1%nat. split; [exact H1|]. cbn [record request_count]. lia. }
  intros Hrec Hpos.
  destruct (collect_cards_ids max_ids (select (parse_html (r_payload r)) CARDS) ids Hpos)
    as [Hpos1 Hlen1]. specialize (Hlen1 Hlt).
  apply IH in Hrec as (Hpos' & Hlen' & n & Hext & Hcount); [|exact Hpos1].
  split; [exact Hpos'|]. split; [lia|].
  exists (S n). split.
  - apply (extends_trans via 1 n s _ _ H1).
    eapply (extends_trans via 0 n); [|exact Hext]. now apply extends_note.
  - rewrite Hcount. cbn [record request_count]. lia.
Qed.

Lemma fetch_detail_bs4_row (i : Z) (via : route) (s s1 : io) (m m1 : metrics)
    (o : option row) :
  fetch_detail_bs4 float_of_str w i via s m = Returned (o, s1, m1) ->
  extends via 1 s s1 /\ request_count m1 = request_count m + 1 /\
  forall r, o = Some r -> row_of_id i r.
Proof.
  unfold fetch_detail_bs4.
  destruct (http_get w (tick s) via (detail_url i)) as [r|e]; [|discriminate].
  destruct (r_ok r); intros [= <- <- <-]; (split; [now apply extends_emit|]);
    (split; [reflexivity|]); intros r0 [= <-]; split; reflexivity.
Qed.

Lemma bs4_details_rows (ids : list Z) (via : route) (rows rows' : list row)
    (s s' : io) (m m' : metrics) :
  bs4_details float_of_str w ids via rows s m = Returned (rows', s', m') ->
  exists new js n,
    rows' = rows ++ new /\ js `sublist_of` ids /\ Forall2 row_of_id js new /\
    extends via n s s' /\ request_count m' = request_count m + Z.of_nat n.
Proof.
  revert rows s m. induction ids as [|i ids IH]; intros rows s m; cbn [bs4_details].
  - intros [= <- <- <-]. exists [], [], 0%nat. rewrite app_nil_r.
    split; [reflexivity|]. split; [constructor|]. split; [constructor|].
    split; [apply extends_refl|lia].
  - destruct (fetch_detail_bs4 float_of_str w i via s m) as [[[o s1] m1]|e] eqn:Hf;
      [|discriminate].
    apply fetch_detail_bs4_row in Hf as (H1 & Hc1 & Hrow).
    destruct o as [r|]; intros Hrec;
      apply IH in Hrec as (new & js & n & -> & Hsub & Hrows & Hext & Hcount).
    + exists (r :: new), (i :: js), (S n). rewrite <- app_assoc.
      split; [reflexivity|]. split; [now apply sublist_skip|].
      split; [constructor; [now apply Hrow|exact Hrows]|]. split; [|lia].
      apply (extends_trans via 1 n s _ _ H1).
      eapply (extends_trans via 0 n); [|exact Hext]. now apply extends_note.
    + exists new, js, (S n).
      split; [reflexivity|]. split; [now apply sublist_cons|].
      split; [exact Hrows|]. split; [|lia].
      exact (extends_trans via 1 n s _ _ H1 Hext).
Qed.

(** X12. Whenever step3c's [scrape_bs4] returns: at most [max_movies]
    rows, each with a positive id that [mid] reads back from the row's
    URL; all requests through the route of [proxies], and a request
    counter that is their number. *)
Theorem scrape_bs4_returned (fuel : nat) (max_movies : Z) (proxies : bool)
    (s s' : io) (rows : list row) (msum : summary_dict) :
  scrape_bs4 float_of_str w fuel max_movies proxies s
  = Some (Returned (rows, msum, s')) ->
  Z.of_nat (length rows) <= Z.max 0 max_movies /\
  Forall id_in_url rows /\
  exists n, extends (route_of proxies) n s s' /\ requests msum = Z.of_nat n.
Proof.
  unfold scrape_bs4.
  destruct (get_ids_from_listing _ _ _ _ _ _ _ _) as [[[[ids s1] m1]|e]|] eqn:Hids;
    try discriminate.
  destruct (bs4_details _ _ _ _ _ _ _) as [[[rows' s2] m2]|e] eqn:Hd; [|discriminate].
  destruct (summary_mt m2) as [ms|e] eqn:Hsum; [|discriminate].
  intros [= <- <- <-].
  apply get_ids_from_listing_ids in Hids as (Hpos & Hlen & n1 & Hext1 & Hc1);
    [|constructor].
  apply bs4_details_rows in Hd as (new & js & n2 & -> & Hsub & Hrows & Hext2 & Hc2).
  cbn [app length init request_count] in *.
  assert (Hjs : js `sublist_of` ids)
    by (etransitivity; [exact Hsub|apply py_prefix_sublist]).
  split; [|split].
  - rewrite <- (Forall2_length _ _ _ Hrows).
    pose proof (sublist_length _ _ Hsub) as Hl.
    assert (Hp : 0 <= max_movies \/ ids = []).
    { destruct (Z_lt_le_dec max_movies 0) as [Hneg|]; [right|now left].
      destruct ids; [reflexivity|]. cbn [length] in Hlen. lia. }
    pose proof (py_prefix_length max_movies ids Hp). lia.
  - apply (row_of_id_in_url js); [exact Hrows|].
    rewrite Forall_forall in Hpos |- *. intros j Hj. apply Hpos.
    eapply elem_of_sublist; eassumption.
  - exists (n1 + n2)%nat. split; [exact (extends_trans _ _ _ _ _ _ Hext1 Hext2)|].
    rewrite (summary_mt_requests _ _ Hsum), Hc2, Hc1. lia.
Qed.

(** *** The browser variant *)

Lemma safe_get_extends (via : route) (url : string) (timeout retries : Z)
    (s s' : io) (d d' : driver) (r : bool * nav_mode * option exn) :
  safe_get w via url timeout retries s d = (r, s', d') ->
  exists n, extends via n s s'.
Proof.
  unfold safe_get. intros Hget.
  apply safe_get_from_spec in Hget as (n & Hext & _); [eauto|].
  destruct (Z_lt_le_dec retries 0); [left|right]; lia.
Qed.

Lemma sel_collect_cards_ids (max_movies : Z) (cards : list elem) (ids : list Z) :
  Forall (fun i => 0 < i) ids -> NoDup ids ->
  Forall (fun i => 0 < i) (sel_collect_cards max_movies cards ids) /\
  NoDup (sel_collect_cards max_movies cards ids) /\
  (Z.of_nat (length ids) < max_movies ->
   Z.of_nat (length (sel_collect_cards max_movies cards ids)) <= max_movies).
Proof.
  revert ids. induction cards as [|c cards IH]; intros ids Hpos Hnd;
    cbn [sel_collect_cards].
  - split; [exact Hpos|]. split; [exact Hnd|lia].
  - set (ids1 := match card_id c with
                 | Some i => if bool_decide (i ∈ ids) then ids else ids ++ [i]
                 | None => ids
                 end).
    assert (H1 : Forall (fun i => 0 < i) ids1 /\ NoDup ids1 /\
                 (length ids1 <= length ids + 1)%nat).
    { subst ids1. destruct (card_id c) as [i|] eqn:Hc; [|repeat split; auto; lia].
      destruct (bool_decide_reflect (i ∈ ids)) as [Hin|Hnin];
        [repeat split; auto; lia|].
      split; [|split].
      - apply Forall_app. split; [exact Hpos|]. constructor; [|constructor].
        now apply card_id_positive in Hc.
      - apply NoDup_app. split; [exact Hnd|]. split; [|apply NoDup_singleton].
        intros x Hx Hx'. apply list_elem_of_singleton in Hx'. now subst x.
      - rewrite length_app. cbn [length]. lia. }
    destruct H1 as (Hpos1 & Hnd1 & Hlen1).
    destruct (Z.leb_spec max_movies (Z.of_nat (length ids1))) as [Hge|Hlt].
    + split; [exact Hpos1|]. split; [exact Hnd1|lia].
    + destruct (IH ids1 Hpos1 Hnd1) as (IH1 & IH2 & IH3).
      split; [exact IH1|]. split; [exact IH2|]. intros _. now apply IH3.
Qed.

Lemma sel_listing_ids (fuel : nat) (max_movies : Z) (via : route) (page : Z)
    (ids ids' : list Z) (st st' : sel_state) :
  sel_listing w cfg fuel max_movies via page ids st = Some (Returned (ids', st')) ->
  Forall (fun i => 0 < i) ids -> NoDup ids ->
  Forall (fun i => 0 < i) ids' /\ NoDup ids' /\
  Z.of_nat (length ids') <= Z.max (Z.of_nat (length ids)) max_movies /\
  exists n, extends via n (s_io st) (s_io st').
Proof.
  revert page ids st. induction fuel as [|fuel IH]; intros page ids st;
    cbn [sel_listing]; [discriminate|].
  destruct (Z.ltb_spec (Z.of_nat (length ids)) max_movies) as [Hlt|Hge].
  2:{ intros [= <- <-] Hpos Hnd. split; [exact Hpos|]. split; [exact Hnd|].
      split; [lia|]. exists 0%nat. apply extends_refl. }
  destruct (safe_get w via (listing_url page) (SEL_PAGELOAD_TIMEOUT cfg)
              (SEL_RETRIES cfg) (s_io st) (s_driver st)) as [[r s1] d1] eqn:Hget.
  apply safe_get_extends in Hget as (n1 & Hext1).
  destruct (read_page_source w s1 d1) as [html|e]; [|discriminate].
  destruct (nav_failed r).
  { intros [= <- <-] Hpos Hnd. split; [exact Hpos|]. split; [exact Hnd|].
    split; [lia|]. exists n1. exact Hext1. }
  intros Hrec Hpos Hnd.
  destruct (sel_collect_cards_ids max_movies
              (select (parse_html html) CARDS) ids Hpos Hnd)
    as (Hpos1 & Hnd1 & Hlen1). specialize (Hlen1 Hlt).
  apply IH in Hrec as (Hpos' & Hnd' & Hlen' & n & Hext); [|exact Hpos1|exact Hnd1].
  split; [exact Hpos'|]. split; [exact Hnd'|]. split; [lia|].
  exists (n1 + (0 + n))%nat. cbn [s_io] in Hext.
  apply (extends_trans via n1 (0 + n) _ _ _ Hext1).
  eapply (extends_trans via 0 n); [|exact Hext]. now apply extends_note.
Qed.

Lemma sel_detail_step_row (use_tor : bool) (st st' : sel_state) (i : Z) :
  sel_detail_step float_of_str w cfg use_tor st i = Returned st' ->
  exists new n,
    s_rows st' = s_rows st ++ new /\
    (new = [] \/ exists r, new = [r] /\ row_of_id i r) /\
    extends (route_of use_tor) n (s_io st) (s_io st').
Proof.
  unfold sel_detail_step.
  destruct (safe_get w (route_of use_tor) (detail_url i) (SEL_PAGELOAD_TIMEOUT cfg)
              (SEL_RETRIES cfg) (s_io st) (s_driver st)) as [[r s1] d1] eqn:Hget.
  apply safe_get_extends in Hget as (n1 & Hext1).
  destruct (read_page_source w s1 d1) as [html|e]; [|discriminate].
  assert (Hrow : forall e, row_of_id i
            (selenium_row float_of_str use_tor i (detail_url i) e))
    by (intros e; split; reflexivity).
  assert (H2 : extends (route_of use_tor) (n1 + 1) (s_io st)
                 (emit (EvHttpGet (route_of use_tor) (detail_url i)) s1)).
  { apply (extends_trans _ n1 1 _ _ _ Hext1). now apply extends_emit. }
  destruct (nav_failed r).
  - destruct (http_get w (tick s1) (route_of use_tor) (detail_url i)) as [rr|e].
    + destruct (r_ok rr); intros [= <-]; cbn [s_rows s_io].
      * eexists [_], (n1 + 1 + 0)%nat. split; [reflexivity|]. split; [right; eauto|].
        apply (extends_trans _ (n1 + 1) 0 _ _ _ H2). now apply extends_note.
      * exists [], (n1 + 1)%nat. rewrite app_nil_r. split; [reflexivity|].
        split; [now left|exact H2].
    + intros [= <-]. cbn [s_rows s_io]. exists [], (n1 + 1)%nat. rewrite app_nil_r.
      split; [reflexivity|]. split; [now left|exact H2].
  - intros [= <-]. cbn [s_rows s_io]. eexists [_], (n1 + 0)%nat. split; [reflexivity|].
    split; [right; eauto|].
    apply (extends_trans _ n1 0 _ _ _ Hext1). now apply extends_note.
Qed.

Lemma sel_details_rows (use_tor : bool) (ids : list Z) (st st' : sel_state) :
  sel_details float_of_str w cfg use_tor ids st = Returned st' ->
  exists new js n,
    s_rows st' = s_rows st ++ new /\
    js `sublist_of` ids /\ Forall2 row_of_id js new /\
    extends (route_of use_tor) n (s_io st) (s_io st').
Proof.
  revert st. induction ids as [|i ids IH]; intros st; cbn [sel_details].
  - intros [= <-]. exists [], [], 0%nat. rewrite app_nil_r.
    split; [reflexivity|]. split; [constructor|]. split; [constructor|apply extends_refl].
  - destruct (sel_detail_step float_of_str w cfg use_tor st i) as [st1|e] eqn:H1;
      [|discriminate].
    intros Hrest.
    destruct (sel_detail_step_row use_tor st st1 i H1) as (new1 & n1 & Hr1 & Hnew & Hext1).
    destruct (IH st1 Hrest) as (new & js & n & Hr & Hsub & Hrows & Hext).
    rewrite Hr, Hr1, <- app_assoc.
    destruct Hnew as [-> | (r & -> & Hrow)].
    + exists new, js, (n1 + n)%nat. split; [reflexivity|].
      split; [now apply sublist_cons|]. split; [exact Hrows|].
      exact (extends_trans _ _ _ _ _ _ Hext1 Hext).
    + exists (r :: new), (i :: js), (n1 + n)%nat. split; [reflexivity|].
      split; [now apply sublist_skip|]. split; [now constructor|].
      exact (extends_trans _ _ _ _ _ _ Hext1 Hext).
Qed.

(** X13. Whenever step3c's [scrape_selenium] returns: at most
    [max_movies] rows, no id twice, each id positive and read back by [mid]
    from the row's URL, and every navigation and fallback request through
    the route of [use_tor]. *)
Theorem scrape_selenium_returned (fuel : nat) (max_movies : Z) (use_tor : bool)
    (s s' : io) (d : driver) (rows : list row) (msum : summary_dict) :
  scrape_selenium float_of_str w cfg fuel max_movies use_tor s d
  = Some (Returned (rows, msum, s')) ->
  Z.of_nat (length rows) <= Z.max 0 max_movies /\
  NoDup (tmdb_id <$> rows) /\
  Forall id_in_url rows /\
  exists n, extends (route_of use_tor) n s s'.
Proof.
  unfold scrape_selenium.
  destruct (sel_listing _ _ _ _ _ _ _ _) as [[[ids st]|e]|] eqn:Hl; try discriminate.
  pose proof (sel_listing_rows _ _ _ _ _ _ _ _ _ _ Hl) as Hrows0. cbn [s_rows] in Hrows0.
  apply sel_listing_ids in Hl as (Hpos & Hnd & Hlen & n1 & Hext1);
    [|constructor|constructor].
  destruct (sel_details _ _ _ _ _ _) as [st'|e] eqn:Hd; [|discriminate].
  destruct (sel_details_rows use_tor (py_prefix max_movies ids) st st' Hd)
    as (new & js & n2 & Hr & Hsub & Hrows & Hext2).
  destruct (summary_mt _); [|discriminate]. intros [= <- _ <-].
  rewrite Hr, Hrows0. cbn [app s_io length] in *.
  assert (Hjs : js `sublist_of` ids)
    by (etransitivity; [exact Hsub|apply py_prefix_sublist]).
  split; [|split; [|split]].
  - rewrite <- (Forall2_length _ _ _ Hrows).
    pose proof (sublist_length _ _ Hsub) as Hl.
    assert (Hp : 0 <= max_movies \/ ids = []).
    { destruct (Z_lt_le_dec max_movies 0) as [Hneg|]; [right|now left].
      destruct ids; [reflexivity|]. cbn [length] in Hlen. lia. }
    pose proof (py_prefix_length max_movies ids Hp). lia.
  - rewrite (row_of_id_ids js new Hrows). apply (NoDup_fmap_2 _).
    eapply sublist_NoDup; eassumption.
  - apply (row_of_id_in_url js); [exact Hrows|].
    rewrite Forall_forall in Hpos |- *. intros j Hj. apply Hpos.
    eapply elem_of_sublist; eassumption.
  - exists (n1 + n2)%nat. exact (extends_trans _ _ _ _ _ _ Hext1 Hext2).
Qed.
End Step3cRuns.

(** A browser that cannot navigate, under a retry budget of 2: three
    navigations, then the failed state. *)
Lemma safe_get_bounded_witness :
  exists s' d' n,
    Step3c.safe_get Site.site_no_browser Direct (Step3c.detail_url 949) 60 2
      io0 Step3c.blank
    = ((false, Step3c.ModeError, Some WebDriverException), s', d') /\
    Trace.extends Direct n io0 s' /\ Z.of_nat n = 2 + 1.
Proof.
  destruct (Step3c.safe_get Site.site_no_browser Direct (Step3c.detail_url 949) 60 2
              io0 Step3c.blank) as [[r s1] d1] eqn:Hnav.
  destruct (safe_get_bounded Site.site_no_browser Direct (Step3c.detail_url 949) 60 2
              io0 Step3c.blank r s1 d1 Hnav) as (n & Hext & _ & Hres).
  vm_compute in Hnav. injection Hnav as <- <- <-.
  eexists _, _, n. split; [reflexivity|]. split; [exact Hext|]. exact (proj2 Hres).
Defined.

(** The API variant against the sample site, for a target of 1. *)
Lemma scrape_api_returned_witness :
  exists rows msum s',
    Step3c.scrape_api Normalizer.digits_to_float Normalizer.iso_to_datetime
      Site.site_no_tor 10 1 false io0 = Some (Returned (rows, msum, s')) /\
    Z.of_nat (length rows) = Z.max 0 1 /\
    exists n, Trace.extends Direct n io0 s' /\ Metrics.requests msum = Z.of_nat n.
Proof.
  eexists _, _, _. split; [vm_compute; reflexivity|].
  apply (scrape_api_returned Normalizer.digits_to_float Normalizer.iso_to_datetime
           Site.site_no_tor 10 1 false io0).
  vm_compute. reflexivity.
Defined.

(** The static-HTML variant against the sample site, for a target of 1. *)
Lemma scrape_bs4_returned_witness :
  exists rows msum s',
    Step3c.scrape_bs4 Normalizer.digits_to_float Site.site_no_tor 10 1 false io0
    = Some (Returned (rows, msum, s')) /\
    Z.of_nat (length rows) <= Z.max 0 1 /\
    Forall Trace.id_in_url rows /\
    exists n, Trace.extends Direct n io0 s' /\ Metrics.requests msum = Z.of_nat n.
Proof.
  eexists _, _, _. split; [vm_compute; reflexivity|].
  apply (scrape_bs4_returned Normalizer.digits_to_float Site.site_no_tor 10 1 false io0).
  vm_compute. reflexivity.
Defined.

(** The browser variant against the sample site, for a target of 2. *)
Lemma scrape_selenium_returned_witness :
  exists rows msum s',
    Step3c.scrape_selenium Normalizer.digits_to_float Site.site_no_tor Site.cfg0
      10 2 false io0 Step3c.blank = Some (Returned (rows, msum, s')) /\
    Z.of_nat (length rows) <= Z.max 0 2 /\
    NoDup (tmdb_id <$> rows) /\
    Forall Trace.id_in_url rows /\
    exists n, Trace.extends Direct n io0 s'.
Proof.
  eexists _, _, _. split; [vm_compute; reflexivity|].
  eapply (scrape_selenium_returned Normalizer.digits_to_float Site.site_no_tor
           Site.cfg0 10 2 false io0 _ Step3c.blank).
  vm_compute. reflexivity.
Defined.

(** ** Names in the metrics table *)

Section TableFacts.
Import Table.
Context `{Html}.
Variable float_of_str : string -> option float.
Variable to_datetime : pyval -> option timestamp.
Variable w : world.
Variable cfg : config.

Lemma table_name_tagged (rows : list row) (tag : string) (proxies : bool)
    (tor_name direct_name : string) :
  tagged tag rows -> (if proxies then tor_name else direct_name) = tag ->
  table_name rows tor_name direct_name proxies = tag.
Proof.
  intros Hrows Hname. destruct rows as [|r rows]; [exact Hname|].
  now apply Forall_cons in Hrows as [Hr _].
Qed.

(** X14. In every run, the lines of the API and of the browser variant are
    named after the route the session took; the line of the static-HTML
    variant is named ["BS4_TOR"] whenever it produced a row, also on the
    direct route. *)
Theorem metrics_table_names (fuel : nat) (proxy_tor : bool) (max_movies : Z)
    (api_rows bs_rows se_rows : list row) (proxies : bool) :
  main float_of_str to_datetime w cfg fuel proxy_tor max_movies
  = Some (Returned (api_rows, bs_rows, se_rows, proxies)) ->
  (proxies = true -> proxy_tor = true /\ tor_probe w 0 = Returned true) /\
  table_names api_rows bs_rows se_rows proxies
  = [api_tag proxies;
     match bs_rows with
     | [] => if proxies then "BS4_TOR" else "BS4"
     | _ => "BS4_TOR"
     end;
     selenium_tag proxies].
Proof.
  unfold main.
  destruct (if proxy_tor then check_tor w io0 else (false, io0)) as [p s0] eqn:Hp.
  destruct (scrape_api _ _ _ _ _ _ _) as [[[[a ma] s1]|e]|] eqn:Ha; try discriminate.
  destruct (scrape_bs4 _ _ _ _ _ _) as [[[[b mb] s2]|e]|] eqn:Hb; try discriminate.
  destruct (scrape_selenium _ _ _ _ _ _ _ _) as [[[[c mc] s3]|e]|] eqn:Hc; try discriminate.
  intros [= <- <- <- <-]. split.
  - intros ->. destruct proxy_tor; [|discriminate]. split; [reflexivity|].
    unfold check_tor in Hp. cbn [tick io0] in Hp.
    destruct (tor_probe w 0) as [[]|]; congruence.
  - unfold table_names. f_equal; [|f_equal; [|f_equal]].
    + apply table_name_tagged; [|now destruct p].
      eapply scrape_api_tagged; exact Ha.
    + apply scrape_bs4_tagged in Hb. destruct b as [|r b]; [reflexivity|].
      now apply Forall_cons in Hb as [Hr _].
    + apply table_name_tagged; [|now destruct p].
      eapply scrape_selenium_tagged; exact Hc.
Qed.
End TableFacts.

(** The direct run against the sample site: the static-HTML line is
    named for Tor. *)
Lemma metrics_table_names_witness :
  exists api_rows bs_rows se_rows,
    Step3c.main Normalizer.digits_to_float Normalizer.iso_to_datetime
      Site.site_no_tor Site.cfg0 10 false 1
    = Some (Returned (api_rows, bs_rows, se_rows, false)) /\
    Table.table_names api_rows bs_rows se_rows false = ["API"; "BS4_TOR"; "Selenium"].
Proof.
  eexists _, _, _. split; [vm_compute; reflexivity|].
  refine (proj2 (metrics_table_names Normalizer.digits_to_float
                   Normalizer.iso_to_datetime Site.site_no_tor Site.cfg0 10 false 1
                   _ _ _ false _)).
  vm_compute. reflexivity.
Defined.

(** ** Rows and requests of step1's API scraper *)

Section Step1Runs.
Import Trace Metrics.
Variable float_of_str : string -> option float.
Variable to_datetime : pyval -> option timestamp.
Variable w : world.

Lemma summary_requests (m : metrics) (msum : summary_dict) :
  summary m = Returned msum -> requests msum = request_count m.
Proof.
  unfold summary. destruct (avg_ms (latencies m)); [|discriminate].
  now intros [= <-].
Qed.

Lemma step1_take_results_rows (max_movies : Z) (gm : gmap Z string)
    (results : list api_item) (movies : list row) (fetched : Z) :
  exists new,
    Step1.take_results float_of_str to_datetime max_movies gm results movies fetched
    = (movies ++ new, fetched + Z.of_nat (length new)) /\
    fetched + Z.of_nat (length new) <= Z.max fetched max_movies /\
    Forall (fun r => method r = "API") new.
Proof.
  revert movies fetched. induction results as [|it rest IH]; intros movies fetched;
    cbn [Step1.take_results].
  - exists []. rewrite app_nil_r, Z.add_0_r. split; [reflexivity|]. split; [lia|constructor].
  - destruct (Z.leb_spec max_movies fetched) as [Hge|Hlt].
    + exists []. rewrite app_nil_r, Z.add_0_r. split; [reflexivity|].
      split; [lia|constructor].
    + destruct (IH (movies ++ [Step1.api_row float_of_str to_datetime gm it]) (fetched + 1))
        as (new & Heq & Hle & Htag).
      exists (Step1.api_row float_of_str to_datetime gm it :: new).
      rewrite Heq, <- app_assoc. cbn [app length].
      split; [f_equal; lia|]. split; [lia|]. now constructor.
Qed.

Lemma step1_scrape_api_loop_rows (fuel : nat) (max_movies : Z)
    (gm : gmap Z string) (s st : Step1.api_state) :
  Step1.scrape_api_loop float_of_str to_datetime w fuel max_movies gm s
  = Some (Returned st) ->
  Step1.a_fetched s = Z.of_nat (length (Step1.a_movies s)) ->
  Forall (fun r => method r = "API") (Step1.a_movies s) ->
  Step1.a_fetched st = Z.of_nat (length (Step1.a_movies st)) /\
  Step1.a_fetched st <= Z.max (Step1.a_fetched s) max_movies /\
  Forall (fun r => method r = "API") (Step1.a_movies st) /\
  (exists n, extends Direct n (Step1.a_io s) (Step1.a_io st) /\
     request_count (Step1.a_metrics st)
     = request_count (Step1.a_metrics s) + Z.of_nat n) /\
  (Step1.a_fetched st < max_movies ->
   exists t p resp,
     last (Step1.pages_requested (log (Step1.a_io st))) = Some p /\
     api_popular w t Direct p = Returned resp /\
     (if r_ok resp then r_payload resp else []) = []).
Proof.
  revert s. induction fuel as [|fuel IH]; intros s; cbn [Step1.scrape_api_loop];
    [discriminate|].
  destruct (Z.ltb_spec (Step1.a_fetched s) max_movies) as [Hlt|Hge].
  2:{ intros [= <-] Hgot Htag. split; [exact Hgot|]. split; [lia|].
      split; [exact Htag|]. split; [|lia].
      exists 0%nat. split; [apply extends_refl|lia]. }
  destruct (api_popular w (tick (Step1.a_io s)) Direct (Step1.a_page s))
    as [r|e] eqn:Hresp; [|discriminate].
  assert (H1 : extends Direct 1 (Step1.a_io s)
                 (emit (EvApiPopular Direct (Step1.a_page s)) (Step1.a_io s)))
    by now apply extends_emit.
  destruct (if r_ok r then r_payload r else []) as [|it rest] eqn:Hres.
  { intros [= <-] Hgot Htag. cbn [Step1.a_fetched Step1.a_movies Step1.a_io Step1.a_metrics].
    split; [exact Hgot|]. split; [lia|]. split; [exact Htag|]. split.
    - exists 1%nat. split; [exact H1|]. cbn [record request_count]. lia.
    - intros _. exists (tick (Step1.a_io s)), (Step1.a_page s), r.
      cbn [emit log]. rewrite pages_requested_snoc, last_snoc. now rewrite Hres. }
  destruct (step1_take_results_rows max_movies gm (it :: rest) (Step1.a_movies s)
              (Step1.a_fetched s)) as (new & -> & Hle & Hnew).
  intros Hloop Hgot Htag.
  apply IH in Hloop as (Hgot' & Hrange & Htag' & (n & Hext & Hcount) & Hstop).
  2:{ cbn [Step1.a_fetched Step1.a_movies]. rewrite length_app. lia. }
  2:{ cbn [Step1.a_movies]. apply Forall_app. now split. }
  cbn [Step1.a_fetched Step1.a_io Step1.a_metrics record request_count]
    in Hrange, Hext, Hcount.
  split; [exact Hgot'|]. split; [lia|]. split; [exact Htag'|]. split; [|exact Hstop].
  exists (S n). split; [|lia].
  apply (extends_trans _ 1 n _ _ _ H1).
  eapply (extends_trans _ 0 n); [|exact Hext]. now apply extends_note.
Qed.

(** X15. Whenever step1's [scrape_api] returns: at most [max_movies] rows, all
    tagged ["API"]; fewer than [max_movies] only when the last page asked
    for listed nothing; every request went out directly and was counted
    once. *)
Theorem step1_scrape_api_returned (fuel : nat) (max_movies : Z)
    (s s' : io) (rows : list row) (msum : summary_dict) :
  Step1.scrape_api float_of_str to_datetime w fuel max_movies s
  = Some (Returned (rows, msum, s')) ->
  Z.of_nat (length rows) <= Z.max 0 max_movies /\
  Forall (fun r => method r = "API") rows /\
  (exists n, extends Direct n s s' /\ requests msum = Z.of_nat n) /\
  (Z.of_nat (length rows) < max_movies ->
   exists t p resp,
     last (Step1.pages_requested (log s')) = Some p /\
     api_popular w t Direct p = Returned resp /\
     (if r_ok resp then r_payload resp else []) = []).
Proof.
  unfold Step1.scrape_api, Step1.fetch_genre_map.
  destruct (api_genres w (tick s) Direct) as [resp|e]; [|discriminate].
  destruct (Step1.scrape_api_loop _ _ _ _ _ _ _) as [[st|e]|] eqn:Hloop; try discriminate.
  destruct (summary (Step1.a_metrics st)) as [ms|e] eqn:Hsum; [|discriminate].
  intros [= <- <- <-].
  apply step1_scrape_api_loop_rows in Hloop
    as (Hgot & Hrange & Htag & (n & Hext & Hcount) & Hstop);
    [|reflexivity|constructor].
  cbn [Step1.a_fetched Step1.a_io Step1.a_metrics Step1.a_movies record
       request_count init] in Hgot, Hrange, Hext, Hcount.
  split; [lia|]. split; [exact Htag|]. split.
  - exists (S n). split.
    + apply (extends_trans _ 1 n s (emit (EvApiGenres Direct) s));
        [now apply extends_emit|exact Hext].
    + rewrite (summary_requests _ _ Hsum), Hcount. lia.
  - intros Hlt. apply Hstop. lia.
Qed.
End Step1Runs.

(** Two entries per page and a target of 3: three rows after pages 1
    and 2. *)
Lemma step1_scrape_api_returned_witness :
  exists rows msum s',
    Step1.scrape_api Normalizer.digits_to_float Normalizer.iso_to_datetime
      Sites.site_two_per_page 10 3 io0 = Some (Returned (rows, msum, s')) /\
    length rows = 3%nat /\
    Step1.pages_requested (log s') = [1; 2] /\
    Forall (fun r => method r = "API") rows /\
    exists n, Trace.extends Direct n io0 s' /\ Metrics.requests msum = Z.of_nat n.
Proof.
  eexists _, _, _. split; [vm_compute; reflexivity|].
  split; [reflexivity|]. split; [reflexivity|].
  refine (let H := step1_scrape_api_returned Normalizer.digits_to_float
                     Normalizer.iso_to_datetime Sites.site_two_per_page 10 3 io0
                     _ _ _ _ in conj (proj1 (proj2 H)) (proj1 (proj2 (proj2 H)))).
  vm_compute. reflexivity.
Defined.

(** ** step1's static-HTML and browser scrapers *)

Section Step1HtmlRuns.
Import Trace Metrics Step1Html.
Context `{Html}.
Variable float_of_str : string -> option float.
Variable w : world.
Variable urljoin : string -> option string -> string.
Variable nav_seconds : nat -> float.
Variable wait_cards : nat -> option exn.

Lemma get_movie_details_requests_counted (movie_url : string) (s s1 : io)
    (m m1 : metrics) (d : details) :
  get_movie_details_requests float_of_str w movie_url s m = (d, s1, m1) ->
  extends Direct 1 s s1 /\
  request_count m <= request_count m1 <= request_count m + 1.
Proof.
  unfold get_movie_details_requests.
  destruct (http_get w (tick s) Direct movie_url) as [resp|e]; intros [= <- <- <-];
    (split; [now apply extends_emit|]); cbn [record request_count]; lia.
Qed.

Lemma bs4_cards_rows (max_movies : Z) (cards : list elem) (st : state) :
  exists new n,
    st_movies (bs4_cards float_of_str w urljoin max_movies cards st)
    = st_movies st ++ new /\
    Forall (html_row_ok "BS4") new /\
    Z.of_nat (length (st_movies st ++ new))
    = Z.max (Z.of_nat (length (st_movies st)))
        (Z.min max_movies
           (Z.of_nat (length (st_movies st)) + Z.of_nat (length (anchored cards)))) /\
    extends Direct n (st_io st)
      (st_io (bs4_cards float_of_str w urljoin max_movies cards st)) /\
    request_count (st_metrics st)
    <= request_count (st_metrics (bs4_cards float_of_str w urljoin max_movies cards st))
    <= request_count (st_metrics st) + Z.of_nat n.
Proof.
  revert st. induction cards as [|card rest IH]; intros st; cbn [bs4_cards].
  - exists [], 0%nat. rewrite app_nil_r. cbn [anchored omap list_omap length].
    split; [reflexivity|]. split; [constructor|]. split; [lia|].
    split; [apply extends_refl|lia].
  - assert (Ha : anchored (card :: rest)
                 = match select_one card "h2 a[href^='/movie/']" with
                   | Some a => a :: anchored rest
                   | None => anchored rest
                   end) by reflexivity.
    destruct (Z.leb_spec max_movies (Z.of_nat (length (st_movies st)))) as [Hge|Hlt].
    { exists [], 0%nat. rewrite app_nil_r.
      split; [reflexivity|]. split; [constructor|]. split; [lia|].
      split; [apply extends_refl|lia]. }
    rewrite Ha. destruct (select_one card "h2 a[href^='/movie/']") as [a|].
    2:{ exact (IH st). }
    destruct (get_movie_details_requests float_of_str w
                (urljoin BASE_URL (elem_get a "href")) (st_io st) (st_metrics st))
      as [[d s1] m1] eqn:Hd.
    apply get_movie_details_requests_counted in Hd as [H1 Hc1].
    destruct (IH (mkState (note EvSleep s1) m1
                    (st_movies st ++
                     [html_row "BS4" (mid (urljoin BASE_URL (elem_get a "href")))
                        (strip (elem_text a)) (urljoin BASE_URL (elem_get a "href")) d])))
      as (new & n & Hrows & Htag & Hlen & Hext & Hcount).
    cbn [st_movies st_io st_metrics] in Hrows, Hlen, Hext, Hcount.
    eexists (_ :: new), (1 + (0 + n))%nat.
    rewrite Hrows, <- app_assoc. cbn [app].
    split; [reflexivity|]. split; [constructor; [split; reflexivity|exact Htag]|].
    split.
    + rewrite <- app_assoc in Hlen. cbn [app] in Hlen. rewrite Hlen.
      rewrite !length_app. cbn [length]. lia.
    + split; [|lia].
      apply (extends_trans _ 1 (0 + n) _ _ _ H1).
      eapply (extends_trans _ 0 n); [|exact Hext]. now apply extends_note.
Qed.

(** X16. The inner loop of step1's [scrape_bs4] appends a row for every
    card that has a link, up to the target, whether or not the detail
    page of the card could be fetched. *)
Theorem bs4_cards_keep_every_card (max_movies : Z) (cards : list elem) (st : state) :
  Z.of_nat (length (st_movies (bs4_cards float_of_str w urljoin max_movies cards st)))
  = Z.max (Z.of_nat (length (st_movies st)))
      (Z.min max_movies
         (Z.of_nat (length (st_movies st)) + Z.of_nat (length (anchored cards)))).
Proof.
  destruct (bs4_cards_rows max_movies cards st) as (new & n & -> & _ & Hlen & _).
  exact Hlen.
Qed.



(** *** The browser scraper *)



End Step1HtmlRuns.

(** ** step3b outside the thread pools *)

Section Step3bRuns.
Import Trace Metrics Step3b.
Context `{Html}.
Variable float_of_str : string -> option float.
Variable w : world.
Variable urljoin : string -> option string -> string.
Variable elapsed : io -> io -> float.

Lemma truthy_id_nonzero (x : option Z) (i : Z) : truthy_id x = Some i -> x = Some i /\ i <> 0.
Proof.
  unfold truthy_id. destruct x as [j|]; [|discriminate].
  destruct (Z.eqb_spec j 0); [discriminate|]. now intros [= <-].
Qed.

Lemma parse_id_positive (href : option string) (i : Z) :
  truthy_id (parse_id href) = Some i -> 0 < i.
Proof.
  intros Hi. apply truthy_id_nonzero in Hi as [Hp Hnz].
  apply mid_nonneg in Hp. lia.
Qed.

(** *** The id listings *)

Lemma popular_pages_spec (left : nat) (page : Z) (ids ids' : list Z)
    (s s' : io) (m m' : metrics) :
  popular_pages w left page ids s m = Returned (ids', s', m') ->
  Forall (fun i => i <> 0) ids ->
  extends Direct left s s' /\
  Step1.pages_requested (log s')
  = Step1.pages_requested (log s) ++ seqZ page (Z.of_nat left) /\
  Forall (fun i => i <> 0) ids' /\
  request_count m' = request_count m + Z.of_nat left.
Proof.
  revert page ids s m. induction left as [|left IH]; intros page ids s m;
    cbn [popular_pages].
  - intros [= <- <- <-] Hids. split; [apply extends_refl|].
    split; [now rewrite app_nil_r|]. split; [exact Hids|lia].
  - destruct (api_popular w (tick s) Direct page) as [r|e]; [|discriminate].
    intros Hrec Hids. apply IH in Hrec as (Hext & Hpages & Hids' & Hcount).
    2:{ apply Forall_app. split; [exact Hids|]. apply Forall_forall. intros i Hi.
        apply list_elem_of_omap in Hi as (it & _ & Hit).
        now apply truthy_id_nonzero in Hit. }
    split; [|split; [|split; [exact Hids'|]]].
    + apply (extends_trans _ 1 left s (emit (EvApiPopular Direct page) s));
        [now apply extends_emit|].
      apply (extends_trans _ 0 left _ (note EvSleep (emit (EvApiPopular Direct page) s)));
        [now apply extends_note|exact Hext].
    + rewrite Hpages. cbn [note emit log].
      rewrite !pages_requested_snoc, app_nil_r, <- app_assoc. f_equal.
      rewrite (seqZ_cons page) by lia. cbn [app]. do 2 f_equal; lia.
    + rewrite Hcount. cbn [record request_count]. lia.
Qed.

(** X19. [get_popular_ids_api], when it returns, has asked for each of the
    pages 1 to [pages] once, in order, whatever they listed, counted each
    request, and it returns no id that is 0. *)
Theorem get_popular_ids_api_pages (pages : Z) (ids : list Z) (s s' : io)
    (m m' : metrics) :
  get_popular_ids_api w pages s m = Returned (ids, s', m') ->
  extends Direct (Z.to_nat pages) s s' /\
  Step1.pages_requested (log s') = Step1.pages_requested (log s) ++ seqZ 1 pages /\
  Forall (fun i => i <> 0) ids /\
  request_count m' = request_count m + Z.max 0 pages.
Proof.
  unfold get_popular_ids_api. intros Hget.
  apply popular_pages_spec in Hget as (Hext & Hpages & Hids & Hcount); [|constructor].
  split; [exact Hext|]. split; [|split; [exact Hids|lia]].
  rewrite Hpages. f_equal. destruct (Z_lt_le_dec pages 0).
  - rewrite !seqZ_nil by lia. reflexivity.
  - now rewrite Z2Nat.id by lia.
Qed.

Lemma listing_pages_spec (left : nat) (page : Z) (ids : list Z) (s : io) (m : metrics) :
  (forall t url e, http_get w t Direct url = Raised e -> e = RequestException) ->
  Forall (fun i => 0 < i) ids ->
  exists ids' s' m',
    listing_pages w left page ids s m = Returned (ids', s', m') /\
    extends Direct left s s' /\
    Forall (fun i => 0 < i) ids' /\
    request_count m <= request_count m' <= request_count m + Z.of_nat left.
Proof.
  intros Hexn. revert page ids s m. induction left as [|left IH]; intros page ids s m Hids;
    cbn [listing_pages].
  - eexists _, _, _. split; [reflexivity|]. split; [apply extends_refl|].
    split; [exact Hids|lia].
  - assert (H1 : extends Direct 1 s (emit (EvHttpGet Direct (Step3c.listing_url page)) s))
      by now apply extends_emit.
    assert (H2 : extends Direct 1 s
                   (note EvSleep (emit (EvHttpGet Direct (Step3c.listing_url page)) s))).
    { apply (extends_trans _ 1 0 _ _ _ H1). now apply extends_note. }
    destruct (http_get w (tick s) Direct (Step3c.listing_url page)) as [r|e] eqn:Hget.
    + destruct (r_ok r).
      * destruct (IH (page + 1)
                    (ids ++ omap (fun a => truthy_id (parse_id (elem_get a "href")))
                              (select (parse_html (r_payload r)) LINKS))
                    (note EvSleep (emit (EvHttpGet Direct (Step3c.listing_url page)) s))
                    (record m (r_latency r) (r_size r)))
          as (ids' & s' & m' & Heq & Hext & Hids' & Hcount).
        { apply Forall_app. split; [exact Hids|]. apply Forall_forall. intros i Hi.
          apply list_elem_of_omap in Hi as (a & _ & Ha).
          now apply parse_id_positive in Ha. }
        eexists _, _, _. split; [exact Heq|].
        split; [exact (extends_trans _ 1 left _ _ _ H2 Hext)|].
        split; [exact Hids'|]. cbn [record request_count] in Hcount. lia.
      * destruct (IH (page + 1) ids
                    (emit (EvHttpGet Direct (Step3c.listing_url page)) s)
                    (record m (r_latency r) (r_size r)) Hids)
          as (ids' & s' & m' & Heq & Hext & Hids' & Hcount).
        eexists _, _, _. split; [exact Heq|].
        split; [exact (extends_trans _ 1 left _ _ _ H1 Hext)|].
        split; [exact Hids'|]. cbn [record request_count] in Hcount. lia.
    + rewrite (Hexn _ _ _ Hget).
      destruct (IH (page + 1) ids
                  (note EvSleep (emit (EvHttpGet Direct (Step3c.listing_url page)) s))
                  m Hids)
        as (ids' & s' & m' & Heq & Hext & Hids' & Hcount).
      eexists _, _, _. split; [exact Heq|].
      split; [exact (extends_trans _ 1 left _ _ _ H2 Hext)|].
      split; [exact Hids'|]. lia.
Qed.

(** X20. While the session raises nothing but [RequestException],
    [collect_ids_from_listing] returns: it asks for each of the [pages]
    listing pages once, skips the pages that failed, and returns positive
    ids only; requests that raised are not counted. *)
Theorem collect_ids_from_listing_returns (pages : Z) (s : io) (m : metrics) :
  (forall t url e, http_get w t Direct url = Raised e -> e = RequestException) ->
  exists ids s' m',
    collect_ids_from_listing w pages s m = Returned (ids, s', m') /\
    extends Direct (Z.to_nat pages) s s' /\
    Forall (fun i => 0 < i) ids /\
    request_count m <= request_count m' <= request_count m + Z.max 0 pages.
Proof.
  intros Hexn. unfold collect_ids_from_listing.
  destruct (listing_pages_spec (Z.to_nat pages) 1 [] s m Hexn ltac:(constructor))
    as (ids & s' & m' & Heq & Hext & Hids & Hcount).
  exists ids, s', m'. split; [exact Heq|]. split; [exact Hext|].
  split; [exact Hids|lia].
Qed.

(** *** Navigation with retries *)

Lemma safe_get_from_mt_spec (url : string) (retries : Z) (left : nat) (attempt : Z)
    (s s' : io) (d d' : string) (ok : option bool) :
  left = 0%nat \/ Z.of_nat left = retries + 1 - attempt ->
  safe_get_from w left attempt url retries s d = (ok, s', d') ->
  exists n, extends Direct n s s' /\ (n <= left)%nat /\
    (forall j, (S j < n)%nat ->
       nav_raises (browse w (tick s + j) Direct url) <> None) /\
    match ok with
    | Some true =>
        exists k, n = S k /\
          nav_raises (browse w (tick s + k) Direct url) = None /\
          d' = nav_dom (browse w (tick s + k) Direct url)
    | Some false =>
        exists k, n = S k /\ n = left /\
          nav_raises (browse w (tick s + k) Direct url) <> None
    | None => left = 0%nat /\ n = 0%nat
    end.
Proof.
  revert attempt s d. induction left as [|left IH]; intros attempt s d Hinv;
    cbn [safe_get_from].
  - intros [= <- <- <-]. exists 0%nat. split; [apply extends_refl|].
    split; [lia|]. split; [intros j Hj; lia|]. split; reflexivity.
  - destruct Hinv as [Hinv|Hinv]; [discriminate|].
    assert (H1 : extends Direct 1 s (emit (EvNavigate Direct url) s))
      by now apply extends_emit.
    destruct (nav_raises (browse w (tick s) Direct url)) as [e|] eqn:Hnv.
    2:{ intros [= <- <- <-]. exists 1%nat. split; [exact H1|]. split; [lia|].
        split; [intros j Hj; lia|]. exists 0%nat. rewrite Nat.add_0_r.
        split; [reflexivity|]. split; [exact Hnv|reflexivity]. }
    destruct (Z.eqb_spec attempt retries) as [Heq|Hne].
    + intros [= <- <- <-]. exists 1%nat. split; [exact H1|]. split; [lia|].
      split; [intros j Hj; lia|]. exists 0%nat. rewrite Nat.add_0_r.
      split; [reflexivity|]. split; [lia|]. now rewrite Hnv.
    + intros Hrec. apply IH in Hrec as (n & Hext & Hn & Hbefore & Hres); [|right; lia].
      cbn [tick note emit] in Hbefore, Hres.
      exists (S n). split; [|split; [lia|split]].
      * apply (extends_trans _ 1 n _ _ _ H1).
        eapply (extends_trans _ 0 n); [|exact Hext]. now apply extends_note.
      * intros [|j] Hj.
        -- rewrite Nat.add_0_r, Hnv. discriminate.
        -- replace (tick s + S j)%nat with (S (tick s) + j)%nat by lia.
           apply Hbefore. lia.
      * destruct ok as [[]|].
        -- destruct Hres as (k & -> & Hk & Hd). exists (S k).
           replace (tick s + S k)%nat with (S (tick s) + k)%nat by lia. auto.
        -- destruct Hres as (k & -> & Hl & Hk). exists (S k).
           replace (tick s + S k)%nat with (S (tick s) + k)%nat by lia.
           split; [reflexivity|]. split; [lia|exact Hk].
        -- lia.
Qed.

(** X21. step3b's [safe_get] navigates until a navigation does not raise,
    at most [retries + 1] times; a timeout is retried like any other
    exception.  It returns [True] with the document of the navigation that
    succeeded, [False] after [retries + 1] navigations that all raised, and
    [None] without navigating when [retries] is negative. *)
Theorem safe_get_mt_retries (url : string) (retries : Z) (s s' : io)
    (d d' : string) (ok : option bool) :
  safe_get w url retries s d = (ok, s', d') ->
  exists n, extends Direct n s s' /\ Z.of_nat n <= Z.max 0 (retries + 1) /\
    (forall j, (S j < n)%nat ->
       nav_raises (browse w (tick s + j) Direct url) <> None) /\
    match ok with
    | Some true =>
        exists k, n = S k /\
          nav_raises (browse w (tick s + k) Direct url) = None /\
          d' = nav_dom (browse w (tick s + k) Direct url)
    | Some false =>
        exists k, n = S k /\ Z.of_nat n = retries + 1 /\
          nav_raises (browse w (tick s + k) Direct url) <> None
    | None => retries < 0 /\ n = 0%nat
    end.
Proof.
  unfold safe_get. intros Hget.
  apply safe_get_from_mt_spec in Hget as (n & Hext & Hn & Hbefore & Hres).
  2:{ destruct (Z_lt_le_dec retries 0); [left|right]; lia. }
  exists n. split; [exact Hext|]. split; [lia|]. split; [exact Hbefore|].
  destruct ok as [[]|].
  - exact Hres.
  - destruct Hres as (k & -> & Hl & Hk). exists k. split; [reflexivity|].
    split; [lia|exact Hk].
  - split; lia.
Qed.

Lemma safe_get_mt_extends (url : string) (retries : Z) (s s' : io)
    (d d' : string) (ok : option bool) :
  safe_get w url retries s d = (ok, s', d') -> exists n, extends Direct n s s'.
Proof.
  unfold safe_get. intros Hget.
  apply safe_get_from_mt_spec in Hget as (n & Hext & _); [eauto|].
  destruct (Z_lt_le_dec retries 0); [left|right]; lia.
Qed.

(** *** The browser variant with detail pages *)

Lemma safe_get_mt_counted (url : string) (retries : Z) (s s' : io)
    (d d' : string) (ok : option bool) :
  safe_get w url retries s d = (ok, s', d') ->
  exists n, extends Direct n s s' /\ (ok = Some true -> (1 <= n)%nat).
Proof.
  unfold safe_get. intros Hget.
  apply safe_get_from_mt_spec in Hget as (n & Hext & _ & _ & Hres).
  2:{ destruct (Z_lt_le_dec retries 0); [left|right]; lia. }
  exists n. split; [exact Hext|]. intros ->. destruct Hres as (k & -> & _). lia.
Qed.

Lemma gather_spec (cards : list elem) (visited visited' : gset Z)
    (acc urls : list (Z * string)) :
  gather urljoin cards visited acc = (visited', urls) ->
  NoDup acc.*1 -> (forall i, i ∈ acc.*1 -> i ∈ visited) ->
  exists new,
    urls = acc ++ new /\ NoDup urls.*1 /\ visited ⊆ visited' /\
    Forall (fun i => 0 < i /\ (i ∉ visited) /\ (i ∈ visited')) new.*1.
Proof.
  revert visited acc. induction cards as [|c rest IH]; intros visited acc;
    cbn [gather].
  - intros [= <- <-] Hnd Hin. exists []. rewrite app_nil_r.
    split; [reflexivity|]. split; [exact Hnd|]. split; [reflexivity|constructor].
  - destruct (select_one c "h2 a[href^='/movie/']") as [a|]; [|apply IH].
    destruct (truthy_id (parse_id (elem_get a "href"))) as [i|] eqn:Hid; [|apply IH].
    destruct (bool_decide_reflect (i ∈ visited)) as [Hv|Hv]; [apply IH|].
    intros Hg Hnd Hin. apply IH in Hg as (new & -> & Hnd' & Hsub & Hnew).
    + exists ((i, urljoin BASE_URL (elem_get a "href")) :: new).
      rewrite <- app_assoc. cbn [app].
      split; [reflexivity|]. split; [now rewrite <- app_assoc in Hnd'|].
      rewrite elem_of_subseteq in Hsub.
      split; [apply elem_of_subseteq; intros j Hj; apply Hsub, elem_of_union_r, Hj|].
      cbn [fmap list_fmap fst].
      constructor.
      * split; [now apply parse_id_positive in Hid|]. split; [exact Hv|].
        apply Hsub, elem_of_union_l, elem_of_singleton. reflexivity.
      * eapply Forall_impl; [exact Hnew|]. cbn. intros j (Hj & Hnv & Hv').
        split; [exact Hj|]. split; [|exact Hv'].
        intros Hjv. apply Hnv, elem_of_union_r, Hjv.
    + rewrite fmap_app. apply NoDup_app. split; [exact Hnd|].
      split; [|apply NoDup_singleton].
      intros j Hj Hj'. cbn in Hj'. apply list_elem_of_singleton in Hj'. subst j.
      apply Hv, Hin, Hj.
    + intros j Hj. rewrite fmap_app in Hj. apply elem_of_app in Hj as [Hj|Hj].
      * apply elem_of_union_r, Hin, Hj.
      * cbn in Hj. apply list_elem_of_singleton in Hj. subst j.
        apply elem_of_union_l, elem_of_singleton. reflexivity.
Qed.

Lemma visit_spec (max_movies : Z) (urls : list (Z * string)) (st : state) :
  exists new js n,
    st_rows (visit float_of_str w elapsed max_movies urls st) = st_rows st ++ new /\
    tmdb_id <$> new = Some <$> js /\ js `sublist_of` urls.*1 /\
    Forall (fun r => method r = "Selenium_MP") new /\
    st_visited (visit float_of_str w elapsed max_movies urls st) = st_visited st /\
    Z.of_nat (length (st_rows st ++ new))
    <= Z.max (Z.of_nat (length (st_rows st))) max_movies /\
    extends Direct n (st_io st) (st_io (visit float_of_str w elapsed max_movies urls st)) /\
    request_count (st_metrics st)
    <= request_count (st_metrics (visit float_of_str w elapsed max_movies urls st))
    <= request_count (st_metrics st) + Z.of_nat n.
Proof.
  revert st. induction urls as [|[i mu] rest IH]; intros st; cbn [visit].
  - exists [], [], 0%nat. rewrite app_nil_r.
    split; [reflexivity|]. split; [reflexivity|]. split; [constructor|].
    split; [constructor|]. split; [reflexivity|]. split; [lia|].
    split; [apply extends_refl|lia].
  - destruct (Z.leb_spec max_movies (Z.of_nat (length (st_rows st)))) as [Hge|Hlt].
    { exists [], [], 0%nat. rewrite app_nil_r.
      split; [reflexivity|]. split; [reflexivity|]. split; [apply sublist_nil_l|].
      split; [constructor|]. split; [reflexivity|]. split; [lia|].
      split; [apply extends_refl|lia]. }
    destruct (safe_get w mu 2 (st_io st) (st_page_source st)) as [[ok s1] page1] eqn:Hget.
    apply safe_get_mt_counted in Hget as (n1 & Hext1 & Hpos).
    assert (Hskip : exists new js n,
      st_rows (visit float_of_str w elapsed max_movies rest
                 (mkState s1 page1 (st_metrics st) (st_rows st) (st_visited st)))
      = st_rows st ++ new /\
      tmdb_id <$> new = Some <$> js /\ js `sublist_of` (i :: rest.*1) /\
      Forall (fun r => method r = "Selenium_MP") new /\
      st_visited (visit float_of_str w elapsed max_movies rest
                    (mkState s1 page1 (st_metrics st) (st_rows st) (st_visited st)))
      = st_visited st /\
      Z.of_nat (length (st_rows st ++ new))
      <= Z.max (Z.of_nat (length (st_rows st))) max_movies /\
      extends Direct n (st_io st)
        (st_io (visit float_of_str w elapsed max_movies rest
                  (mkState s1 page1 (st_metrics st) (st_rows st) (st_visited st)))) /\
      request_count (st_metrics st)
      <= request_count (st_metrics
           (visit float_of_str w elapsed max_movies rest
              (mkState s1 page1 (st_metrics st) (st_rows st) (st_visited st))))
      <= request_count (st_metrics st) + Z.of_nat n).
    { destruct (IH (mkState s1 page1 (st_metrics st) (st_rows st) (st_visited st)))
        as (new & js & n & Hrows & Hids & Hsub & Htag & Hvis & Hlen & Hext & Hcount).
      cbn [st_rows st_io st_metrics st_visited] in Hrows, Hvis, Hlen, Hext, Hcount.
      exists new, js, (n1 + n)%nat. split; [exact Hrows|]. split; [exact Hids|].
      split; [now apply sublist_cons|]. split; [exact Htag|]. split; [exact Hvis|].
      split; [exact Hlen|]. split; [exact (extends_trans _ _ _ _ _ _ Hext1 Hext)|lia]. }
    cbn [fmap list_fmap fst]. destruct ok as [[]|]; [|exact Hskip|exact Hskip].
    specialize (Hpos eq_refl).
    destruct (IH (mkState (note EvSleep s1) page1
                    (record (st_metrics st) (elapsed (st_io st) s1)
                       (Z.of_nat (String.length page1)))
                    (st_rows st ++ [detail_row float_of_str i mu (parse_html page1)])
                    (st_visited st)))
      as (new & js & n & Hrows & Hids & Hsub & Htag & Hvis & Hlen & Hext & Hcount).
    cbn [st_rows st_io st_metrics st_visited record request_count]
      in Hrows, Hvis, Hlen, Hext, Hcount.
    eexists (_ :: new), (i :: js), (n1 + (0 + n))%nat.
    rewrite Hrows, <- app_assoc. cbn [app].
    split; [reflexivity|]. split; [cbn [fmap list_fmap]; now rewrite Hids|].
    split; [now apply sublist_skip|]. split; [now constructor|].
    split; [exact Hvis|]. split.
    + rewrite <- app_assoc in Hlen. cbn [app] in Hlen.
      rewrite !length_app in Hlen. rewrite !length_app. cbn [length] in Hlen |- *. lia.
    + split; [|lia].
      apply (extends_trans _ n1 (0 + n) _ _ _ Hext1).
      eapply (extends_trans _ 0 n); [|exact Hext]. now apply extends_note.
Qed.

Lemma detail_rows_ok_app (rows new : list row) (visited visited' : gset Z)
    (js urls_ids : list Z) :
  detail_rows_ok rows visited ->
  tmdb_id <$> new = Some <$> js -> js `sublist_of` urls_ids -> NoDup urls_ids ->
  Forall (fun i => 0 < i /\ (i ∉ visited) /\ (i ∈ visited')) urls_ids ->
  visited ⊆ visited' ->
  Forall (fun r => method r = "Selenium_MP") new ->
  detail_rows_ok (rows ++ new) visited'.
Proof.
  intros (js0 & Hids0 & Hnd0 & Hjs0 & Htag0) Hids Hsub Hnd Hfresh Hvis Htag.
  exists (js0 ++ js). rewrite !fmap_app, Hids0, Hids.
  split; [reflexivity|]. rewrite Forall_forall in Hjs0, Hfresh.
  assert (Hin : forall j, j ∈ js -> 0 < j /\ (j ∉ visited) /\ (j ∈ visited')).
  { intros j Hj. apply Hfresh. eapply elem_of_sublist; eassumption. }
  split; [|split].
  - apply NoDup_app. split; [exact Hnd0|]. split; [|eapply sublist_NoDup; eassumption].
    intros j Hj0 Hj. apply Hin in Hj as (_ & Hnv & _). apply Hnv, Hjs0, Hj0.
  - apply Forall_app. split; apply Forall_forall; intros j Hj.
    + destruct (Hjs0 j Hj) as [Hpos Hv]. split; [exact Hpos|].
      now apply (proj1 (elem_of_subseteq visited visited') Hvis).
    + destruct (Hin j Hj) as (Hpos & _ & Hv). auto.
  - apply Forall_app. now split.
Qed.

Lemma detail_loop_spec (fuel : nat) (max_movies : Z) (page : Z) (st st' : state) :
  detail_loop float_of_str w urljoin elapsed fuel max_movies page st = Some st' ->
  detail_rows_ok (st_rows st) (st_visited st) ->
  detail_rows_ok (st_rows st') (st_visited st') /\
  Z.of_nat (length (st_rows st'))
  <= Z.max (Z.of_nat (length (st_rows st))) max_movies /\
  exists n, extends Direct n (st_io st) (st_io st') /\
    request_count (st_metrics st) <= request_count (st_metrics st')
    <= request_count (st_metrics st) + Z.of_nat n.
Proof.
  revert page st. induction fuel as [|fuel IH]; intros page st;
    cbn [detail_loop]; [discriminate|].
  destruct (Z.ltb_spec (Z.of_nat (length (st_rows st))) max_movies) as [Hlt|Hge].
  2:{ intros [= <-] Hok. split; [exact Hok|]. split; [lia|].
      exists 0%nat. split; [apply extends_refl|lia]. }
  destruct (safe_get w (Step3c.listing_url page) 2 (st_io st) (st_page_source st))
    as [[ok s1] page1] eqn:Hget.
  apply safe_get_mt_counted in Hget as (n1 & Hext1 & Hpos).
  assert (Hbreak : forall m1,
    request_count (st_metrics st) <= request_count m1
    <= request_count (st_metrics st) + Z.of_nat n1 ->
    Some (mkState s1 page1 m1 (st_rows st) (st_visited st)) = Some st' ->
    detail_rows_ok (st_rows st) (st_visited st) ->
    detail_rows_ok (st_rows st') (st_visited st') /\
    Z.of_nat (length (st_rows st'))
    <= Z.max (Z.of_nat (length (st_rows st))) max_movies /\
    exists n, extends Direct n (st_io st) (st_io st') /\
      request_count (st_metrics st) <= request_count (st_metrics st')
      <= request_count (st_metrics st) + Z.of_nat n).
  { intros m1 Hm1 [= <-] Hok. cbn [st_rows st_visited st_io st_metrics].
    split; [exact Hok|]. split; [lia|]. exists n1. split; [exact Hext1|exact Hm1]. }
  destruct ok as [[]|]; [|apply Hbreak; lia|apply Hbreak; lia].
  specialize (Hpos eq_refl).
  destruct (select (parse_html page1) CARDS) as [|c cards] eqn:Hcards.
  { apply Hbreak. cbn [record request_count]. lia. }
  destruct (gather urljoin (c :: cards) (st_visited st) []) as [visited urls] eqn:Hg.
  apply gather_spec in Hg as (new_urls & Heq & Hnd & Hsub & Hfresh);
    [|constructor|intros i Hi; now apply elem_of_nil in Hi].
  cbn [app] in Heq. subst new_urls.
  destruct (visit_spec max_movies urls
              (mkState s1 page1
                 (record (st_metrics st) (elapsed (st_io st) s1)
                    (Z.of_nat (String.length page1)))
                 (st_rows st) visited))
    as (new & js & n2 & Hrows & Hids & Hjs & Htag & Hvis & Hlen & Hext2 & Hcount2).
  cbn [st_rows st_io st_metrics st_visited record request_count]
    in Hrows, Hvis, Hlen, Hext2, Hcount2.
  intros Hloop Hok. apply IH in Hloop as (Hok' & Hle & n & Hext & Hcount).
  2:{ cbn [st_rows st_visited]. rewrite Hrows, Hvis.
      eapply detail_rows_ok_app; eassumption. }
  cbn [st_rows st_io st_metrics] in Hle, Hext, Hcount.
  rewrite Hrows in Hle.
  split; [exact Hok'|]. split; [lia|].
  exists (n1 + (n2 + (0 + n)))%nat. split; [|lia].
  apply (extends_trans _ n1 _ _ _ _ Hext1).
  apply (extends_trans _ n2 _ _ _ _ Hext2).
  eapply (extends_trans _ 0 n); [|exact Hext]. now apply extends_note.
Qed.

(** X22. Whenever [scrape_selenium_detail] returns: at most [max_movies]
    rows, all tagged ["Selenium_MP"], with positive ids and no id twice
    (an id is visited once over the whole run); every navigation direct,
    and a request counter not above their number. *)
Theorem scrape_selenium_detail_returned (fuel : nat) (max_movies : Z)
    (s s' : io) (rows : list row) (msum : summary_dict) :
  scrape_selenium_detail float_of_str w urljoin elapsed fuel max_movies s
  = Some (Returned (rows, msum, s')) ->
  Z.of_nat (length rows) <= Z.max 0 max_movies /\
  NoDup (tmdb_id <$> rows) /\
  Forall (fun r => method r = "Selenium_MP" /\ exists i, tmdb_id r = Some i /\ 0 < i) rows /\
  exists n, extends Direct n s s' /\ 0 <= requests msum <= Z.of_nat n.
Proof.
  unfold scrape_selenium_detail.
  destruct (detail_loop _ _ _ _ _ _ _ _) as [st|] eqn:Hloop; [|discriminate].
  destruct (summary_mt (st_metrics st)) as [ms|e] eqn:Hsum; [|discriminate].
  intros [= <- <- <-].
  apply detail_loop_spec in Hloop as (Hok & Hle & n & Hext & Hcount).
  2:{ exists []. repeat split; constructor. }
  cbn [st_rows st_io st_metrics init request_count length] in Hle, Hext, Hcount.
  destruct Hok as (js & Hids & Hnd & Hjs & Htag).
  pose proof (py_prefix_sublist max_movies (st_rows st)) as Hsub.
  split; [|split; [|split]].
  - pose proof (sublist_length _ _ Hsub). lia.
  - eapply sublist_NoDup; [|apply fmap_sublist, Hsub].
    rewrite Hids. now apply (NoDup_fmap_2 _).
  - apply Forall_forall. intros r Hr.
    assert (Hr' : r ∈ st_rows st) by (eapply elem_of_sublist; eassumption).
    rewrite Forall_forall in Htag. rewrite Forall_forall in Hjs.
    split; [now apply Htag|].
    assert (Hid : tmdb_id r ∈ Some <$> js)
      by (rewrite <- Hids; now apply list_elem_of_fmap_2).
    apply list_elem_of_fmap in Hid as (j & Hj & Hin). exists j.
    split; [exact Hj|]. now apply Hjs.
  - exists n. split; [exact Hext|]. rewrite (summary_mt_requests _ _ Hsum). lia.
Qed.
End Step3bRuns.



(** Three pages of the listing endpoint with two entries each. *)
Lemma get_popular_ids_api_pages_witness :
  exists ids s' m',
    Step3b.get_popular_ids_api Sites.site_two_per_page 3 io0 Metrics.init
    = Returned (ids, s', m') /\
    ids = [949; 238; 949; 238; 949; 238] /\
    Step1.pages_requested (log s') = [1; 2; 3] /\
    Metrics.request_count m' = 3.
Proof.
  eexists _, _, _. split; [vm_compute; reflexivity|]. split; [reflexivity|].
  refine (let H := get_popular_ids_api_pages Sites.site_two_per_page 3
                     _ io0 _ Metrics.init _ _ in
          conj (proj1 (proj2 H)) (proj2 (proj2 (proj2 H)))).
  vm_compute. reflexivity.
Defined.

(** Six listing pages of a site that is down: six requests, no id. *)
Lemma collect_ids_from_listing_returns_witness :
  exists ids s' m',
    Step3b.collect_ids_from_listing Sites.site_down 6 io0 Metrics.init
    = Returned (ids, s', m') /\
    Trace.extends Direct 6 io0 s' /\
    Forall (fun i => 0 < i) ids /\
    0 <= Metrics.request_count m' <= 6.
Proof.
  apply (collect_ids_from_listing_returns Sites.site_down 6 io0 Metrics.init).
  intros t url e [= <-]. reflexivity.
Defined.

(** A browser whose first navigation fails and whose second times out:
    step3b's [safe_get] goes on to a third navigation. *)
Lemma safe_get_mt_retries_witness :
  exists s' d' n,
    Step3b.safe_get Site.site_slow "https://www.themoviedb.org/movie/949" 2 io0 ""
    = (Some false, s', d') /\
    Trace.extends Direct n io0 s' /\ Z.of_nat n = 2 + 1.
Proof.
  destruct (Step3b.safe_get Site.site_slow "https://www.themoviedb.org/movie/949" 2
              io0 "") as [[ok s1] d1] eqn:Hnav.
  destruct (safe_get_mt_retries Site.site_slow "https://www.themoviedb.org/movie/949"
              2 io0 s1 "" d1 ok Hnav) as (n & Hext & _ & _ & Hres).
  vm_compute in Hnav. injection Hnav as <- <- <-.
  destruct Hres as (k & _ & Hn & _).
  eexists _, _, n. split; [reflexivity|]. split; [exact Hext|exact Hn].
Defined.

(** step3b's browser variant against the sample site, for a target of 2. *)
Lemma scrape_selenium_detail_returned_witness :
  exists rows msum s',
    Step3b.scrape_selenium_detail Normalizer.digits_to_float Site.site_no_tor
      Sites.join_url Sites.elapsed_half_second 10 2 io0
    = Some (Returned (rows, msum, s')) /\
    tmdb_id <$> rows = [Some 949; Some 238] /\
    NoDup (tmdb_id <$> rows) /\
    exists n, Trace.extends Direct n io0 s' /\ 0 <= Metrics.requests msum <= Z.of_nat n.
Proof.
  eexists _, _, _. split; [vm_compute; reflexivity|]. split; [reflexivity|].
  refine (let H := scrape_selenium_detail_returned Normalizer.digits_to_float
                     Site.site_no_tor Sites.join_url Sites.elapsed_half_second
                     10 2 io0 _ _ _ _ in
          conj (proj1 (proj2 H)) (proj2 (proj2 (proj2 H)))).
  vm_compute. reflexivity.
Defined.

(** ** Completeness and size of the join *)

Section JoinCount.
Import Count.

(** X23. On inputs whose ids are all present and fit 64 bits, every id
    that occurs in all three inputs is in the join: for rows of the three
    inputs with one id, the API row is written. *)
Theorem build_common_by_id_complete (api bs4 sel : list row) (a b s : row) (i : Z) :
  int64_ids api -> int64_ids bs4 -> int64_ids sel ->
  a ∈ api -> b ∈ bs4 -> s ∈ sel ->
  tmdb_id a = Some i -> tmdb_id b = Some i -> tmdb_id s = Some i ->
  tidy_of a ∈ build_common_by_id api bs4 sel.
Proof.
  intros _ _ _ Ha Hb Hs Hai Hbi Hsi.
  assert (Hab : tmdb_id a = tmdb_id b) by congruence.
  assert (Has : tmdb_id a = tmdb_id s) by congruence.
  unfold build_common_by_id.
  destruct api as [|a0 api]; [now apply elem_of_nil in Ha|].
  destruct bs4 as [|b0 bs4]; [now apply elem_of_nil in Hb|].
  destruct sel as [|s0 sel]; [now apply elem_of_nil in Hs|].
  apply (list_elem_of_fmap_2 (fun abs : row * row * row => tidy_of (fst (fst abs)))
           _ (a, b, s)).
  apply elem_of_merge_on_id. split; [|split; [exact Hs|exact Has]].
  apply elem_of_merge_on_id. auto.
Qed.

Lemma merge_on_id_app_l {A B : Type} (kl : A -> option Z) (kr : B -> option Z)
    (l1 l2 : list A) (right : list B) :
  merge_on_id kl kr (l1 ++ l2) right
  = merge_on_id kl kr l1 right ++ merge_on_id kl kr l2 right.
Proof. unfold merge_on_id. apply bind_app. Qed.

Lemma merge_pairs_length (a : row) (bs sel : list row) :
  length (merge_on_id (fun ab : row * row => tmdb_id (fst ab)) tmdb_id
            ((fun b => (a, b)) <$> bs) sel)
  = (length bs * count_id (tmdb_id a) sel)%nat.
Proof.
  induction bs as [|b bs IH]; [reflexivity|].
  cbn [fmap list_fmap]. rewrite merge_on_id_cons_l, length_app, length_fmap, IH.
  cbn [fst length]. unfold count_id. lia.
Qed.

Lemma sum_list_with_zero {A : Type} (f : A -> nat) (l : list A) :
  (forall x, f x = 0%nat) -> sum_list_with f l = 0%nat.
Proof.
  intros Hf. induction l as [|x l IH]; [reflexivity|].
  cbn [sum_list_with]. now rewrite Hf, IH.
Qed.

Lemma merge_twice_length (api bs4 sel : list row) :
  length (merge_on_id (fun ab : row * row => tmdb_id (fst ab)) tmdb_id
            (merge_on_id tmdb_id tmdb_id api bs4) sel)
  = sum_list_with
      (fun a => (count_id (tmdb_id a) bs4 * count_id (tmdb_id a) sel)%nat) api.
Proof.
  induction api as [|a api IH]; [reflexivity|].
  rewrite merge_on_id_cons_l, merge_on_id_app_l, length_app, IH, merge_pairs_length.
  reflexivity.
Qed.

(** X24. On inputs whose ids are all present and fit 64 bits, the
    number of rows of the join: for each API row, the number of BS4 rows
    with its id times the number of Selenium rows with its id. *)
Theorem common_count_formula (api bs4 sel : list row) :
  int64_ids api -> int64_ids bs4 -> int64_ids sel ->
  common_count api bs4 sel
  = sum_list_with
      (fun a => (count_id (tmdb_id a) bs4 * count_id (tmdb_id a) sel)%nat) api.
Proof.
  intros _ _ _. unfold common_count, build_common_by_id.
  destruct api as [|a0 api]; [reflexivity|].
  destruct bs4 as [|b0 bs4].
  { symmetry. apply sum_list_with_zero. intros x. reflexivity. }
  destruct sel as [|s0 sel].
  { symmetry. apply sum_list_with_zero. intros x. unfold count_id at 2.
    cbn. lia. }
  rewrite length_map. apply merge_twice_length.
Qed.
End JoinCount.

(** One API row of id 1 against two BS4 rows and two Selenium rows of
    that id: four rows. *)
Lemma common_count_formula_witness :
  Step1.common_count [Site.sample_row 1 "Heat" "API"]
    [Site.sample_row 1 "Heat" "BS4"; Site.sample_row 1 "Heat" "BS4"]
    [Site.sample_row 1 "Heat" "Selenium"; Site.sample_row 1 "Heat" "Selenium"]
  = 4%nat.
Proof.
  rewrite (common_count_formula [Site.sample_row 1 "Heat" "API"]
    [Site.sample_row 1 "Heat" "BS4"; Site.sample_row 1 "Heat" "BS4"]
    [Site.sample_row 1 "Heat" "Selenium"; Site.sample_row 1 "Heat" "Selenium"]);
    reflexivity.
Defined.

(** The inputs with ids 1,2,3 and 2,3,4 and 3,4,5: the row of id 3 is in
    the join. *)
Lemma build_common_by_id_complete_witness :
  Step1.tidy_of (Site.sample_row 3 "Movie 3" "API")
  ∈ Step1.build_common_by_id Site.api_123 Site.bs4_234 Site.sel_345.
Proof.
  apply (build_common_by_id_complete Site.api_123 Site.bs4_234 Site.sel_345
           (Site.sample_row 3 "Movie 3" "API") (Site.sample_row 3 "Movie 3" "BS4")
           (Site.sample_row 3 "Movie 3" "Selenium") 3);
    try reflexivity; repeat constructor.
Defined.

(** ** Loops that do not end, and one that does *)

Section EndlessLoops.
Import Trace Metrics.
Context `{Html}.
Variable float_of_str : string -> option float.
Variable to_datetime : pyval -> option timestamp.
Variable w : world.
Variable cfg : config.

(** X25. Once the listing endpoint has nothing more to list while the
    target is not reached, the loop of step3c's [scrape_api] asks for page
    after page and never ends, on any site: no amount of fuel gives a
    result. *)
Theorem scrape_api_spins_when_exhausted (fuel : nat) (max_movies : Z)
    (proxies : bool) (gm : gmap Z string) (s : api_state) :
  a_got s < max_movies ->
  (forall t p, a_page s <= p ->
     exists r, api_popular w t (route_of proxies) p = Returned r /\
               (if r_ok r then r_payload r else []) = []) ->
  scrape_api_loop float_of_str to_datetime w fuel max_movies proxies gm s = None.
Proof.
  revert s. induction fuel as [|fuel IH]; intros s Hgot Hempty; [reflexivity|].
  cbn [scrape_api_loop].
  replace (a_got s <? max_movies) with true by (symmetry; apply Z.ltb_lt; exact Hgot).
  destruct (Hempty (tick (a_io s)) (a_page s) ltac:(lia)) as (r & -> & ->).
  cbn [take_results]. apply IH; cbn [a_got a_page]; [exact Hgot|].
  intros t p Hp. apply Hempty. lia.
Qed.

Lemma get_ids_from_listing_spins (fuel : nat) (max_ids : Z) (via : route) (page : Z)
    (ids : list Z) (s : io) (m : metrics) :
  Z.of_nat (length ids) < max_ids ->
  (forall t p, exists r,
     http_get w t via (listing_url p) = Returned r /\ r_ok r = true /\
     select (parse_html (r_payload r)) CARDS = []) ->
  get_ids_from_listing w fuel max_ids via page ids s m = None.
Proof.
  intros Hlen Hpages. revert page s m.
  induction fuel as [|fuel IH]; intros page s m; [reflexivity|].
  cbn [get_ids_from_listing].
  replace (Z.of_nat (length ids) <? max_ids) with true
    by (symmetry; apply Z.ltb_lt; exact Hlen).
  destruct (Hpages (tick s) page) as (r & -> & -> & ->).
  cbn [collect_cards]. apply IH.
Qed.

Lemma safe_get_from_ok (via : route) (url : string) (timeout retries : Z)
    (left : nat) (attempt : Z) (s : io) (d : driver) :
  nav_raises (browse w (tick s) via url) = None ->
  safe_get_from w (S left) attempt via url timeout retries s d
  = ((true, ModeOk, None),
     emit (EvNavigate via url) (note (EvSetPageLoadTimeout timeout) s),
     mkDriver (nav_dom (browse w (tick s) via url))
              (nav_read_latency (browse w (tick s) via url))).
Proof. intros Hnv. cbn [safe_get_from note tick]. now rewrite Hnv. Qed.

Lemma sel_listing_spins (fuel : nat) (max_movies : Z) (via : route) (page : Z)
    (ids : list Z) (st : sel_state) :
  0 <= SEL_RETRIES cfg ->
  Z.of_nat (length ids) < max_movies ->
  (forall t, page_source_raises w t = None) ->
  (forall t p,
     nav_raises (browse w t via (listing_url p)) = None /\
     select (parse_html (nav_dom (browse w t via (listing_url p)))) CARDS = []) ->
  sel_listing w cfg fuel max_movies via page ids st = None.
Proof.
  intros Hretries Hlen Hread Hpages. revert page st.
  induction fuel as [|fuel IH]; intros page st; [reflexivity|].
  cbn [sel_listing].
  replace (Z.of_nat (length ids) <? max_movies) with true
    by (symmetry; apply Z.ltb_lt; exact Hlen).
  destruct (Hpages (tick (s_io st)) page) as [Hnv Hcards].
  unfold safe_get.
  destruct (Z.to_nat (SEL_RETRIES cfg + 1)) as [|left] eqn:Hleft; [lia|].
  rewrite safe_get_from_ok by exact Hnv. unfold read_page_source. rewrite Hread.
  cbn [nav_failed fst snd negb andb page_source]. rewrite Hcards.
  cbn [sel_collect_cards]. apply IH.
Qed.

(** X26. On a site that serves its listing pages without any card on
    them, the two HTML variants of step3c never return for a target of at
    least 1: [scrape_bs4] asks for listing page after listing page, and so
    does [scrape_selenium] (with a retry budget that is not negative and a
    browser whose [page_source] can be read). *)
Theorem html_variants_spin_without_cards (fuel : nat) (max_movies : Z)
    (proxies : bool) (s : io) (d : driver) :
  0 < max_movies ->
  ((forall t p, exists r,
      http_get w t (route_of proxies) (listing_url p) = Returned r /\ r_ok r = true /\
      select (parse_html (r_payload r)) CARDS = []) ->
   scrape_bs4 float_of_str w fuel max_movies proxies s = None) /\
  (0 <= SEL_RETRIES cfg ->
   (forall t, page_source_raises w t = None) ->
   (forall t p,
      nav_raises (browse w t (route_of proxies) (listing_url p)) = None /\
      select (parse_html (nav_dom (browse w t (route_of proxies) (listing_url p))))
        CARDS = []) ->
   scrape_selenium float_of_str w cfg fuel max_movies proxies s d = None).
Proof.
  intros Hmax. split.
  - intros Hpages. unfold scrape_bs4.
    rewrite get_ids_from_listing_spins; [reflexivity| |exact Hpages].
    cbn [length]. lia.
  - intros Hretries Hread Hpages. unfold scrape_selenium.
    rewrite sel_listing_spins; [reflexivity|exact Hretries| |exact Hread|exact Hpages].
    cbn [length]. lia.
Qed.
End EndlessLoops.

(** The listing endpoint that lists nothing, for a target of 1. *)
Lemma scrape_api_spins_when_exhausted_witness :
  Step3c.scrape_api_loop Normalizer.digits_to_float Normalizer.iso_to_datetime
    Site.site_empty 100 1 true ∅ (Step3c.mkApiState io0 Metrics.init [] 1 0) = None.
Proof.
  apply (scrape_api_spins_when_exhausted Normalizer.digits_to_float
           Normalizer.iso_to_datetime Site.site_empty 100 1 true ∅
           (Step3c.mkApiState io0 Metrics.init [] 1 0)).
  - reflexivity.
  - intros t p _. eexists. split; reflexivity.
Defined.

(** The site without cards, for a target of 1. *)
Lemma html_variants_spin_without_cards_witness :
  Step3c.scrape_bs4 Normalizer.digits_to_float Sites.site_no_cards 100 1 false io0
  = None /\
  Step3c.scrape_selenium Normalizer.digits_to_float Sites.site_no_cards Site.cfg0
    100 1 false io0 Step3c.blank = None.
Proof.
  destruct (html_variants_spin_without_cards Normalizer.digits_to_float
              Sites.site_no_cards Site.cfg0 100 1 false io0 Step3c.blank
              ltac:(reflexivity)) as [Hb Hs].
  split.
  - apply Hb. intros t p. eexists. repeat split.
  - apply Hs; [discriminate|reflexivity|]. intros t p. split; reflexivity.
Defined.

Section Step1HtmlTermination.
Import Trace Metrics Step1Html.
Context `{Html}.
Variable float_of_str : string -> option float.
Variable w : world.
Variable urljoin : string -> option string -> string.

Lemma scrape_bs4_loop_ends (fuel : nat) (max_movies : Z) (page : Z) (st : state) :
  (forall t p resp,
     http_get w t Direct (Step3c.listing_url p) = Returned resp ->
     select (parse_html (r_payload resp)) CARDS = [] \/
     anchored (select (parse_html (r_payload resp)) CARDS) <> []) ->
  (Z.to_nat (max_movies - Z.of_nat (length (st_movies st))) < fuel)%nat ->
  exists r, scrape_bs4_loop float_of_str w urljoin fuel max_movies page st = Some r.
Proof.
  intros Hlinks. revert page st.
  induction fuel as [|fuel IH]; intros page st Hfuel; [lia|].
  cbn [scrape_bs4_loop].
  destruct (Z.ltb_spec (Z.of_nat (length (st_movies st))) max_movies) as [Hlt|Hge];
    [|eauto].
  destruct (http_get w (tick (st_io st)) Direct (listing_url page)) as [resp|e] eqn:Hget;
    [|eauto].
  destruct (Hlinks _ _ _ Hget) as [Hnil|Hanch].
  { rewrite Hnil. eauto. }
  destruct (select (parse_html (r_payload resp)) CARDS) as [|c cards] eqn:Hcards;
    [eauto|].
  apply IH.
  destruct (bs4_cards_rows float_of_str w urljoin max_movies (c :: cards)
              (mkState (emit (EvHttpGet Direct (listing_url page)) (st_io st))
                 (record (st_metrics st) (r_latency resp) (r_size resp))
                 (st_movies st)))
    as (new & n & -> & _ & Hlen & _).
  cbn [st_movies] in Hlen |- *. rewrite Hlen.
  assert (1 <= length (anchored (c :: cards)))%nat
    by (destruct (anchored (c :: cards)); [congruence|cbn [length]; lia]).
  lia.
Qed.

(** X27. step1's [scrape_bs4] ends, by returning or by raising, within
    [max_movies + 1] listing pages on every site whose listing pages either
    have no card or have a card with a movie link. *)
Theorem step1_scrape_bs4_ends (fuel : nat) (max_movies : Z) (s : io) :
  (forall t p resp,
     http_get w t Direct (Step3c.listing_url p) = Returned resp ->
     select (parse_html (r_payload resp)) CARDS = [] \/
     anchored (select (parse_html (r_payload resp)) CARDS) <> []) ->
  (Z.to_nat max_movies < fuel)%nat ->
  exists r, scrape_bs4 float_of_str w urljoin fuel max_movies s = Some r.
Proof.
  intros Hlinks Hfuel. unfold scrape_bs4.
  destruct (scrape_bs4_loop_ends fuel max_movies 1 (mkState s init []) Hlinks)
    as (r & ->).
  { cbn [st_movies length]. lia. }
  destruct r as [st|e]; [|eauto].
  unfold summary. rewrite avg_ms_returns. eauto.
Qed.
End Step1HtmlTermination.

(** The sample site, whose listing page has two cards with links. *)
Lemma step1_scrape_bs4_ends_witness :
  exists r,
    Step1Html.scrape_bs4 Normalizer.digits_to_float Site.site_no_tor Sites.join_url
      3 2 io0 = Some r.
Proof.
  apply (step1_scrape_bs4_ends Normalizer.digits_to_float Site.site_no_tor
           Sites.join_url 3 2 io0).
  - intros t p resp [= <-]. right. discriminate.
  - vm_compute. lia.
Defined.

(** ** The values of the records of a run *)

Section RowRanges.
Import Step3c Ranges Metrics.
Context `{Html}.
Variable float_of_str : string -> option float.
Variable to_datetime : pyval -> option timestamp.
Variable w : world.
Variable cfg : config.

Hypothesis float_of_str_double :
  forall s v, float_of_str s = Some v -> small_mantissa v.
Hypothesis to_datetime_day :
  forall x t, to_datetime x = Some t -> calendar_day (ts_date t) = true.
Hypothesis api_values :
  forall t via page r it,
    api_popular w t via page = Returned r -> it ∈ r_payload r ->
    wf_value (it_vote_average it).

Lemma normalize_date_ok (x : pyval) : date_ok (normalize_date to_datetime x).
Proof.
  unfold normalize_date. destruct (to_datetime x) as [t|] eqn:Hx; [|now left].
  pose proof (to_datetime_day x t Hx) as Hday. right.
  destruct (Z_lt_ge_dec (year (ts_date t)) 1000) as [Hlt|Hge].
  - right. exists (ts_date t). split; [exact Hday|]. split; [exact Hlt|reflexivity].
  - left. exists (ts_date t).
    apply (parse_strftime (ts_date t)), valid_date_calendar. split; [exact Hday|lia].
Qed.

Lemma text_rating_ok (o : option string) :
  rating_ok (normalize_rating float_of_str (from_option VStr VNone o)).
Proof. apply normalize_rating_ok; [exact float_of_str_double|]. now destruct o. Qed.

Lemma take_results_ranges (max_movies : Z) (proxies : bool) (gm : gmap Z string)
    (results : list api_item) (rows : list row) (got : Z) :
  Forall (fun it => wf_value (it_vote_average it)) results ->
  Forall (fun r => rating_ok (rating r) /\ date_ok (release_date r)) rows ->
  Forall (fun r => rating_ok (rating r) /\ date_ok (release_date r))
    (fst (take_results float_of_str to_datetime max_movies proxies gm results rows got)).
Proof.
  revert rows got. induction results as [|it rest IH]; intros rows got Hres Hrows;
    cbn [take_results]; [exact Hrows|].
  destruct (max_movies <=? got); [exact Hrows|].
  apply Forall_cons in Hres as [Hit Hrest].
  apply IH; [exact Hrest|]. apply Forall_app. split; [exact Hrows|].
  constructor; [|constructor]. cbn [api_row rating release_date].
  split; [|apply normalize_date_ok].
  apply normalize_rating_ok; [exact float_of_str_double|exact Hit].
Qed.

Lemma scrape_api_loop_ranges (fuel : nat) (max_movies : Z) (proxies : bool)
    (gm : gmap Z string) (s st : api_state) :
  Forall (fun r => rating_ok (rating r) /\ date_ok (release_date r)) (a_rows s) ->
  scrape_api_loop float_of_str to_datetime w fuel max_movies proxies gm s
  = Some (Returned st) ->
  Forall (fun r => rating_ok (rating r) /\ date_ok (release_date r)) (a_rows st).
Proof.
  revert s. induction fuel as [|fuel IH]; intros s Hs; cbn [scrape_api_loop];
    [discriminate|].
  destruct (a_got s <? max_movies); [|now intros [= <-]].
  destruct (api_popular w (tick (a_io s)) (route_of proxies) (a_page s)) as [r|e] eqn:Hr;
    [|discriminate].
  assert (Hres : Forall (fun it => wf_value (it_vote_average it))
                   (if r_ok r then r_payload r else [])).
  { destruct (r_ok r); [|constructor]. apply Forall_forall. intros it Hit.
    exact (api_values _ _ _ _ _ Hr Hit). }
  pose proof (take_results_ranges max_movies proxies gm _ (a_rows s) (a_got s) Hres Hs)
    as Ht.
  destruct (take_results _ _ _ _ _ _ _ _) as [rows got]. apply IH. exact Ht.
Qed.

Lemma fetch_detail_bs4_rating (i : Z) (via : route) (s s1 : io) (m m1 : metrics)
    (r : row) :
  fetch_detail_bs4 float_of_str w i via s m = Returned (Some r, s1, m1) ->
  rating_ok (rating r).
Proof.
  unfold fetch_detail_bs4.
  destruct (http_get w (tick s) via (detail_url i)) as [resp|e]; [|discriminate].
  destruct (r_ok resp); [|discriminate]. intros [= <- _ _]. cbn [rating].
  destruct (select_one _ "div.user_score_chart"); [apply text_rating_ok|now left].
Qed.

Lemma bs4_details_ratings (ids : list Z) (via : route) (rows rows' : list row)
    (s s' : io) (m m' : metrics) :
  Forall (fun r => rating_ok (rating r)) rows ->
  bs4_details float_of_str w ids via rows s m = Returned (rows', s', m') ->
  Forall (fun r => rating_ok (rating r)) rows'.
Proof.
  revert rows s m. induction ids as [|i ids IH]; intros rows s m Hrows; cbn [bs4_details].
  - now intros [= <- _ _].
  - destruct (fetch_detail_bs4 float_of_str w i via s m) as [[[[r|] s1] m1]|e] eqn:Hf;
      [| |discriminate].
    + apply IH. apply Forall_app. split; [exact Hrows|].
      constructor; [|constructor]. exact (fetch_detail_bs4_rating _ _ _ _ _ _ _ Hf).
    + now apply IH.
Qed.

Lemma selenium_row_rating (use_tor : bool) (i : Z) (url : string) (e : elem) :
  rating_ok (rating (selenium_row float_of_str use_tor i url e)).
Proof.
  cbn [selenium_row rating].
  destruct (select_one e "div.user_score_chart"); [apply text_rating_ok|now left].
Qed.

Lemma sel_detail_step_ratings (use_tor : bool) (st st' : sel_state) (i : Z) :
  sel_detail_step float_of_str w cfg use_tor st i = Returned st' ->
  Forall (fun r => rating_ok (rating r)) (s_rows st) ->
  Forall (fun r => rating_ok (rating r)) (s_rows st').
Proof.
  intros Hstep Hst. unfold sel_detail_step in Hstep.
  destruct (safe_get _ _ _ _ _ _ _) as [[r s1] d1].
  destruct (read_page_source w s1 d1) as [html|e]; [|discriminate].
  assert (Hadd : forall e, Forall (fun r => rating_ok (rating r))
            (s_rows st ++ [selenium_row float_of_str use_tor i (detail_url i) e])).
  { intros e. apply Forall_app. split; [exact Hst|].
    constructor; [apply selenium_row_rating|constructor]. }
  destruct (nav_failed r); [|injection Hstep as <-; apply Hadd].
  destruct (http_get _ _ _ _) as [rr|e]; [|injection Hstep as <-; exact Hst].
  destruct (r_ok rr); injection Hstep as <-; [apply Hadd|exact Hst].
Qed.

(** X28. In every run of step3c that completes, on a site whose API
    sends doubles and with parsers that return doubles and days of the
    calendar (the years 1 to 9999): every rating, in all three record
    sets, is ["N/A"] or [k / 10] for an integer [k] from 0 to 100, and every
    release date of an API record is ["N/A"], or an ISO date [YYYY-MM-DD],
    or, for a day of a year below 1000, that date with its year printed
    without leading zeros. *)
Theorem rows_within_ranges (fuel : nat) (proxy_tor : bool) (max_movies : Z)
    (api_rows bs_rows se_rows : list row) (proxies : bool) :
  main float_of_str to_datetime w cfg fuel proxy_tor max_movies
  = Some (Returned (api_rows, bs_rows, se_rows, proxies)) ->
  Forall (fun r => rating_ok (rating r) /\ date_ok (release_date r)) api_rows /\
  Forall (fun r => rating_ok (rating r)) bs_rows /\
  Forall (fun r => rating_ok (rating r)) se_rows.
Proof.
  unfold main.
  destruct (if proxy_tor then check_tor w io0 else (false, io0)) as [p s0].
  destruct (scrape_api _ _ _ _ _ _ _) as [[[[a ma] s1]|e]|] eqn:Ha; try discriminate.
  destruct (scrape_bs4 _ _ _ _ _ _) as [[[[b mb] s2]|e]|] eqn:Hb; try discriminate.
  destruct (scrape_selenium _ _ _ _ _ _ _ _) as [[[[c mc] s3]|e]|] eqn:Hc; try discriminate.
  intros [= <- <- <- <-]. split; [|split].
  - unfold scrape_api in Ha.
    destruct (fetch_genre_map w (route_of p) s0 init) as [[[gm s0'] m0]|e];
      [|discriminate].
    destruct (scrape_api_loop _ _ _ _ _ _ _ _) as [[st|e]|] eqn:Hloop; try discriminate.
    destruct (summary_mt (a_metrics st)); [|discriminate].
    injection Ha as <- _ _. eapply scrape_api_loop_ranges; [|exact Hloop]. constructor.
  - unfold scrape_bs4 in Hb.
    destruct (get_ids_from_listing _ _ _ _ _ _ _ _) as [[[[ids s1'] m1]|e]|];
      try discriminate.
    destruct (bs4_details _ _ _ _ _ _ _) as [[[rows' s2'] m2]|e] eqn:Hd; [|discriminate].
    destruct (summary_mt m2); [|discriminate].
    injection Hb as <- _ _. eapply bs4_details_ratings; [|exact Hd]. constructor.
  - unfold scrape_selenium in Hc.
    destruct (sel_listing _ _ _ _ _ _ _ _) as [[[ids st]|e]|] eqn:Hl; try discriminate.
    apply sel_listing_rows in Hl. cbn [s_rows] in Hl.
    destruct (sel_details _ _ _ _ _ _) as [st'|e] eqn:Hd; [|discriminate].
    destruct (summary_mt _); [|discriminate]. injection Hc as <- _ _.
    apply (sel_details_keeps float_of_str w cfg
             (fun st0 => Forall (fun r => rating_ok (rating r)) (s_rows st0))
             p (sel_detail_step_ratings p) _ _ _ Hd).
    rewrite Hl. constructor.
Qed.
End RowRanges.

(** The direct run against the sample site. *)
Lemma rows_within_ranges_witness :
  exists api_rows bs_rows se_rows,
    Step3c.main Normalizer.digits_to_float Normalizer.iso_to_datetime
      Site.site_no_tor Site.cfg0 10 false 1
    = Some (Returned (api_rows, bs_rows, se_rows, false)) /\
    rating <$> api_rows = [Normalizer.RNum (fdiv (of_Z 79) ften)] /\
    release_date <$> api_rows = ["1995-12-15"] /\
    Forall (fun r => Ranges.rating_ok (rating r) /\ Ranges.date_ok (release_date r))
      api_rows /\
    Forall (fun r => Ranges.rating_ok (rating r)) bs_rows /\
    Forall (fun r => Ranges.rating_ok (rating r)) se_rows.
Proof.
  eexists _, _, _. split; [vm_compute; reflexivity|].
  split; [vm_compute; reflexivity|]. split; [reflexivity|].
  eapply (rows_within_ranges Normalizer.digits_to_float Normalizer.iso_to_datetime
            Site.site_no_tor Site.cfg0) with (fuel := 10%nat) (proxy_tor := false)
                                             (max_movies := 1).
  - intros s v Hv. unfold Normalizer.digits_to_float in Hv.
    destruct s; [discriminate|].
    destruct (Normalizer.digits_value 0 _) as [z|]; [|discriminate].
    cbn [mbind option_bind] in Hv. unfold float_of_int in Hv.
    pose proof (of_Z_small z) as Hz.
    destruct (of_Z z); try discriminate; now injection Hv as <-.
  - intros x t Hx. now apply valid_date_calendar, (iso_to_datetime_valid x t).
  - intros t via page r it [= <-]. cbn [r_payload].
    destruct (page =? 1); intros Hit.
    + apply list_elem_of_singleton in Hit. subst it. exact I.
    + now apply elem_of_nil in Hit.
  - vm_compute. reflexivity.
Defined.

(** ** The samples kept under any interleaving *)

Section SamplesKept.
Import Metrics SamplesMT.

Lemma concat_insert_tail {A : Type} (ls : list (list A)) (i : nat) (x : A) (t : list A) :
  ls !! i = Some (x :: t) -> concat ls ≡ₚ x :: concat (<[i := t]> ls).
Proof.
  intros Hi. pose proof (lookup_lt_Some _ _ _ Hi) as Hlt.
  rewrite insert_take_drop by exact Hlt.
  rewrite <- (take_drop_middle ls i (x :: t) Hi) at 1.
  rewrite !concat_app. cbn [concat]. rewrite <- app_comm_cons.
  now rewrite <- Permutation_middle.
Qed.

Lemma samples_step (all : list float) (p p' : pool) :
  step p p' ->
  latencies (shared p) ++ concat (pending_samples <$> workers p) ≡ₚ all ->
  latencies (shared p') ++ concat (pending_samples <$> workers p') ≡ₚ all.
Proof.
  intros [q i wk wk' m' Hi Hstep] Hinv. cbn [shared workers].
  rewrite list_fmap_insert.
  assert (Hfi : (pending_samples <$> workers q) !! i = Some (pending_samples wk))
    by (rewrite list_lookup_fmap, Hi; reflexivity).
  unfold worker_step in Hstep.
  destruct wk as [pc todo]. cbn [w_pc w_todo] in Hstep.
  destruct pc as [|t l s|l s|t l s|l s].
  - destruct todo as [|[l s] rest]; [discriminate|]. injection Hstep as <- <-.
    rewrite list_insert_id; [exact Hinv|exact Hfi].
  - injection Hstep as <- <-. cbn [latencies].
    rewrite list_insert_id; [exact Hinv|exact Hfi].
  - injection Hstep as <- <-.
    rewrite list_insert_id; [exact Hinv|exact Hfi].
  - injection Hstep as <- <-. cbn [latencies].
    rewrite list_insert_id; [exact Hinv|exact Hfi].
  - injection Hstep as <- <-. cbn [latencies].
    rewrite <- Hinv.
    rewrite (concat_insert_tail (pending_samples <$> workers q) i (pymax fzero l)
               (samples todo) Hfi).
    cbn [pending_samples w_pc w_todo].
    rewrite <- app_assoc. cbn [app].
    reflexivity.
Qed.

Lemma samples_steps (all : list float) (p p' : pool) :
  rtc step p p' ->
  latencies (shared p) ++ concat (pending_samples <$> workers p) ≡ₚ all ->
  latencies (shared p') ++ concat (pending_samples <$> workers p') ≡ₚ all.
Proof. induction 1 as [|p q r Hstep _ IH]; [auto|]. intros Hp. eapply IH, samples_step; eauto. Qed.

(** X29. Whatever the interleaving of the worker threads, when all of
    them have returned the accumulator holds the latency sample of every
    [record] call exactly once: its list of latencies is a permutation of
    the samples of the calls submitted. *)
Theorem latencies_all_kept (todos : list (list (float * Z))) (p : pool) :
  rtc step (start todos) p -> finished p ->
  latencies (shared p) ≡ₚ all_samples todos.
Proof.
  intros Hrun Hfin.
  pose proof (samples_steps (all_samples todos) _ _ Hrun) as Hinv.
  assert (Hdone : concat (pending_samples <$> workers p) = []).
  { unfold finished in Hfin. revert Hfin. generalize (workers p) as ws.
    induction 1 as [|wk ws Hwk _ IH]; [reflexivity|].
    rewrite fmap_cons. cbn [concat]. rewrite IH, Hwk. reflexivity. }
  rewrite Hdone, app_nil_r in Hinv. apply Hinv.
  unfold start. cbn [shared workers latencies init app]. unfold all_samples.
  rewrite <- list_fmap_compose. reflexivity.
Qed.

(** The racy schedule on the two workers. *)
Lemma latencies_all_kept_witness :
  exists p : MetricsMT.pool,
    rtc MetricsMT.step (MetricsMT.start MetricsMT.two_workers) p /\
    MetricsMT.finished p /\
    latencies (shared p) ≡ₚ all_samples MetricsMT.two_workers.
Proof.
  destruct racy_run as (p & _ & Hrun & Hfin).
  exists p. split; [exact Hrun|]. split; [exact Hfin|].
  exact (latencies_all_kept _ p Hrun Hfin).
Defined.
End SamplesKept.

(** ** Workers between the switch points of the interpreter *)

Section GilFacts.
Import Metrics MetricsGil.













End GilFacts.



